(** * SheetDataViewer: the grid pipeline of the inventory dashboard

    A shallow embedding of the data-viewer component of
    [src/components/AreaPage.tsx] (the [SheetDataViewer] function component):
    the memoised derivations [reorderedData], [types], [areas], [cabinets],
    [filteredBodyRows] and [visibleEquipmentColumns], the two effects
    that own the filter reset and the polling fetch, and what the component
    returns; then of the navigation of [App] and [AreaPage] around it, and
    of the request and the submission of [CreateCustomerForm].

    Conventions of the embedding.
    - A JavaScript string is a [string]; [toLowerCase], [trim] and
      [parseInt] are written out for the ASCII range (letters [A]-[Z], the
      white space characters TAB, LF, VT, FF, CR and SPACE); other code
      units are left alone.  The embedding is exact on strings of ASCII
      characters and on no others: JavaScript also folds the capital
      letters beyond [A]-[Z], and [trim] and [parseInt] also skip the white
      space beyond ASCII (U+00A0, U+FEFF, the Unicode space separators and
      the line terminators U+2028 and U+2029).  Every property below is a
      property of grids and terms of ASCII characters.
    - A cell read out of range is [undefined] in JavaScript, so a cell is
      either [Undefined] or [Str s].
    - Array indices are [Z], with [-1] for "not found", as [findIndex] has it.
    - Calling a method on [undefined] raises a [TypeError]; a computation
      that may do so returns a [result]. *)

From Stdlib Require Import ZArith List String Ascii Bool Lia DecimalString.
From stdpp Require Import base option list gmap.
Import ListNotations.

Local Open Scope string_scope.
Local Open Scope list_scope.
Local Open Scope Z_scope.

(** ** JavaScript strings *)

Module JsString.

Definition is_upper (c : ascii) : bool :=
  let n := nat_of_ascii c in (65 <=? n)%nat && (n <=? 90)%nat.

Definition lower_char (c : ascii) : ascii :=
  if is_upper c then ascii_of_nat (nat_of_ascii c + 32) else c.

(** [s.toLowerCase()], for the letters [A]-[Z]; a capital letter out of
    the ASCII range, which JavaScript folds too, is left as it is. *)
Fixpoint toLowerCase (s : string) : string :=
  match s with
  | EmptyString => EmptyString
  | String c s' => String (lower_char c) (toLowerCase s')
  end.

(** The white space of [trim] and [parseInt] within ASCII: TAB, LF, VT,
    FF, CR and SPACE.  JavaScript strips the white space and the line
    terminators beyond ASCII as well; here they stay. *)
Definition is_space (c : ascii) : bool :=
  let n := nat_of_ascii c in
  ((9 <=? n)%nat && (n <=? 13)%nat) || (n =? 32)%nat.

Fixpoint trimStart (s : string) : string :=
  match s with
  | EmptyString => EmptyString
  | String c s' => if is_space c then trimStart s' else s
  end.

Fixpoint trimEnd (s : string) : string :=
  match s with
  | EmptyString => EmptyString
  | String c s' =>
      match trimEnd s' with
      | EmptyString => if is_space c then EmptyString else String c EmptyString
      | t => String c t
      end
  end.

(** [s.trim()], for the white space of [is_space]. *)
Definition trim (s : string) : string := trimEnd (trimStart s).

(** [s.includes(t)] *)
Fixpoint includes (s t : string) : bool :=
  String.prefix t s ||
  match s with
  | EmptyString => false
  | String _ s' => includes s' t
  end.

(** A string is truthy unless it is empty. *)
Definition truthy (s : string) : bool :=
  match s with EmptyString => false | _ => true end.

Definition digit_of (c : ascii) : option Z :=
  let n := nat_of_ascii c in
  if (48 <=? n)%nat && (n <=? 57)%nat then Some (Z.of_nat (n - 48)) else None.

(** The longest prefix of decimal digits, as a number; [None] when the
    prefix is empty (the [NaN] of [parseInt]). *)
Fixpoint parse_digits (acc : option Z) (s : string) : option Z :=
  match s with
  | EmptyString => acc
  | String c s' =>
      match digit_of c with
      | Some d => parse_digits (Some (10 * default 0 acc + d)) s'
      | None => acc
      end
  end.

(** [parseInt(s, 10)]: leading white space, an optional sign, digits.  The
    white space skipped is that of [is_space], so that a numeral behind a
    white space character out of the ASCII range is not read here. *)
Definition parseInt10 (s : string) : option Z :=
  match trimStart s with
  | String "-"%char r => Z.opp <$> parse_digits None r
  | String "+"%char r => parse_digits None r
  | r => parse_digits None r
  end.

End JsString.

Import JsString.

(** ** Errors *)

Inductive result (A : Type) : Type :=
| Ok (a : A)
| TypeError.
Arguments Ok {A} a.
Arguments TypeError {A}.

#[global] Instance result_ret : MRet result := fun _ a => Ok a.
#[global] Instance result_bind : MBind result := fun _ _ f m =>
  match m with
  | Ok a => f a
  | TypeError => TypeError
  end.
#[global] Instance result_fmap : FMap result := fun _ _ f m =>
  match m with
  | Ok a => Ok (f a)
  | TypeError => TypeError
  end.

(** ** Grids *)

Inductive cell : Type :=
| Undefined
| Str (s : string).

#[global] Instance cell_eq_dec : EqDecision cell.
Proof. solve_decision. Defined.

Abbreviation row := (list cell).
Abbreviation grid := (list (list cell)).

(** [=== ] on cells *)
Definition strict_eq (a b : cell) : bool := bool_decide (a = b).

(** [Boolean(c)], also the left operand of [c && ...] *)
Definition Boolean (c : cell) : bool :=
  match c with
  | Undefined => false
  | Str s => truthy s
  end.

(** [r[i]] *)
Definition at_index (r : row) (i : Z) : cell :=
  if i <? 0 then Undefined else default Undefined (r !! Z.to_nat i).

(** [l.slice(n)] for [0 <= n] *)
Definition slice_from {A} (l : list A) (n : Z) : list A := drop (Z.to_nat n) l.

(** [l.filter((_, index) => p index)], the index counted from [i] *)
Fixpoint filter_index_from {A} (p : Z -> bool) (l : list A) (i : Z) : list A :=
  match l with
  | [] => []
  | x :: l' =>
      if p i then x :: filter_index_from p l' (i + 1)
      else filter_index_from p l' (i + 1)
  end.

Definition filter_index {A} (p : Z -> bool) (l : list A) : list A :=
  filter_index_from p l 0.

(** [l.splice(start, 0, x)]: the start is clamped to the length, and a
    negative start counts from the end. *)
Definition splice_insert {A} (l : list A) (start : Z) (x : A) : list A :=
  let len := Z.of_nat (length l) in
  let s := if start <? 0 then Z.max (len + start) 0 else Z.min start len in
  take (Z.to_nat s) l ++ x :: drop (Z.to_nat s) l.

(** The callback [header => header.toLowerCase().trim() === label]. *)
Definition header_is (label : string) (header : cell) : result bool :=
  match header with
  | Undefined => TypeError
  | Str s => Ok (String.eqb (trim (toLowerCase s)) label)
  end.

(** [r.findIndex(p)], the index counted from [i]: the callback runs on the
    cells in order and stops at the first hit. *)
Fixpoint findIndex_from (p : cell -> result bool) (r : row) (i : Z) : result Z :=
  match r with
  | [] => Ok (-1)
  | x :: r' =>
      b ← p x;
      if b : bool then Ok i else findIndex_from p r' (i + 1)
  end.

Definition findIndex (p : cell -> result bool) (r : row) : result Z :=
  findIndex_from p r 0.

(** ** ColumnReorderer: the [reorderedData] memo *)

(** The callback of [data.map] in [reorderedData]. *)
Definition reorder_row (originalAreaIndex originalCabinetIndex : Z) (r : row) : row :=
  let cabinetValue := at_index r originalCabinetIndex in
  let rowWithoutCabinet :=
    filter_index (fun index => negb (index =? originalCabinetIndex)) r in
  let newAreaIndex :=
    if originalCabinetIndex <? originalAreaIndex
    then originalAreaIndex - 1 else originalAreaIndex in
  splice_insert rowWithoutCabinet (newAreaIndex + 1) cabinetValue.

Definition reorderedData (isEquipmentView : bool) (data : option grid)
  : result (option grid) :=
  match data with
  | None => Ok None
  | Some [] => Ok data
  | Some ((firstHeaderRow :: _) as d) =>
      if negb isEquipmentView then Ok data else
      originalAreaIndex ← findIndex (header_is "area") firstHeaderRow;
      originalCabinetIndex ← findIndex (header_is "cabinet") firstHeaderRow;
      if (originalAreaIndex =? -1) || (originalCabinetIndex =? -1)
         || (originalCabinetIndex =? originalAreaIndex + 1)
      then Ok data
      else Ok (Some (map (reorder_row originalAreaIndex originalCabinetIndex) d))
  end.

(** ** Dataset kinds *)

Inductive DataType : Type := stock | stock_abb | stock_supcon | equipment.

Definition dataType_string (dataType : DataType) : string :=
  match dataType with
  | stock => "stock"
  | stock_abb => "stock_abb"
  | stock_supcon => "stock_supcon"
  | equipment => "equipment"
  end.

Definition isEquipmentView (dataType : DataType) : bool :=
  String.eqb (dataType_string dataType) "equipment".

Definition headerRowCount (dataType : DataType) : Z :=
  if includes (dataType_string dataType) "stock" then 1 else 4.

Definition isFilterableView (dataType : DataType) : bool :=
  includes (dataType_string dataType) "stock"
  || String.eqb (dataType_string dataType) "equipment".

(** ** FilterEngine: the facet memos *)

(** [String(c)] *)
Definition ToString (c : cell) : string :=
  match c with
  | Undefined => "undefined"
  | Str s => s
  end.

(** [new Set(l)] spread back into an array: a [Set] keeps its members in
    insertion order, and adding a member a second time changes nothing. *)
Definition Set_add (s : list cell) (x : cell) : list cell :=
  if bool_decide (x ∈ s) then s else s ++ [x].

Definition new_Set (l : list cell) : list cell := fold_left Set_add l [].

(** [rows.map(row => row[i]).filter(Boolean)], made unique *)
Definition unique_column (rows : list row) (i : Z) : list cell :=
  new_Set (List.filter Boolean (map (fun r => at_index r i) rows)).

(** The memo [{ types, typeColumnIndex }]. *)
Definition types_memo (isFilterableView : bool) (reorderedData : option grid)
    (headerRowCount : Z) : result (list cell * Z) :=
  match reorderedData with
  | None => Ok ([], -1)
  | Some rd =>
      if negb isFilterableView || (Z.of_nat (length rd) <? headerRowCount + 1)
      then Ok ([], -1)
      else
        match rd with
        | [] => TypeError
        | firstHeaderRow :: _ =>
            typeIndex ← findIndex (header_is "type") firstHeaderRow;
            if typeIndex =? -1 then Ok ([], -1)
            else
              let uniqueTypes := unique_column (slice_from rd headerRowCount) typeIndex in
              Ok (Str "All" :: uniqueTypes, typeIndex)
        end
  end.

(** The memo [{ areas, areaColumnIndex }]. *)
Definition areas_memo (reorderedData : option grid) (headerRowCount : Z)
  : result (list cell * Z) :=
  match reorderedData with
  | None => Ok ([], -1)
  | Some rd =>
      if Z.of_nat (length rd) <? headerRowCount + 1
      then Ok ([], -1)
      else
        match rd with
        | [] => TypeError
        | firstHeaderRow :: _ =>
            areaIndex ← findIndex (header_is "area") firstHeaderRow;
            if areaIndex =? -1 then Ok ([], -1)
            else
              let uniqueAreas := unique_column (slice_from rd headerRowCount) areaIndex in
              Ok (Str "All" :: uniqueAreas, areaIndex)
        end
  end.

(** The memo [{ cabinets, cabinetColumnIndex }]. *)
Definition cabinets_memo (isEquipmentView : bool) (reorderedData : option grid)
    (selectedArea : string) (areaColumnIndex headerRowCount : Z)
  : result (list cell * Z) :=
  match reorderedData with
  | None => Ok ([], -1)
  | Some rd =>
      if negb isEquipmentView || (Z.of_nat (length rd) <? headerRowCount + 1)
      then Ok ([], -1)
      else
        match rd with
        | [] => TypeError
        | firstHeaderRow :: _ =>
            cabinetIndex ← findIndex (header_is "cabinet") firstHeaderRow;
            if (cabinetIndex =? -1) || String.eqb selectedArea "All"
               || (areaColumnIndex =? -1)
            then Ok ([], cabinetIndex)
            else
              let uniqueCabinetsInArea :=
                unique_column
                  (List.filter
                     (fun r => strict_eq (at_index r areaColumnIndex) (Str selectedArea))
                     (slice_from rd headerRowCount))
                  cabinetIndex in
              let cabinetOptions :=
                if (0 <? length uniqueCabinetsInArea)%nat
                then Str "All" :: uniqueCabinetsInArea else [] in
              Ok (cabinetOptions, cabinetIndex)
        end
  end.

(** ** FilterEngine: the passes of [filteredBodyRows] *)

Definition type_pass (isFilterableView : bool) (selectedType : string)
    (typeColumnIndex : Z) (rows : list row) : list row :=
  if isFilterableView && negb (String.eqb selectedType "All")
     && negb (typeColumnIndex =? -1)
  then List.filter (fun r => strict_eq (at_index r typeColumnIndex) (Str selectedType)) rows
  else rows.

Definition area_pass (selectedArea : string) (areaColumnIndex : Z)
    (rows : list row) : list row :=
  if negb (String.eqb selectedArea "All") && negb (areaColumnIndex =? -1)
  then List.filter (fun r => strict_eq (at_index r areaColumnIndex) (Str selectedArea)) rows
  else rows.

Definition cabinet_pass (isEquipmentView : bool) (selectedCabinet : string)
    (cabinetColumnIndex : Z) (rows : list row) : list row :=
  if isEquipmentView && negb (String.eqb selectedCabinet "All")
     && negb (cabinetColumnIndex =? -1)
  then List.filter (fun r => strict_eq (at_index r cabinetColumnIndex) (Str selectedCabinet)) rows
  else rows.

(** The callback [cell => cell && String(cell).toLowerCase().includes(lowerTerm)]. *)
Definition cell_includes (lowerTerm : string) (c : cell) : bool :=
  Boolean c && includes (toLowerCase (ToString c)) lowerTerm.

Definition search_pass (isEquipmentView : bool) (searchTerm : string)
    (rows : list row) : list row :=
  if truthy searchTerm then
    let lowerTerm := toLowerCase searchTerm in
    if isEquipmentView then rows
    else List.filter (fun r => existsb (cell_includes lowerTerm) r) rows
  else rows.

(** The callback [cell => cell && cell.trim() !== ''] *)
Definition cell_has_value (c : cell) : bool :=
  match c with
  | Undefined => false
  | Str s => truthy s && negb (String.eqb (trim s) "")
  end.

Definition nonempty_pass (isEquipmentView : bool) (rows : list row) : list row :=
  if isEquipmentView then List.filter (fun r => existsb cell_has_value r) rows
  else rows.

Definition filteredBodyRows (reorderedData : option grid)
    (selectedType selectedArea selectedCabinet searchTerm : string)
    (isFilterableView : bool) (typeColumnIndex areaColumnIndex cabinetColumnIndex : Z)
    (isEquipmentView : bool) (headerRowCount : Z) : list row :=
  let rows :=
    match reorderedData with
    | Some rd => slice_from rd headerRowCount
    | None => []
    end in
  let rows := type_pass isFilterableView selectedType typeColumnIndex rows in
  let rows := area_pass selectedArea areaColumnIndex rows in
  let rows := cabinet_pass isEquipmentView selectedCabinet cabinetColumnIndex rows in
  let rows := search_pass isEquipmentView searchTerm rows in
  nonempty_pass isEquipmentView rows.

(** ** ColumnVisibilityResolver: the [visibleEquipmentColumns] memo *)

(** [parseInt(c, 10)]; [None] is [NaN]. *)
Definition parseInt (c : cell) : option Z := parseInt10 (ToString c).

(** The callback of [filteredBodyRows.some] in the default mode. *)
Definition positive_at (colIndex : Z) (r : row) : bool :=
  let cellValue := at_index r colIndex in
  match parseInt cellValue with
  | Some numericValue => 0 <? numericValue
  | None => false
  end.

(** The body of the loop over the columns from 3 on. *)
Definition visit_column (firstHeaderRow : row) (filteredBodyRows : list row)
    (searchTerm lowerSearchTerm : string) (visibleIndices : gset Z) (colIndex : Z)
  : gset Z :=
  if truthy searchTerm then
    let headerName := at_index firstHeaderRow colIndex in
    if Boolean headerName && includes (toLowerCase (ToString headerName)) lowerSearchTerm
    then {[colIndex]} ∪ visibleIndices
    else visibleIndices
  else
    let hasNumericData := existsb (positive_at colIndex) filteredBodyRows in
    if hasNumericData then {[colIndex]} ∪ visibleIndices else visibleIndices.

(** [None] is the [null] that stands for "show all columns". *)
Definition visibleEquipmentColumns (isEquipmentView : bool)
    (filteredBodyRows : list row) (reorderedData : option grid)
    (searchTerm : string) : option (gset Z) :=
  match reorderedData with
  | None => None
  | Some rd =>
      if negb isEquipmentView || (length filteredBodyRows =? 0)%nat then None
      else
        let firstHeaderRow := match rd with h :: _ => h | [] => [] end in
        let totalColumns := Z.of_nat (length firstHeaderRow) in
        let visibleIndices : gset Z := {[2]} ∪ ({[1]} ∪ ({[0]} ∪ ∅)) in
        let lowerSearchTerm := toLowerCase searchTerm in
        Some (fold_left
                (visit_column firstHeaderRow filteredBodyRows searchTerm lowerSearchTerm)
                (seqZ 3 (totalColumns - 3)) visibleIndices)
  end.

(** ** The derived view of one render *)

Record FilterState : Type := {
  selectedType : string;
  selectedArea : string;
  selectedCabinet : string;
  searchTerm : string
}.

Record View : Type := {
  v_reorderedData : option grid;
  v_types : list cell;
  v_typeColumnIndex : Z;
  v_areas : list cell;
  v_areaColumnIndex : Z;
  v_cabinets : list cell;
  v_cabinetColumnIndex : Z;
  v_filteredBodyRows : list row;
  v_visibleEquipmentColumns : option (gset Z)
}.

(** The memos in the order the component body evaluates them. *)
Definition render (dataType : DataType) (data : option grid) (fs : FilterState)
  : result View :=
  let eq := isEquipmentView dataType in
  let h := headerRowCount dataType in
  let flt := isFilterableView dataType in
  rd ← reorderedData eq data;
  '(types, typeColumnIndex) ← types_memo flt rd h;
  '(areas, areaColumnIndex) ← areas_memo rd h;
  '(cabinets, cabinetColumnIndex) ←
     cabinets_memo eq rd (selectedArea fs) areaColumnIndex h;
  let rows :=
    filteredBodyRows rd (selectedType fs) (selectedArea fs) (selectedCabinet fs)
      (searchTerm fs) flt typeColumnIndex areaColumnIndex cabinetColumnIndex eq h in
  Ok {| v_reorderedData := rd;
        v_types := types; v_typeColumnIndex := typeColumnIndex;
        v_areas := areas; v_areaColumnIndex := areaColumnIndex;
        v_cabinets := cabinets; v_cabinetColumnIndex := cabinetColumnIndex;
        v_filteredBodyRows := rows;
        v_visibleEquipmentColumns :=
          visibleEquipmentColumns eq rows rd (searchTerm fs) |}.

(** ** GridFetcher and the filter reset: the component as a state machine

    The hooks of [SheetDataViewer] are modelled as one state record.  An
    event is handled by the handler the component registered for it, and a
    mounted component is then committed: every effect whose dependencies
    differ from those of its last run is run, and the state updates the
    effects make are committed in turn. *)

Inductive Area : Type := PULP2 | NPP11 | EWTP.

#[global] Instance Area_eq_dec : EqDecision Area.
Proof. solve_decision. Defined.
#[global] Instance DataType_eq_dec : EqDecision DataType.
Proof. solve_decision. Defined.

(** The body of a response whose JSON parses: [result.success], [result.data]
    when it is an array, and [result.error] when present. *)
Record Payload : Type := {
  success : bool;
  payload_data : option grid;
  payload_error : option string
}.

(** What a call of [fetch] settles with. *)
Inductive Response : Type :=
| NetworkFailure (message : string)   (* [fetch] rejects *)
| HttpStatus (status : string)        (* [res.ok] is false *)
| JsonFailure (message : string)      (* [res.json()] rejects *)
| Json (result : Payload).

(** A request made by [fetchData]: the query parameters, the run of the
    fetch effect that made it, and [isInitialLoad]. *)
Record Request : Type := {
  req_area : Area;
  req_type : DataType;
  req_run : nat;
  req_isInitialLoad : bool
}.

Record State : Type := {
  (* props *)
  area : Area;
  dataType : DataType;
  (* useState *)
  data : option grid;
  loading : bool;
  error : option string;
  filters : FilterState;
  (* the variable [isMounted] of each run of the fetch effect *)
  isMounted : list bool;
  (* the run whose interval timer is set *)
  intervalId : option nat;
  (* the dependencies the two effects last ran with *)
  deps_selectedArea : option string;
  deps_fetch : option (Area * DataType);
  (* the component is in the tree *)
  alive : bool;
  (* the requests sent so far, oldest first *)
  requests : list Request
}.

Definition setData (d : option grid) (st : State) : State :=
  {| area := area st; dataType := dataType st; data := d; loading := loading st;
     error := error st; filters := filters st; isMounted := isMounted st;
     intervalId := intervalId st; deps_selectedArea := deps_selectedArea st;
     deps_fetch := deps_fetch st; alive := alive st; requests := requests st |}.

Definition setLoading (b : bool) (st : State) : State :=
  {| area := area st; dataType := dataType st; data := data st; loading := b;
     error := error st; filters := filters st; isMounted := isMounted st;
     intervalId := intervalId st; deps_selectedArea := deps_selectedArea st;
     deps_fetch := deps_fetch st; alive := alive st; requests := requests st |}.

Definition setError (e : option string) (st : State) : State :=
  {| area := area st; dataType := dataType st; data := data st; loading := loading st;
     error := e; filters := filters st; isMounted := isMounted st;
     intervalId := intervalId st; deps_selectedArea := deps_selectedArea st;
     deps_fetch := deps_fetch st; alive := alive st; requests := requests st |}.

Definition setFilters (f : FilterState) (st : State) : State :=
  {| area := area st; dataType := dataType st; data := data st; loading := loading st;
     error := error st; filters := f; isMounted := isMounted st;
     intervalId := intervalId st; deps_selectedArea := deps_selectedArea st;
     deps_fetch := deps_fetch st; alive := alive st; requests := requests st |}.

Definition setSelectedType (v : string) (st : State) : State :=
  let f := filters st in
  setFilters {| selectedType := v; selectedArea := selectedArea f;
                selectedCabinet := selectedCabinet f; searchTerm := searchTerm f |} st.

Definition setSelectedArea (v : string) (st : State) : State :=
  let f := filters st in
  setFilters {| selectedType := selectedType f; selectedArea := v;
                selectedCabinet := selectedCabinet f; searchTerm := searchTerm f |} st.

Definition setSelectedCabinet (v : string) (st : State) : State :=
  let f := filters st in
  setFilters {| selectedType := selectedType f; selectedArea := selectedArea f;
                selectedCabinet := v; searchTerm := searchTerm f |} st.

Definition setSearchTerm (v : string) (st : State) : State :=
  let f := filters st in
  setFilters {| selectedType := selectedType f; selectedArea := selectedArea f;
                selectedCabinet := selectedCabinet f; searchTerm := v |} st.

(** [fetchData(isInitialLoad)], called by run [run] of the fetch effect:
    the synchronous part, up to the call of [fetch]. *)
Definition fetchData (run : nat) (isInitialLoad : bool) (st : State) : State :=
  let st := if isInitialLoad then setError None (setLoading true st) else st in
  {| area := area st; dataType := dataType st; data := data st; loading := loading st;
     error := error st; filters := filters st; isMounted := isMounted st;
     intervalId := intervalId st; deps_selectedArea := deps_selectedArea st;
     deps_fetch := deps_fetch st; alive := alive st;
     requests := requests st ++
       [{| req_area := area st; req_type := dataType st; req_run := run;
           req_isInitialLoad := isInitialLoad |}] |}.

(** The message of the error the first [then] throws on a bad status. *)
Definition http_message (status : string) : string :=
  String.append "HTTP error! status: " status.

(** [result.error || 'Invalid data format received.'] *)
Definition format_message (result : Payload) : string :=
  match payload_error result with
  | Some m => if truthy m then m else "Invalid data format received."
  | None => "Invalid data format received."
  end.

(** The first [then]: the parsed body, or the message of the error. *)
Definition parsed (resp : Response) : string + Payload :=
  match resp with
  | NetworkFailure m => inl m
  | HttpStatus status => inl (http_message status)
  | JsonFailure m => inl m
  | Json result => inr result
  end.

(** The second [then], [catch] and [finally] of the promise chain of a
    request of run [run], once its [fetch] has settled with [resp]. *)
Definition settle (run : nat) (isInitialLoad : bool) (resp : Response)
    (st : State) : State :=
  let mounted (s : State) : bool := default false (isMounted s !! run) in
  (* .then(result => ...) *)
  let '(st, thrown) :=
    match parsed resp with
    | inl m => (st, Some m)
    | inr result =>
        if negb (mounted st) then (st, None)
        else
          match success result, payload_data result with
          | true, Some d =>
              let st := setData (Some d) st in
              (if isInitialLoad then setError None st else st, None)
          | _, _ => (st, Some (format_message result))
          end
    end in
  (* .catch(err => ...) *)
  let st :=
    match thrown with
    | None => st
    | Some m =>
        if negb (mounted st) then st
        else if isInitialLoad then setError (Some m) st else st
    end in
  (* .finally(() => ...) *)
  if mounted st && isInitialLoad then setLoading false st else st.

(** The cleanup of the fetch effect: [isMounted = false; clearInterval]. *)
Definition cleanup (st : State) : State :=
  {| area := area st; dataType := dataType st; data := data st; loading := loading st;
     error := error st; filters := filters st;
     isMounted :=
       match intervalId st with
       | Some run => <[run := false]> (isMounted st)
       | None => isMounted st
       end;
     intervalId := None; deps_selectedArea := deps_selectedArea st;
     deps_fetch := deps_fetch st; alive := alive st; requests := requests st |}.

(** The effect with dependencies [[selectedArea]]. *)
Definition effect_selectedArea (st : State) : State :=
  let st := setSelectedCabinet "All" st in
  {| area := area st; dataType := dataType st; data := data st; loading := loading st;
     error := error st; filters := filters st; isMounted := isMounted st;
     intervalId := intervalId st;
     deps_selectedArea := Some (selectedArea (filters st));
     deps_fetch := deps_fetch st; alive := alive st; requests := requests st |}.

(** The effect with dependencies [[area, dataType]]: the cleanup of its
    last run, then its body. *)
Definition effect_fetch (st : State) : State :=
  let st := cleanup st in
  let run := length (isMounted st) in
  let st :=
    {| area := area st; dataType := dataType st; data := data st; loading := loading st;
       error := error st; filters := filters st;
       isMounted := isMounted st ++ [true];
       intervalId := intervalId st; deps_selectedArea := deps_selectedArea st;
       deps_fetch := Some (area st, dataType st); alive := alive st;
       requests := requests st |} in
  let st := fetchData run true st in
  let st := setSelectedType "All" st in
  let st := setSelectedArea "All" st in
  let st := setSelectedCabinet "All" st in
  let st := setSearchTerm "" st in
  {| area := area st; dataType := dataType st; data := data st; loading := loading st;
     error := error st; filters := filters st; isMounted := isMounted st;
     intervalId := Some run; deps_selectedArea := deps_selectedArea st;
     deps_fetch := deps_fetch st; alive := alive st; requests := requests st |}.

(** One commit: the effects run in the order of their declaration, each
    when its dependencies in the committed render differ from those of its
    last run. *)
Definition commit_once (st : State) : State :=
  let st :=
    if bool_decide (deps_selectedArea st = Some (selectedArea (filters st))) then st
    else effect_selectedArea st in
  let st :=
    if bool_decide (deps_fetch st = Some (area st, dataType st)) then st
    else effect_fetch st in
  st.

(** The updates made by the effects cause a render of their own; after two
    commits nothing is left to run (see [commit_is_settled]). *)
Definition commit (st : State) : State := commit_once (commit_once st).

Inductive Event : Type :=
| ClickType (v : string)
| ClickArea (v : string)
| ChangeCabinet (v : string)
| ChangeSearch (v : string)
| Props (a : Area) (d : DataType)
| Tick
| Settled (run : nat) (isInitialLoad : bool) (resp : Response)
| Unmount.

Definition setProps (a : Area) (d : DataType) (st : State) : State :=
  {| area := a; dataType := d; data := data st; loading := loading st;
     error := error st; filters := filters st; isMounted := isMounted st;
     intervalId := intervalId st; deps_selectedArea := deps_selectedArea st;
     deps_fetch := deps_fetch st; alive := alive st; requests := requests st |}.

Definition unmounted (st : State) : State :=
  {| area := area st; dataType := dataType st; data := data st; loading := loading st;
     error := error st; filters := filters st; isMounted := isMounted st;
     intervalId := intervalId st; deps_selectedArea := deps_selectedArea st;
     deps_fetch := deps_fetch st; alive := false; requests := requests st |}.

Definition handle (ev : Event) (st : State) : State :=
  match ev with
  | Settled run isInitialLoad resp => settle run isInitialLoad resp st
  | _ =>
      if negb (alive st) then st else
      match ev with
      | ClickType v => setSelectedType v st
      | ClickArea v => setSelectedArea v st
      | ChangeCabinet v => setSelectedCabinet v st
      | ChangeSearch v => setSearchTerm v st
      | Props a d => setProps a d st
      | Tick =>
          match intervalId st with
          | Some run => fetchData run false st
          | None => st
          end
      | Unmount => unmounted (cleanup st)
      | Settled _ _ _ => st
      end
  end.

Definition step (ev : Event) (st : State) : State :=
  let st := handle ev st in
  if alive st then commit st else st.

(** The first render and its commit. *)
Definition mount (a : Area) (d : DataType) : State :=
  commit
    {| area := a; dataType := d; data := None; loading := true; error := None;
       filters := {| selectedType := "All"; selectedArea := "All";
                     selectedCabinet := "All"; searchTerm := "" |};
       isMounted := []; intervalId := None; deps_selectedArea := None;
       deps_fetch := None; alive := true; requests := [] |}.

Definition run_events (evs : list Event) (st : State) : State :=
  fold_left (fun s ev => step ev s) evs st.

(** ** ViewRenderer: what [SheetDataViewer] returns *)

Definition isAreaFiltered (isEquipmentView : bool) (selectedArea : string) : bool :=
  isEquipmentView && negb (String.eqb selectedArea "All").

(** The controls of [renderFilters]: the search bar, and for each facet its
    options when its control is shown. *)
Record Controls : Type := {
  searchBar : bool;
  typeButtons : option (list cell);
  areaButtons : option (list cell);
  cabinetSelect : option (list cell)
}.

(** [renderFilters()]; [None] is [null]. *)
Definition renderFilters (isFilterableView isEquipmentView : bool)
    (types areas cabinets : list cell) : option Controls :=
  if negb isFilterableView then None
  else
    let showTypeFilter := (1 <? length types)%nat in
    let showAreaFilter := isEquipmentView && (1 <? length areas)%nat in
    let showCabinetFilter := isEquipmentView && (1 <? length cabinets)%nat in
    Some {| searchBar := negb isEquipmentView;
            typeButtons := if showTypeFilter then Some types else None;
            areaButtons := if showAreaFilter then Some areas else None;
            cabinetSelect := if showCabinetFilter then Some cabinets else None |}.

(** The callback of [row.map] in [thead] and in [tbody] returns [null] for
    a hidden column and for the column of the selected area. *)
Definition cell_drawn (isEquipmentView : bool)
    (visibleEquipmentColumns : option (gset Z)) (isAreaFiltered : bool)
    (areaColumnIndex cellIndex : Z) : bool :=
  if isEquipmentView
     && match visibleEquipmentColumns with
        | Some vis => negb (bool_decide (cellIndex ∈ vis))
        | None => false
        end
  then false
  else if isAreaFiltered && negb (areaColumnIndex =? -1)
          && (cellIndex =? areaColumnIndex)
  then false
  else true.

(** The cells a row is drawn with, each under its [key], the index of its
    column. *)
Fixpoint draw_cells_from (keep : Z -> bool) (r : row) (i : Z) : list (Z * cell) :=
  match r with
  | [] => []
  | c :: r' =>
      if keep i then (i, c) :: draw_cells_from keep r' (i + 1)
      else draw_cells_from keep r' (i + 1)
  end.

Definition draw_row (isEquipmentView : bool)
    (visibleEquipmentColumns : option (gset Z)) (isAreaFiltered : bool)
    (areaColumnIndex : Z) (r : row) : list (Z * cell) :=
  draw_cells_from
    (cell_drawn isEquipmentView visibleEquipmentColumns isAreaFiltered areaColumnIndex)
    r 0.

Inductive Content : Type :=
| Table (thead tbody : list (list (Z * cell)))
| Message (text : string).

Inductive Screen : Type :=
| Spinner
| ErrorPanel (message : string)
| Page (controls : option Controls) (content : Content).

(** [l.slice(0, n)] for [0 <= n] *)
Definition slice_to {A} (l : list A) (n : Z) : list A := take (Z.to_nat n) l.

(** The JSX of the last [return]: the controls, and the table or, without
    a visible row, one of two messages. *)
Definition page (dataType : DataType) (fs : FilterState) (v : View) : Screen :=
  let eq := isEquipmentView dataType in
  let h := headerRowCount dataType in
  let headerRows :=
    match v_reorderedData v with
    | Some rd => slice_to rd h
    | None => []
    end in
  let draw :=
    draw_row eq (v_visibleEquipmentColumns v)
      (isAreaFiltered eq (selectedArea fs)) (v_areaColumnIndex v) in
  Page
    (renderFilters (isFilterableView dataType) eq (v_types v) (v_areas v) (v_cabinets v))
    (if (0 <? length (v_filteredBodyRows v))%nat
     then Table (map draw headerRows) (map draw (v_filteredBodyRows v))
     else
       Message
         (match v_reorderedData v with
          | Some rd =>
              if h <? Z.of_nat (length rd) then "No items match the current filter."
              else "No data found in this sheet."
          | None => "No data found in this sheet."
          end)).

(** The value the component returns for its props and state: the memos run
    first, then the early returns on [loading] and on [error], an empty
    message being falsy. *)
Definition screen (st : State) : result Screen :=
  v ← render (dataType st) (data st) (filters st);
  if loading st then Ok Spinner
  else
    match error st with
    | Some e =>
        if truthy e then Ok (ErrorPanel e)
        else Ok (page (dataType st) (filters st) v)
    | None => Ok (page (dataType st) (filters st) v)
    end.

(** ** App and AreaPage: the navigation

    [App] holds [currentArea] and renders [HomePage] or [AreaPage];
    [AreaPage] holds [view] and renders its dashboard, a [SheetDataViewer]
    or a [CreateCustomerForm].  [AreaPage] stands at the same place of the
    tree for every area, so that it keeps [view] when [currentArea] goes
    from one area to another, and starts anew with 'dashboard' after
    [currentArea] was [null]. *)

Module ViewType.
Inductive t : Type :=
| dashboard | stock | stock_abb | stock_supcon | equipment
| customer_form | customer_form_supcon.

#[global] Instance eq_dec : EqDecision t.
Proof. solve_decision. Defined.
End ViewType.

(** [Object.values(Area)] and the strings of the enum *)
Definition Area_values : list Area := [PULP2; NPP11; EWTP].

Definition Area_string (a : Area) : string :=
  match a with
  | PULP2 => "Pulp 2"
  | NPP11 => "NPP11"
  | EWTP => "E/WTP"
  end.

(** The tree [App] renders below the header: [currentArea] is [null], or
    an area together with the state [view] of its [AreaPage]. *)
Inductive Tree : Type :=
| HomePage
| AreaPage (currentArea : Area) (view : ViewType.t).

Definition otherAreas (area : Area) : list Area :=
  List.filter (fun a => negb (bool_decide (a = area))) Area_values.

(** A [DashboardButton]: its label and the view its click sets. *)
Record Button : Type := { btn_label : string; btn_view : ViewType.t }.

Definition renderDashboard (area : Area) : list Button :=
  let isEwtp := bool_decide (area = EWTP) in
  let createStockLabel :=
    if isEwtp then "Create New Stock (ABB)" else "Create New Stock" in
  (if isEwtp
   then [ {| btn_label := "Stock & Status (ABB)"; btn_view := ViewType.stock_abb |};
          {| btn_label := "Stock & Status (SUPCON)"; btn_view := ViewType.stock_supcon |} ]
   else [ {| btn_label := "Stock & Status"; btn_view := ViewType.stock |} ])
  ++ [ {| btn_label := "Current Equipment"; btn_view := ViewType.equipment |};
       {| btn_label := createStockLabel; btn_view := ViewType.customer_form |} ]
  ++ (if isEwtp
      then [ {| btn_label := "Create New Stock (SUPCON)";
                btn_view := ViewType.customer_form_supcon |} ]
      else []).

Inductive FormVariant : Type := abb | supcon.

#[global] Instance FormVariant_eq_dec : EqDecision FormVariant.
Proof. solve_decision. Defined.

(** What [renderView()] returns, with the props of the component. *)
Inductive Rendered : Type :=
| Dashboard (buttons : list Button)
| SheetDataViewer (title : string) (area : Area) (dataType : DataType)
| CreateCustomerForm (area : Area) (formTitle : string)
    (formVariant : option FormVariant).

Definition renderView (area : Area) (view : ViewType.t) : Rendered :=
  match view with
  | ViewType.stock => SheetDataViewer "Stock & Status" area stock
  | ViewType.stock_abb => SheetDataViewer "Stock & Status (ABB)" area stock_abb
  | ViewType.stock_supcon =>
      SheetDataViewer "Stock & Status (SUPCON)" area stock_supcon
  | ViewType.equipment => SheetDataViewer "Current Equipment" area equipment
  | ViewType.customer_form =>
      let formTitle :=
        if bool_decide (area = EWTP) then "Create New Stock Entry (ABB)"
        else "Create New Stock Entry" in
      CreateCustomerForm area formTitle
        (if bool_decide (area = EWTP) then Some abb else None)
  | ViewType.customer_form_supcon =>
      CreateCustomerForm area "Create New Stock Entry (SUPCON)" (Some supcon)
  | ViewType.dashboard => Dashboard (renderDashboard area)
  end.

(** [handleNavigate] and [handleGoHome] of [App], on the tree. *)
Definition handleNavigate (area : Area) (t : Tree) : Tree :=
  match t with
  | HomePage => AreaPage area ViewType.dashboard
  | AreaPage _ view => AreaPage area view
  end.

Definition handleGoHome (t : Tree) : Tree := HomePage.

(** The controls a user can click. *)
Inductive Action : Type :=
| ClickLogo                     (* the button of [Header] *)
| ClickAreaButton (a : Area)    (* an [AreaButton] of [HomePage] *)
| ClickBack                     (* the Back button of [AreaPage] *)
| ClickOtherArea (a : Area)     (* a button of [otherAreas] *)
| ClickDashboardButton (v : ViewType.t).

(** The handler of a control; [None] when the control is not on the page. *)
Definition click (act : Action) (t : Tree) : option Tree :=
  match act, t with
  | ClickLogo, _ => Some (handleGoHome t)
  | ClickAreaButton a, HomePage => Some (handleNavigate a t)
  | ClickBack, AreaPage area view =>
      if bool_decide (view = ViewType.dashboard) then Some (handleGoHome t)
      else Some (AreaPage area ViewType.dashboard)
  | ClickOtherArea a, AreaPage area _ =>
      if bool_decide (a ∈ otherAreas area) then Some (handleNavigate a t) else None
  | ClickDashboardButton v, AreaPage area view =>
      if bool_decide (view = ViewType.dashboard)
         && bool_decide (v ∈ map btn_view (renderDashboard area))
      then Some (AreaPage area v)
      else None
  | _, _ => None
  end.

Fixpoint clicks (acts : list Action) (t : Tree) : option Tree :=
  match acts with
  | [] => Some t
  | act :: acts' =>
      match click act t with
      | Some t' => clicks acts' t'
      | None => None
      end
  end.

(** ** CreateCustomerForm

    The form that [AreaPage] renders for the views 'customer_form' and
    'customer_form_supcon': the date it sends, the request it builds and
    its submission as a state machine. *)

Module Form.

(** [s.split(sep)] for a separator of one character *)
Fixpoint split (sep : ascii) (s : string) : list string :=
  match s with
  | EmptyString => [EmptyString]
  | String c s' =>
      if Ascii.eqb c sep then EmptyString :: split sep s'
      else
        match split sep s' with
        | p :: ps => String c p :: ps
        | [] => [String c EmptyString]
        end
  end.

(** A number in a template literal; [None] is [NaN]. *)
Definition Number_string (n : option Z) : string :=
  match n with
  | Some z => NilZero.string_of_int (Z.to_int z)
  | None => "NaN"
  end.

Definition monthNames : list string :=
  ["Jan"; "Feb"; "Mar"; "Apr"; "May"; "Jun";
   "Jul"; "Aug"; "Sep"; "Oct"; "Nov"; "Dec"].

Section Date.

(** [getDate()], [getMonth()] and [getFullYear()] of
    [new Date(year, monthIndex, day)] for three numbers that are not
    [NaN]; [None] when the date is invalid.  They depend on the calendar
    and on the time zone of the browser and are left open. *)
Variable Date_fields : Z -> Z -> Z -> option (Z * Z * Z).

(** No operation of the [try] block throws ([parseInt] of [undefined] is
    [NaN], a [Date] made of [NaN] is invalid, [monthNames[NaN]] is
    [undefined]), so the [catch] is not modelled. *)
Definition formatDateToCustomString (isoDate : string) : string :=
  if negb (truthy isoDate) then ""
  else
    let parts := split "-" isoDate in
    let parseInt (part : option string) : option Z :=
      match part with
      | Some s => parseInt10 s
      | None => None
      end in
    let year := parseInt (parts !! 0%nat) in
    let monthIndex := (fun m => m - 1) <$> parseInt (parts !! 1%nat) in
    let day := parseInt (parts !! 2%nat) in
    let dateObj :=
      match year, monthIndex, day with
      | Some y, Some m, Some d => Date_fields y m d
      | _, _, _ => None
      end in
    let dayOfMonth := (fun f => fst (fst f)) <$> dateObj in
    let month :=
      match dateObj with
      | Some (_, m, _) => if m <? 0 then None else monthNames !! Z.to_nat m
      | None => None
      end in
    let fullYear := snd <$> dateObj in
    (Number_string dayOfMonth ++ "/" ++ default "undefined" month ++ "/"
       ++ Number_string fullYear)%string.

Record FormData : Type := {
  date : string;
  equipment : string;
  model : string;
  number : string;
  addOrUse : string;
  status : string;
  recordBy : string
}.

(** The initial value of [formData], for the date of the day. *)
Definition initialFormData (today : string) : FormData :=
  {| date := today; equipment := ""; model := ""; number := "";
     addOrUse := "Add"; status := "พร้อมใช้"; recordBy := "" |}.

(** The [action] of the request for the dropdown options. *)
Definition options_action (area : Area) (formVariant : option FormVariant) : string :=
  if bool_decide (area = NPP11) then "getNpp11EquipmentOptions"
  else if bool_decide (area = EWTP) then
    if bool_decide (formVariant = Some supcon) then "getSupconEquipmentOptions"
    else "getEwtpEquipmentOptions"
  else "getDropdownOptions".

(** The [action] of [handleSubmit]. *)
Definition submit_action (area : Area) (formVariant : option FormVariant) : string :=
  if bool_decide (area = NPP11) then "createNpp11CustomerEntry"
  else if bool_decide (area = EWTP) && bool_decide (formVariant = Some supcon)
  then "createSupconStockEntry"
  else "createStockEntry".

Definition targetSheetName (area : Area) (formVariant : option FormVariant) : string :=
  if bool_decide (area = PULP2) then "Pulp 2 Customerinfor"
  else if bool_decide (area = NPP11) then "NPP11 Customerinfor"
  else if bool_decide (area = EWTP) then
    if bool_decide (formVariant = Some supcon) then "ETP2A Customerinfor"
    else "EWTP Customerinfor"
  else "".

(** The entries appended to [formBody], in their order. *)
Definition formBody (area : Area) (formVariant : option FormVariant)
    (formData : FormData) : list (string * string) :=
  let action := submit_action area formVariant in
  let targetSheetName := targetSheetName area formVariant in
  [("action", action); ("area", Area_string area)]
  ++ (if truthy targetSheetName then [("sheetName", targetSheetName)] else [])
  ++ [("date", formatDateToCustomString (date formData));
      ("equipment", equipment formData);
      ("model", model formData);
      ("number", number formData);
      ("addOrUse", addOrUse formData);
      ("status", status formData);
      ("recordBy", recordBy formData)].

Inductive SubmitStatus : Type := idle | success | error.

(** The names of the inputs that call [handleChange]. *)
Inductive Field : Type :=
| Date | Equipment | Model | Number | AddOrUse | Status | RecordBy.

(** The state of the submission, with the requests posted so far, those
    still in flight and the timers set and not yet run. *)
Record State : Type := {
  formData : FormData;
  isSubmitting : bool;
  submitStatus : SubmitStatus;
  errorMessage : string;
  posted : list (list (string * string));
  inflight : nat;
  timers : nat
}.

(** [setFormData(prev => ({ ...prev, [name]: value }))] *)
Definition handleChange (name : Field) (value : string) (st : State) : State :=
  let prev := formData st in
  let next :=
    {| date := if name is Date then value else date prev;
       equipment := if name is Equipment then value else equipment prev;
       model := if name is Model then value else model prev;
       number := if name is Number then value else number prev;
       addOrUse := if name is AddOrUse then value else addOrUse prev;
       status := if name is Status then value else status prev;
       recordBy := if name is RecordBy then value else recordBy prev |} in
  {| formData := next; isSubmitting := isSubmitting st;
     submitStatus := submitStatus st; errorMessage := errorMessage st;
     posted := posted st; inflight := inflight st; timers := timers st |}.

(** [handleSubmit] up to its first [await]. *)
Definition handleSubmit (area : Area) (formVariant : option FormVariant)
    (st : State) : State :=
  if isSubmitting st then st
  else
    {| formData := formData st; isSubmitting := true; submitStatus := idle;
       errorMessage := "";
       posted := posted st ++ [formBody area formVariant (formData st)];
       inflight := S (inflight st); timers := timers st |}.

(** What the [fetch] of a submission and its [res.json()] settle with. *)
Inductive SubmitResponse : Type :=
| FetchRejected (message : string)
| JsonRejected (message : string)
| Result (success : bool) (error : option string).

(** The message of the error that reaches the [catch], [None] for a
    result that reports success. *)
Definition thrown (resp : SubmitResponse) : option string :=
  match resp with
  | FetchRejected m => Some m
  | JsonRejected m => Some m
  | Result true _ => None
  | Result false e =>
      Some (match e with
            | Some m => if truthy m then m
                        else "An unknown error occurred on submission."
            | None => "An unknown error occurred on submission."
            end)
  end.

(** The rest of [handleSubmit], once the response is there; [today] is
    what [getTodayDate()] returns then.  [JSON.stringify] of an [Error]
    is ['{}']. *)
Definition resume (today : string) (resp : SubmitResponse) (st : State) : State :=
  match inflight st with
  | O => st
  | S n =>
      match thrown resp with
      | None =>
          {| formData := initialFormData today; isSubmitting := false;
             submitStatus := success; errorMessage := errorMessage st;
             posted := posted st; inflight := n; timers := S (timers st) |}
      | Some m =>
          {| formData := formData st; isSubmitting := false;
             submitStatus := error;
             errorMessage := if truthy m then m else "{}";
             posted := posted st; inflight := n; timers := timers st |}
      end
  end.

(** The callback of [setTimeout(() => setSubmitStatus('idle'), 5000)]. *)
Definition timeout (st : State) : State :=
  match timers st with
  | O => st
  | S n =>
      {| formData := formData st; isSubmitting := isSubmitting st;
         submitStatus := idle; errorMessage := errorMessage st;
         posted := posted st; inflight := inflight st; timers := n |}
  end.

Inductive Event : Type :=
| Change (name : Field) (value : string)
| Submit
| Response (today : string) (resp : SubmitResponse)
| Timeout.

Definition step (area : Area) (formVariant : option FormVariant)
    (ev : Event) (st : State) : State :=
  match ev with
  | Change name value => handleChange name value st
  | Submit => handleSubmit area formVariant st
  | Response today resp => resume today resp st
  | Timeout => timeout st
  end.

Definition initial (today : string) : State :=
  {| formData := initialFormData today; isSubmitting := false;
     submitStatus := idle; errorMessage := "";
     posted := []; inflight := O; timers := O |}.

Definition run_events (area : Area) (formVariant : option FormVariant)
    (evs : list Event) (st : State) : State :=
  fold_left (fun s ev => step area formVariant ev s) evs st.

End Date.

End Form.

(** * The vocabulary of the properties *)

(** [t] occurs in [s] up to the case of letters. *)
Definition contains_ignoring_case (s t : string) : Prop :=
  exists pre mid post,
    s = (pre ++ mid ++ post)%string /\ toLowerCase mid = toLowerCase t.

(** Every character of the string is white space. *)
Fixpoint white (s : string) : bool :=
  match s with
  | EmptyString => true
  | String c s' => is_space c && white s'
  end.

(** A label that trimming leaves alone. *)
Definition tidy (label : string) : Prop :=
  label <> "" /\ trimStart label = label /\ trimEnd label = label.

(** The cell reads [label] up to the case of its letters, between white
    space on either side. *)
Definition reads_as (label : string) (c : cell) : Prop :=
  exists pre core post,
    c = Str (pre ++ core ++ post)%string
    /\ white pre = true /\ white post = true
    /\ toLowerCase core = label.

(** The cabinet cell [c] leaves its place and comes back right after the
    area cell [a]; the other cells keep their order. *)
Inductive cabinet_moved (areaIndex cabinetIndex : Z) : row -> row -> Prop :=
| moved_back pre a mid c post :
    areaIndex = Z.of_nat (length pre) ->
    cabinetIndex = Z.of_nat (length pre + 1 + length mid) ->
    cabinet_moved areaIndex cabinetIndex
      (pre ++ a :: mid ++ c :: post) (pre ++ a :: c :: mid ++ post)
| moved_forth pre c mid a post :
    cabinetIndex = Z.of_nat (length pre) ->
    areaIndex = Z.of_nat (length pre + 1 + length mid) ->
    cabinet_moved areaIndex cabinetIndex
      (pre ++ c :: mid ++ a :: post) (pre ++ mid ++ a :: c :: post).

(** The cell is a string that equals [label] once lower-cased and trimmed:
    the test the code makes (see [labelled_reads_as]). *)
Definition labelled (label : string) (c : cell) : Prop :=
  exists s, c = Str s /\ trim (toLowerCase s) = label.

(** The cell is not [undefined]. *)
Definition is_string (c : cell) : Prop := exists s, c = Str s.

(** [i] is the first column of [h] labelled [label], or [-1] when no
    column of [h] is. *)
Definition located (label : string) (h : row) (i : Z) : Prop :=
  (i = -1 /\ Forall (fun c => ~ reads_as label c) h)
  \/ (exists pre c post,
        h = pre ++ c :: post /\ i = Z.of_nat (length pre)
        /\ reads_as label c /\ Forall (fun c => ~ reads_as label c) pre).

(** The cells of [h] from index [lo] up to, not including, index [hi]. *)
Definition between (h : row) (lo hi : Z) : row :=
  take (Z.to_nat (hi - lo)) (drop (Z.to_nat lo) h).

(** A further column labelled 'cabinet' stands between the first one and
    the first column labelled 'area' that follows it. *)
Definition cabinet_again_before_area (data : option grid) : bool :=
  match data with
  | Some (h :: _) =>
      match findIndex (header_is "area") h, findIndex (header_is "cabinet") h with
      | Ok ai, Ok ci =>
          existsb
            (fun c => match header_is "cabinet" c with Ok true => true | _ => false end)
            (between h (ci + 1) ai)
      | _, _ => false
      end
  | _ => false
  end.

(** The label of column [c] in the header row contains [term], whatever the
    case of the letters. *)
Definition header_label_contains (h : row) (c : Z) (term : string) : Prop :=
  exists s, at_index h c = Str s /\ contains_ignoring_case s term.

(** The cell of column [c] of the row parses as an integer above zero. *)
Definition positive_cell (r : row) (c : Z) : Prop :=
  exists n, parseInt (at_index r c) = Some n /\ 0 < n.

(** The test the loop makes on column [c]. *)
Definition column_test (h : row) (rows : list row) (term : string) (c : Z) : bool :=
  if truthy term then
    Boolean (at_index h c)
    && includes (toLowerCase (ToString (at_index h c))) (toLowerCase term)
  else existsb (positive_at c) rows.

(** Some cell of the row contains [term], whatever the case of the letters. *)
Definition row_matches (term : string) (r : row) : Prop :=
  exists s, Str s ∈ r /\ contains_ignoring_case s term.

(** What an option list of a facet over column [i] of the data rows [rows]
    looks like: empty, or 'All' followed by the values of the column that
    are not empty, each of them once. *)
Definition facet_options (rows : list row) (i : Z) (opts : list cell) : Prop :=
  opts = []
  \/ exists rest,
       opts = Str "All" :: rest
       /\ NoDup rest
       /\ (forall x, x ∈ rest ->
             Boolean x = true /\ exists r, r ∈ rows /\ at_index r i = x).

(** The header row of the grid, if any, holds strings only. *)
Definition header_strings (data : option grid) : Prop :=
  match data with
  | Some (h :: _) => Forall is_string h
  | _ => True
  end.

(** Every cell of the grid is a string, as the type [string[][]] has it. *)
Definition well_formed (data : option grid) : Prop :=
  match data with
  | Some g => Forall (Forall is_string) g
  | None => True
  end.

(** No column of header row 0 carries the label. *)
Definition column_absent (label : string) (data : option grid) : Prop :=
  match data with
  | Some (h :: _) => Forall (fun c => ~ reads_as label c) h
  | _ => True
  end.

(** The data rows of a grid. *)
Definition body_rows (data : option grid) (headerRowCount : Z) : list row :=
  match data with
  | Some g => slice_from g headerRowCount
  | None => []
  end.

(** The grid has fewer than [headerRowCount + 1] rows. *)
Definition no_data_rows (data : option grid) (headerRowCount : Z) : Prop :=
  match data with
  | Some g => Z.of_nat (length g) < headerRowCount + 1
  | None => True
  end.

(** What the three facet memos have in common. *)
Definition facet_memo_ok (label : string) (rd : option grid) (h : Z)
    (memo : result (list cell * Z)) : Prop :=
  exists opts i,
    memo = Ok (opts, i)
    /\ facet_options (body_rows rd h) i opts
    /\ (column_absent label rd -> opts = [] /\ i = -1)
    /\ (no_data_rows rd h -> opts = [] /\ i = -1).

(** The filter state after a reset. *)
Definition fs_default : FilterState :=
  {| selectedType := "All"; selectedArea := "All";
     selectedCabinet := "All"; searchTerm := "" |}.

(** The dependencies of both effects are those of the last commit. *)
Definition settled (st : State) : Prop :=
  deps_selectedArea st = Some (selectedArea (filters st))
  /\ deps_fetch st = Some (area st, dataType st).

(** Only the run that owns the timer of a mounted component can have its
    [isMounted] still set. *)
Definition one_live_run (st : State) : Prop :=
  forall i, isMounted st !! i = Some true ->
            alive st = true /\ intervalId st = Some i.

(** What holds of every state the component goes through. *)
Definition invariant (st : State) : Prop :=
  one_live_run st /\ (alive st = true -> settled st).

(** The events that end the life of the running fetch effect: the unmount
    and a change of the pair (area, dataType). *)
Definition cancels (ev : Event) (st : State) : Prop :=
  ev = Unmount \/ exists a d, ev = Props a d /\ (a, d) <> (area st, dataType st).

(** The message a response fails with, [None] for a response that
    carries a grid. *)
Definition failure (resp : Response) : option string :=
  match resp with
  | NetworkFailure m => Some m
  | HttpStatus status => Some (http_message status)
  | JsonFailure m => Some m
  | Json result =>
      match success result, payload_data result with
      | true, Some _ => None
      | _, _ => Some (format_message result)
      end
  end.

(** A small grid, its 'cabinet' column ahead of its 'area' column, and a
    response that carries it. *)
Definition sample_header : row :=
  [Str "Cabinet"; Str "Description"; Str " AREA "; Str "Slot1"; Str "Slot2"].

Definition sample_rows : list row :=
  [ [Str "C1"; Str "Valve"; Str "North"; Str "0"; Str "3"];
    [Str "C2"; Str "Pump"; Str "South"; Str "2"; Str "0"] ].

Definition sample_grid : grid := sample_header :: sample_rows.

Definition sample_response : Response :=
  Json {| success := true; payload_data := Some sample_grid; payload_error := None |}.

(** The grid of the examples of the specification, as a stock grid with one
    header row and as an equipment grid with four. *)
Definition example_header : row :=
  [Str "Area"; Str "Cabinet"; Str "Desc"; Str "Slot1"; Str "Slot2"].

Definition example_rows : list row :=
  [ [Str "North"; Str "C1"; Str "Valve"; Str "0"; Str "3"];
    [Str "South"; Str "C2"; Str "Pump"; Str "2"; Str "0"] ].

Definition example_stock : grid := example_header :: example_rows.

Definition example_equipment : grid :=
  example_header
    :: [Str ""; Str ""; Str ""; Str "A"; Str "B"]
    :: [Str ""; Str ""; Str ""; Str "1"; Str "2"]
    :: [Str ""; Str ""; Str ""; Str "x"; Str "y"]
    :: example_rows.

Definition search_for (term : string) : FilterState :=
  {| selectedType := "All"; selectedArea := "All";
     selectedCabinet := "All"; searchTerm := term |}.

(** The filter state after a click on a type button, and on an area button,
    the other filters at their defaults. *)
Definition select_type (s : string) : FilterState :=
  {| selectedType := s; selectedArea := "All";
     selectedCabinet := "All"; searchTerm := "" |}.

Definition select_area (s : string) : FilterState :=
  {| selectedType := "All"; selectedArea := s;
     selectedCabinet := "All"; searchTerm := "" |}.

(** The flags [isMounted] of the runs of the fetch effect: while the
    component is in the tree the latest run alone has its flag set and owns
    the timer; afterwards no flag is set and no timer is left. *)
Definition latest_run_listens (st : State) : Prop :=
  if alive st
  then exists n, isMounted st = replicate n false ++ [true] /\ intervalId st = Some n
  else intervalId st = None /\ Forall (fun b => b = false) (isMounted st).

(** The state a run of the fetch effect leaves behind for the props [a] and
    [d]: the data as it was, the spinner on, no error, the filters at
    their defaults, the flags of the earlier runs cleared and one request
    more. *)
Definition restarted (a : Area) (d : DataType) (st : State) : State :=
  {| area := a; dataType := d; data := data st; loading := true; error := None;
     filters := fs_default;
     isMounted := replicate (length (isMounted st)) false ++ [true];
     intervalId := Some (length (isMounted st));
     deps_selectedArea := Some "All";
     deps_fetch := Some (a, d); alive := true;
     requests := requests st ++
       [{| req_area := a; req_type := d; req_run := length (isMounted st);
           req_isInitialLoad := true |}] |}.

(** The flags and the timer before a run of the effect: none yet, or
    those of the latest run. *)
Definition flags_ok (st : State) : Prop :=
  (intervalId st = None /\ Forall (fun b => b = false) (isMounted st))
  \/ exists n, isMounted st = replicate n false ++ [true] /\ intervalId st = Some n.

(** What the effect with dependencies [[selectedArea]] and the filter
    handlers leave alone. *)
Definition core (st : State) :=
  (area st, dataType st, data st, loading st, error st,
   isMounted st, intervalId st, deps_fetch st, alive st).

(** The state right after the first commit. *)
Definition mounted_state (a : Area) (d : DataType) : State :=
  {| area := a; dataType := d; data := None; loading := true; error := None;
     filters := fs_default; isMounted := [true]; intervalId := Some 0%nat;
     deps_selectedArea := Some "All"; deps_fetch := Some (a, d); alive := true;
     requests := [{| req_area := a; req_type := d; req_run := 0%nat;
                     req_isInitialLoad := true |}] |}.

(** What [step] comes to, event by event, in the states the component goes
    through (see [step_cases]). *)
Definition step_outcome (ev : Event) (st st' : State) : Prop :=
  match ev with
  | Settled run isInitialLoad resp => st' = settle run isInitialLoad resp st
  | Props a d =>
      st' = if alive st && negb (bool_decide ((a, d) = (area st, dataType st)))
            then restarted a d st else st
  | Tick =>
      st' = if alive st
            then match intervalId st with
                 | Some run => fetchData run false st
                 | None => st
                 end
            else st
  | Unmount => st' = if alive st then unmounted (cleanup st) else st
  | _ => core st' = core st /\ requests st' = requests st
  end.

(** The requests sent so far: each belongs to a run that was started, those
    of the run that still listens ask for the current props, and the
    requests of one run all ask for the same area and dataset. *)
Definition log_ok (st : State) : Prop :=
  (forall q, q ∈ requests st -> (req_run q < length (isMounted st))%nat)
  /\ (forall q, q ∈ requests st -> isMounted st !! req_run q = Some true ->
        req_area q = area st /\ req_type q = dataType st)
  /\ (forall q q', q ∈ requests st -> q' ∈ requests st -> req_run q = req_run q' ->
        req_area q = req_area q' /\ req_type q = req_type q').

(** The event is a change of the props to another area or dataset. *)
Definition props_change (ev : Event) (st : State) : Prop :=
  exists a d, ev = Props a d /\ (a, d) <> (area st, dataType st).

(** The event is the response to an initial request of a run that still
    listens. *)
Definition initial_response (ev : Event) (st : State) : Prop :=
  exists run resp, ev = Settled run true resp /\ isMounted st !! run = Some true.

(** A row drawn with all its cells, each under the index of its column. *)
Definition numbered (r : row) : list (Z * cell) :=
  imap (fun i c => (Z.of_nat i, c)) r.

(** The header rows of a grid. *)
Definition head_rows (data : option grid) (headerRowCount : Z) : list row :=
  match data with
  | Some g => slice_to g headerRowCount
  | None => []
  end.

(** The cells of a row in the columns of [vis], without the column
    [hidden], from left to right, each under the index of its column. *)
Definition columns (vis : gset Z) (hidden : option Z) (r : row) : list (Z * cell) :=
  List.filter
    (fun p => bool_decide (fst p ∈ vis) && negb (bool_decide (hidden = Some (fst p))))
    (numbered r).

(** An area whose dashboard has a button for the view, and a way from the
    home page to the view in a given area. *)
Definition offering (v : ViewType.t) : Area :=
  match v with
  | ViewType.stock_abb | ViewType.stock_supcon | ViewType.customer_form_supcon => EWTP
  | _ => PULP2
  end.

Definition route (a : Area) (v : ViewType.t) : list Action :=
  if bool_decide (v = ViewType.dashboard) then [ClickAreaButton a]
  else if bool_decide (offering v = a)
  then [ClickAreaButton a; ClickDashboardButton v]
  else [ClickAreaButton (offering v); ClickDashboardButton v; ClickOtherArea a].

(** The view of a dataset. *)
Definition view_of (d : DataType) : ViewType.t :=
  match d with
  | stock => ViewType.stock
  | stock_abb => ViewType.stock_abb
  | stock_supcon => ViewType.stock_supcon
  | equipment => ViewType.equipment
  end.

(** The dashboard of the area has a button for the view. *)
Definition offered (a : Area) (v : ViewType.t) : Prop :=
  v ∈ map btn_view (renderDashboard a).

(** The sheet and the action a submission names, and the action that asks
    for the dropdown options, by the area and the view of [AreaPage]. *)
Definition sheet_of (a : Area) (v : ViewType.t) : string :=
  match a with
  | PULP2 => "Pulp 2 Customerinfor"
  | NPP11 => "NPP11 Customerinfor"
  | EWTP =>
      if bool_decide (v = ViewType.customer_form_supcon) then "ETP2A Customerinfor"
      else "EWTP Customerinfor"
  end.

Definition action_of (a : Area) (v : ViewType.t) : string :=
  match a with
  | PULP2 => "createStockEntry"
  | NPP11 => "createNpp11CustomerEntry"
  | EWTP =>
      if bool_decide (v = ViewType.customer_form_supcon) then "createSupconStockEntry"
      else "createStockEntry"
  end.

Definition options_of (a : Area) (v : ViewType.t) : string :=
  match a with
  | PULP2 => "getDropdownOptions"
  | NPP11 => "getNpp11EquipmentOptions"
  | EWTP =>
      if bool_decide (v = ViewType.customer_form_supcon)
      then "getSupconEquipmentOptions"
      else "getEwtpEquipmentOptions"
  end.

(** The number of occurrences of a character in a string. *)
Fixpoint count_char (c : ascii) (s : string) : nat :=
  match s with
  | EmptyString => O
  | String c' s' => (if Ascii.eqb c' c then 1 else 0) + count_char c s'
  end.

(** A [Date] that gives back the fields it is made of. *)
Definition calendar_Date (y m d : Z) : option (Z * Z * Z) := Some (d, m, y).

(** What holds of the form between two events. *)
Definition form_ok (st : Form.State) : Prop :=
  Form.inflight st = (if Form.isSubmitting st then 1 else 0)%nat
  /\ (Form.isSubmitting st = true ->
      Form.submitStatus st = Form.idle /\ Form.errorMessage st = "")
  /\ (Form.submitStatus st = Form.error -> truthy (Form.errorMessage st) = true)
  /\ (Form.submitStatus st = Form.success -> Form.errorMessage st = "").

(** The controls on the screen, if any. *)
Definition controls_shown (st : State) : option Controls :=
  match screen st with
  | Ok (Page ctl _) => ctl
  | _ => None
  end.

(** The control that sends the event is on the screen and offers the
    value. *)
Definition on_screen (ev : Event) (st : State) : Prop :=
  match ev with
  | ClickType v =>
      exists ctl opts,
        controls_shown st = Some ctl /\ typeButtons ctl = Some opts /\ Str v ∈ opts
  | ClickArea v =>
      exists ctl opts,
        controls_shown st = Some ctl /\ areaButtons ctl = Some opts /\ Str v ∈ opts
  | ChangeCabinet v =>
      exists ctl opts,
        controls_shown st = Some ctl /\ cabinetSelect ctl = Some opts /\ Str v ∈ opts
  | ChangeSearch _ =>
      exists ctl, controls_shown st = Some ctl /\ searchBar ctl = true
  | _ => True
  end.

(** A sequence of events in which every use of a filter control finds the
    control on the screen. *)
Fixpoint user_trace (evs : list Event) (st : State) : Prop :=
  match evs with
  | [] => True
  | ev :: evs' => on_screen ev st /\ user_trace evs' (step ev st)
  end.

(** Each filter is set only in the views that show its control. *)
Definition filters_fit (st : State) : Prop :=
  (dataType st = equipment -> searchTerm (filters st) = "")
  /\ (dataType st <> equipment -> selectedArea (filters st) = "All")
  /\ (selectedCabinet (filters st) <> "All" ->
      dataType st = equipment /\ selectedArea (filters st) <> "All").

(** The grid a response carries, if it reports success. *)
Definition carried (resp : Response) : option grid :=
  match resp with
  | Json result => if success result then payload_data result else None
  | _ => None
  end.

(** The event is a response that replaces the data: the run it answers
    still listens and it carries a grid. *)
Definition applied (ev : Event) (st : State) : option (nat * grid) :=
  match ev with
  | Settled run _ resp =>
      if default false (isMounted st !! run) then (fun g => (run, g)) <$> carried resp
      else None
  | _ => None
  end.

(** The run and the grid of the last response that was applied in the
    course of the events. *)
Fixpoint delivered (evs : list Event) (st : State) (last : option (nat * grid))
  : option (nat * grid) :=
  match evs with
  | [] => last
  | ev :: evs' =>
      delivered evs' (step ev st)
        (match applied ev st with Some rg => Some rg | None => last end)
  end.

(** The data is the grid of the last response applied, and a page shown
    without an error shows a grid that was delivered to the run that
    listens. *)
Definition fresh (st : State) (last : option (nat * grid)) : Prop :=
  data st = snd <$> last
  /\ (alive st = true -> loading st = false -> error st = None ->
      exists run g, last = Some (run, g) /\ intervalId st = Some run).

(** ** Letter case, white space and numerals, written out

    What 'up to the case of letters', 'white space' and 'an integer above
    zero' mean, said without the functions of the embedding: by the
    alphabet, by the list of the white space characters and by the shape
    of the numeral.  The properties of the reorder, of the search and of
    the visible columns are stated with them. *)

(** The small letter of a capital letter of the alphabet; any other
    character is left alone. *)
Definition lower_letter (c : ascii) : ascii :=
  match c with
  | "A" => "a" | "B" => "b" | "C" => "c" | "D" => "d" | "E" => "e"
  | "F" => "f" | "G" => "g" | "H" => "h" | "I" => "i" | "J" => "j"
  | "K" => "k" | "L" => "l" | "M" => "m" | "N" => "n" | "O" => "o"
  | "P" => "p" | "Q" => "q" | "R" => "r" | "S" => "s" | "T" => "t"
  | "U" => "u" | "V" => "v" | "W" => "w" | "X" => "x" | "Y" => "y"
  | "Z" => "z"
  | _ => c
  end%char.

Fixpoint lower_text (s : string) : string :=
  match s with
  | EmptyString => EmptyString
  | String c s' => String (lower_letter c) (lower_text s')
  end.

(** The two strings differ in the case of letters at most. *)
Definition same_ignoring_case (s t : string) : Prop := lower_text s = lower_text t.

(** [t] occurs in [s], the case of letters set aside. *)
Definition occurs_ignoring_case (s t : string) : Prop :=
  exists pre mid post,
    s = (pre ++ mid ++ post)%string /\ same_ignoring_case mid t.

(** TAB, LF, VT, FF, CR and SPACE *)
Definition blank_characters : list ascii :=
  map ascii_of_nat [9; 10; 11; 12; 13; 32]%nat.

Fixpoint blank (s : string) : bool :=
  match s with
  | EmptyString => true
  | String c s' => existsb (Ascii.eqb c) blank_characters && blank s'
  end.

Definition nonzero_digits : list ascii :=
  ["1"; "2"; "3"; "4"; "5"; "6"; "7"; "8"; "9"]%char.

Fixpoint zeros (s : string) : bool :=
  match s with
  | EmptyString => true
  | String c s' => Ascii.eqb c "0" && zeros s'
  end.

(** The string starts, after white space and an optional '+', with a
    decimal numeral that is not zero: zeros, then a digit from 1 to 9.
    What follows the digit does not matter. *)
Definition integer_above_zero (s : string) : Prop :=
  exists ws sign zs d rest,
    s = (ws ++ sign ++ zs ++ String d rest)%string
    /\ blank ws = true
    /\ (sign = "" \/ sign = "+")
    /\ zeros zs = true
    /\ In d nonzero_digits.

(** Column [c] of the row holds the string [s]. *)
Definition cell_at (r : row) (c : Z) (s : string) : Prop :=
  0 <= c /\ r !! Z.to_nat c = Some (Str s).

(** The label of column [c] of the header row contains [term], the case of
    letters set aside. *)
Definition label_has (h : row) (c : Z) (term : string) : Prop :=
  exists s, cell_at h c s /\ occurs_ignoring_case s term.

(** Column [c] of the row holds an integer above zero. *)
Definition quantity_at (r : row) (c : Z) : Prop :=
  exists s, cell_at r c s /\ integer_above_zero s.

(** Some cell of the row contains [term], the case of letters set aside. *)
Definition row_has (term : string) (r : row) : Prop :=
  exists s, Str s ∈ r /\ occurs_ignoring_case s term.

(** The cell is [label], the case of letters set aside, between white
    space on either side. *)
Definition reads (label : string) (c : cell) : Prop :=
  exists pre core post,
    c = Str (pre ++ core ++ post)%string
    /\ blank pre = true /\ blank post = true
    /\ lower_text core = label.

(** [i] is the first column of [h] that reads [label], or [-1] when no
    column of [h] does. *)
Definition first_labelled (label : string) (h : row) (i : Z) : Prop :=
  (i = -1 /\ Forall (fun c => ~ reads label c) h)
  \/ (exists pre c post,
        h = pre ++ c :: post /\ i = Z.of_nat (length pre)
        /\ reads label c /\ Forall (fun c => ~ reads label c) pre).

(** No column of header row 0 reads [label]. *)
Definition column_missing (label : string) (data : option grid) : Prop :=
  match data with
  | Some (h :: _) => Forall (fun c => ~ reads label c) h
  | _ => True
  end.

(** The cell holds a string that is not empty. *)
Definition filled (c : cell) : Prop := exists s, c = Str s /\ s <> "".

(** A facet that is switched on: the grid has a header row, [i] is its
    first column labelled [label], and the options are 'All' followed by
    the values, not empty, that the rows [among] hold in that column, each
    of them once; so 'All' comes twice exactly when one of these rows
    holds it. *)
Definition facet_on (label : string) (rd : option grid) (among : row -> Prop)
    (opts : list cell) (i : Z) : Prop :=
  exists header rest others,
    rd = Some (header :: rest)
    /\ first_labelled label header i /\ i <> -1
    /\ opts = Str "All" :: others
    /\ NoDup others
    /\ (forall x, x ∈ others
                  <-> filled x /\ exists r, among r /\ at_index r i = x)
    /\ (NoDup opts <-> forall r, among r -> at_index r i <> Str "All").

(** The facets 'type' and 'area', which do not depend on the filters. *)
Inductive Facet : Type := TypeFacet | AreaFacet.

Definition facet_label (f : Facet) : string :=
  match f with TypeFacet => "type" | AreaFacet => "area" end.

Definition facet_list (v : View) (f : Facet) : list cell :=
  match f with TypeFacet => v_types v | AreaFacet => v_areas v end.

Definition facet_index (v : View) (f : Facet) : Z :=
  match f with TypeFacet => v_typeColumnIndex v | AreaFacet => v_areaColumnIndex v end.

(** An equipment grid with a 'type' column. *)
Definition example_typed : grid :=
  [ [Str "Area"; Str "Cabinet"; Str " TYPE "; Str "Slot1"];
    [Str ""; Str ""; Str ""; Str "A"];
    [Str ""; Str ""; Str ""; Str "1"];
    [Str ""; Str ""; Str ""; Str "x"];
    [Str "North"; Str "C1"; Str "Valve"; Str "2"];
    [Str "North"; Str "C2"; Str "Pump"; Str "0"];
    [Str "South"; Str "C3"; Str "Valve"; Str "1"] ].


(** * Properties *)

(** ** The embedding at work *)

Example toLowerCase_trim : trim (toLowerCase "  CaBiNet ") = "cabinet".
Proof. reflexivity. Qed.

Example trim_keeps_inner_space : trim " a  b " = "a  b".
Proof. reflexivity. Qed.

Example includes_examples :
  includes "pump station" "ump" = true /\ includes "pump" "" = true
  /\ includes "" "p" = false /\ includes "valve" "pump" = false.
Proof. repeat split; reflexivity. Qed.

Example parseInt_examples :
  parseInt (Str "3") = Some 3 /\ parseInt (Str "  12 pcs") = Some 12
  /\ parseInt (Str "-4") = Some (-4) /\ parseInt (Str "0.9") = Some 0
  /\ parseInt (Str "") = None /\ parseInt (Str "n/a") = None
  /\ parseInt Undefined = None.
Proof. repeat split; reflexivity. Qed.

Example new_Set_keeps_first_seen_order :
  new_Set [Str "b"; Str "a"; Str "b"; Str "c"; Str "a"] = [Str "b"; Str "a"; Str "c"].
Proof. reflexivity. Qed.

Example reorderedData_sample :
  reorderedData true (Some sample_grid)
  = Ok (Some [ [Str "Description"; Str " AREA "; Str "Cabinet"; Str "Slot1"; Str "Slot2"];
               [Str "Valve"; Str "North"; Str "C1"; Str "0"; Str "3"];
               [Str "Pump"; Str "South"; Str "C2"; Str "2"; Str "0"] ]).
Proof. reflexivity. Qed.

(** A row that does not reach the two columns: the value read out of range
    is [undefined], and [splice] inserts at the end of a row that is too short. *)
Example reorder_row_short :
  reorder_row 0 2 [Str "North"] = [Str "North"; Undefined]
  /\ reorder_row 2 0 [Str "C9"] = [Str "C9"].
Proof. split; reflexivity. Qed.

Example stock_search_keeps_matching_rows :
  v_filteredBodyRows <$> render stock (Some example_stock) (search_for "pump")
  = Ok [ [Str "South"; Str "C2"; Str "Pump"; Str "2"; Str "0"] ].
Proof. reflexivity. Qed.

Example equipment_visible_columns :
  (fun v => bool_decide (v_visibleEquipmentColumns v
                         = Some (list_to_set [0; 1; 2; 3; 4])))
    <$> render equipment (Some example_equipment) fs_default
  = Ok true.
Proof. vm_compute. reflexivity. Qed.

Example equipment_search_selects_columns :
  (fun v => (v_filteredBodyRows v,
             bool_decide (v_visibleEquipmentColumns v
                          = Some (list_to_set [0; 1; 2; 4]))))
    <$> render equipment (Some example_equipment) (search_for "SLOT2")
  = Ok (example_rows, true).
Proof. vm_compute. reflexivity. Qed.

Example mount_starts_loading :
  let st := mount PULP2 equipment in
  loading st = true /\ error st = None /\ data st = None
  /\ isMounted st = [true] /\ intervalId st = Some 0%nat
  /\ requests st = [ {| req_area := PULP2; req_type := equipment;
                        req_run := 0; req_isInitialLoad := true |} ].
Proof. repeat split; reflexivity. Qed.

Example initial_failure_then_switch :
  let st := run_events [Settled 0 true (HttpStatus "500"); Props NPP11 stock]
              (mount PULP2 equipment) in
  loading st = true /\ error st = None /\ isMounted st = [false; true].
Proof. repeat split; reflexivity. Qed.

(** ** Strings *)

Section StringFacts.

Local Open Scope string_scope.

Lemma prefix_app (t s : string) :
  String.prefix t s = true <-> exists post, s = t ++ post.
Proof.
  revert s; induction t as [|c t IH]; intros s.
  - split; [intros _; exists s; reflexivity | intros _; destruct s; reflexivity].
  - destruct s as [|d s]; simpl.
    + split; [discriminate | intros [post H]; discriminate].
    + destruct (Ascii.ascii_dec c d) as [E|Hne]; [subst d|].
      * rewrite IH. split; intros [post H]; exists post.
        -- simpl; now rewrite H.
        -- simpl in H; now inversion H.
      * split; [discriminate | intros [post H]; simpl in H; inversion H; congruence].
Qed.

Lemma includes_app (s t : string) :
  includes s t = true <-> exists pre post, s = pre ++ t ++ post.
Proof.
  induction s as [|c s IH].
  - cbn [includes]. rewrite orb_false_r, prefix_app. split.
    + intros [post H]. exists "", post. exact H.
    + intros [pre [post H]]. destruct pre; [|discriminate]. exists post. exact H.
  - cbn [includes]. rewrite orb_true_iff, prefix_app, IH. split.
    + intros [[post H]|[pre [post H]]].
      * exists "", post. exact H.
      * exists (String c pre), post. simpl. now rewrite H.
    + intros [pre [post H]]. destruct pre as [|d pre].
      * left. exists post. exact H.
      * right. simpl in H. inversion H; subst. now exists pre, post.
Qed.

Lemma toLowerCase_app (a b : string) :
  toLowerCase (a ++ b) = toLowerCase a ++ toLowerCase b.
Proof. induction a as [|c a IH]; simpl; [reflexivity | now rewrite IH]. Qed.

Lemma toLowerCase_split (s a b : string) :
  toLowerCase s = a ++ b ->
  exists a' b', s = a' ++ b' /\ toLowerCase a' = a /\ toLowerCase b' = b.
Proof.
  revert s; induction a as [|c a IH]; intros s H.
  - exists "", s. auto.
  - destruct s as [|d s]; [discriminate|]. simpl in H. inversion H as [[Hc Hs]].
    destruct (IH s Hs) as [a' [b' [-> [Ha Hb]]]].
    exists (String d a'), b'. simpl. rewrite Ha. auto.
Qed.

Lemma truthy_true (s : string) : truthy s = true <-> s <> "".
Proof. destruct s; simpl; split; congruence. Qed.

Lemma includes_toLowerCase (s t : string) :
  includes (toLowerCase s) (toLowerCase t) = true <-> contains_ignoring_case s t.
Proof.
  rewrite includes_app. split.
  - intros [pre [post H]].
    destruct (toLowerCase_split _ _ _ H) as [pre' [r [-> [_ Hr]]]].
    destruct (toLowerCase_split _ _ _ Hr) as [mid [post' [-> [Hm _]]]].
    now exists pre', mid, post'.
  - intros [pre [mid [post [-> Hm]]]].
    exists (toLowerCase pre), (toLowerCase post).
    now rewrite !toLowerCase_app, Hm.
Qed.

Lemma contains_nonempty (s t : string) :
  t <> "" -> contains_ignoring_case s t -> s <> "".
Proof.
  intros Ht [pre [mid [post [-> Hm]]]] Hs.
  destruct pre; [|discriminate]. destruct mid; [|discriminate].
  destruct t; [congruence | discriminate].
Qed.

End StringFacts.

(** *** Trimming *)

Section TrimFacts.

Local Open Scope string_scope.

Lemma length_append (a b : string) :
  String.length (a ++ b) = (String.length a + String.length b)%nat.
Proof.
  induction a as [|c a IH]; [reflexivity|].
  change (S (String.length (a ++ b)) = S (String.length a + String.length b)).
  now rewrite IH.
Qed.

Lemma is_space_lower_char (c : ascii) : is_space (lower_char c) = is_space c.
Proof. destruct c as [[] [] [] [] [] [] [] []]; reflexivity. Qed.

Lemma white_toLowerCase (s : string) : white (toLowerCase s) = white s.
Proof.
  induction s as [|c s IH]; simpl; [reflexivity|].
  now rewrite is_space_lower_char, IH.
Qed.

Lemma trimStart_white (pre s : string) :
  white pre = true -> trimStart (pre ++ s) = trimStart s.
Proof.
  induction pre as [|c pre IH]; simpl; [reflexivity|].
  intros H. apply andb_true_iff in H as [Hc Hpre]. rewrite Hc. auto.
Qed.

Lemma trimEnd_all_white (post : string) : white post = true -> trimEnd post = "".
Proof.
  induction post as [|c post IH]; simpl; [reflexivity|].
  intros H. apply andb_true_iff in H as [Hc Hpost]. now rewrite IH, Hc.
Qed.

Lemma trimEnd_white (s post : string) :
  white post = true -> trimEnd (s ++ post) = trimEnd s.
Proof.
  intros H. induction s as [|c s IH]; simpl.
  - now apply trimEnd_all_white.
  - now rewrite IH.
Qed.

Lemma trimStart_split (s : string) :
  exists pre, white pre = true /\ s = pre ++ trimStart s.
Proof.
  induction s as [|c s [pre [Hpre E]]]; simpl.
  - now exists "".
  - destruct (is_space c) eqn:Hc.
    + exists (String c pre). simpl. rewrite Hc, Hpre. split; [reflexivity|].
      change (String c s = String c (pre ++ trimStart s)). now rewrite <- E.
    + now exists "".
Qed.

Lemma trimEnd_split (s : string) :
  exists post, white post = true /\ s = trimEnd s ++ post.
Proof.
  induction s as [|c s [post [Hpost E]]]; simpl.
  - now exists "".
  - destruct (trimEnd s) as [|d t].
    + change (s = post) in E. subst post. destruct (is_space c) eqn:Hc.
      * exists (String c s). simpl. now rewrite Hc, Hpost.
      * now exists s.
    + exists post. split; [assumption|].
      change (String c s = String c (String d t ++ post)). now rewrite <- E.
Qed.

Lemma trimStart_tidy (label s : string) :
  label <> "" -> trimStart label = label -> trimStart (label ++ s) = label ++ s.
Proof.
  intros Hne H. destruct label as [|c l]; [congruence|]. simpl in *.
  destruct (is_space c) eqn:Hc; [|reflexivity].
  exfalso. destruct (trimStart_split l) as [pre [_ E]]. rewrite H in E.
  apply (f_equal String.length) in E. rewrite length_append in E.
  simpl in E. lia.
Qed.

(** What the test [header.toLowerCase().trim() === label] says of a header. *)
Lemma labelled_reads_as (label : string) (c : cell) :
  tidy label -> labelled label c <-> reads_as label c.
Proof.
  intros [Hne [Hs He]]. split.
  - intros [s [-> H]]. unfold trim in H.
    destruct (trimStart_split (toLowerCase s)) as [pre' [Hpre' E1]].
    destruct (trimEnd_split (trimStart (toLowerCase s))) as [post' [Hpost' E2]].
    rewrite H in E2. rewrite E2 in E1.
    destruct (toLowerCase_split _ _ _ E1) as [pre [r [-> [Epre Er]]]].
    destruct (toLowerCase_split _ _ _ Er) as [core [post [-> [Ecore Epost]]]].
    exists pre, core, post. split; [reflexivity|].
    rewrite <- (white_toLowerCase pre), <- (white_toLowerCase post), Epre, Epost.
    auto.
  - intros [pre [core [post [-> [Hpre [Hpost Hcore]]]]]]. exists (pre ++ core ++ post).
    split; [reflexivity|]. unfold trim.
    rewrite !toLowerCase_app, Hcore.
    rewrite trimStart_white by now rewrite white_toLowerCase.
    rewrite trimStart_tidy by assumption.
    rewrite trimEnd_white by now rewrite white_toLowerCase.
    exact He.
Qed.

Lemma tidy_labels : tidy "area" /\ tidy "cabinet" /\ tidy "type".
Proof. repeat split; discriminate. Qed.

Lemma not_reads_as (label s : string) :
  tidy label -> trim (toLowerCase s) <> label -> ~ reads_as label (Str s).
Proof.
  intros Ht Hne H. apply labelled_reads_as in H; [|assumption].
  destruct H as [s' [E H]]. inversion E; subst. contradiction.
Qed.

End TrimFacts.

(** *** The functions of the embedding and the written-out vocabulary *)

Section WrittenOut.

Local Open Scope string_scope.

Lemma lower_char_letter (c : ascii) : lower_char c = lower_letter c.
Proof. destruct c as [[] [] [] [] [] [] [] []]; reflexivity. Qed.

Lemma toLowerCase_text (s : string) : toLowerCase s = lower_text s.
Proof.
  induction s as [|c s IH]; [reflexivity|].
  cbn [toLowerCase lower_text]. now rewrite lower_char_letter, IH.
Qed.

Lemma contains_occurs (s t : string) :
  contains_ignoring_case s t <-> occurs_ignoring_case s t.
Proof.
  unfold contains_ignoring_case, occurs_ignoring_case, same_ignoring_case.
  split; intros [pre [mid [post [E H]]]]; exists pre, mid, post; (split; [exact E|]).
  - now rewrite <- !toLowerCase_text.
  - now rewrite !toLowerCase_text.
Qed.

Lemma is_space_blank (c : ascii) :
  is_space c = existsb (Ascii.eqb c) blank_characters.
Proof. destruct c as [[] [] [] [] [] [] [] []]; reflexivity. Qed.

Lemma white_blank (s : string) : white s = blank s.
Proof.
  induction s as [|c s IH]; [reflexivity|].
  cbn [white blank]. now rewrite is_space_blank, IH.
Qed.

Lemma reads_as_reads (label : string) (c : cell) :
  reads_as label c <-> reads label c.
Proof.
  unfold reads_as, reads.
  split; intros [pre [core [post [E [H1 [H2 H3]]]]]]; exists pre, core, post;
    (split; [exact E|]).
  - now rewrite <- !white_blank, <- toLowerCase_text.
  - now rewrite !white_blank, toLowerCase_text.
Qed.

Lemma located_first_labelled (label : string) (h : row) (i : Z) :
  located label h i <-> first_labelled label h i.
Proof.
  assert (Hall : forall l : row,
            Forall (fun c => ~ reads_as label c) l
            <-> Forall (fun c => ~ reads label c) l).
  { intros l. split; intros H; (eapply Forall_impl; [exact H|]);
      intros c Hc Hr; apply Hc; now apply reads_as_reads. }
  unfold located, first_labelled. split.
  - intros [[E H]|[pre [c [post [E1 [E2 [H1 H2]]]]]]].
    + left. split; [exact E | now apply Hall].
    + right. exists pre, c, post. repeat split; auto.
      * now apply reads_as_reads.
      * now apply Hall.
  - intros [[E H]|[pre [c [post [E1 [E2 [H1 H2]]]]]]].
    + left. split; [exact E | now apply Hall].
    + right. exists pre, c, post. repeat split; auto.
      * now apply reads_as_reads.
      * now apply Hall.
Qed.

(** **** Numerals *)

Lemma digit_of_zero (c : ascii) : digit_of c = Some 0 <-> c = "0"%char.
Proof.
  destruct c as [[] [] [] [] [] [] [] []]; vm_compute; split; congruence.
Qed.

Lemma digit_of_nonzero (c : ascii) :
  In c nonzero_digits <-> exists d, digit_of c = Some d /\ 1 <= d.
Proof.
  split.
  - intros H. unfold nonzero_digits in H. cbn [In] in H.
    repeat (destruct H as [<-|H];
            [eexists; split; [vm_compute; reflexivity|lia]|]).
    contradiction.
  - intros [d [H Hd]].
    destruct c as [[] [] [] [] [] [] [] []]; vm_compute in H; try discriminate;
      inversion H; subst d; try lia; cbn; tauto.
Qed.

Lemma parse_digits_from (s : string) (a : Z) :
  0 <= a -> exists n, parse_digits (Some a) s = Some n /\ a <= n.
Proof.
  revert a. induction s as [|c s IH]; intros a Ha.
  - exists a. split; [reflexivity|lia].
  - cbn [parse_digits]. destruct (digit_of c) as [d|] eqn:Hd.
    + assert (0 <= d).
      { unfold digit_of in Hd. destruct (_ && _); inversion Hd. lia. }
      destruct (IH (10 * default 0 (Some a) + d)) as [n [E Hn]]; [cbn; lia|].
      exists n. split; [exact E|]. cbn in Hn. lia.
    + exists a. split; [reflexivity|lia].
Qed.

Lemma parse_digits_nonneg (s : string) (n : Z) :
  parse_digits None s = Some n -> 0 <= n.
Proof.
  destruct s as [|c s]; [discriminate|]. cbn [parse_digits].
  destruct (digit_of c) as [d|] eqn:Hd; [|discriminate].
  assert (0 <= d).
  { unfold digit_of in Hd. destruct (_ && _); inversion Hd. lia. }
  intros E. destruct (parse_digits_from s (10 * default 0 None + d)) as [m [E' Hm]];
    [cbn; lia|].
  rewrite E in E'. inversion E'; subst. cbn in Hm. lia.
Qed.

(** A numeral above zero, as [parse_digits] reads it: zeros, then a digit
    that is not zero. *)
Lemma parse_digits_positive (s : string) (acc : option Z) :
  default 0 acc = 0 ->
  (exists n, parse_digits acc s = Some n /\ 0 < n)
  <-> exists zs d rest, s = zs ++ String d rest /\ zeros zs = true
                        /\ In d nonzero_digits.
Proof.
  revert acc. induction s as [|c s IH]; intros acc Hacc.
  - split.
    + intros [n [E Hn]]. cbn in E. subst acc. cbn in Hacc. lia.
    + intros [zs [d [rest [E _]]]]. destruct zs; discriminate.
  - cbn [parse_digits]. destruct (digit_of c) as [dv|] eqn:Hd.
    + destruct (Z.eq_dec dv 0) as [->|Hne].
      * apply digit_of_zero in Hd. subst c.
        rewrite (IH (Some (10 * default 0 acc + 0))) by (cbn; lia).
        split.
        -- intros [zs [d [rest [-> [Hz Hin]]]]].
           exists (String "0" zs), d, rest. repeat split; auto.
        -- intros [zs [d [rest [E [Hz Hin]]]]]. destruct zs as [|z zs].
           ++ cbn in E. inversion E; subst d. cbn in Hin.
              repeat (destruct Hin as [Hin|Hin]; [discriminate|]). contradiction.
           ++ change (String "0" s = String z (zs ++ String d rest)) in E.
              inversion E; subst. cbn in Hz.
              exists zs, d, rest. repeat split; auto.
      * assert (Hin : In c nonzero_digits).
        { apply digit_of_nonzero. exists dv. split; [exact Hd|].
          unfold digit_of in Hd. destruct (_ && _); inversion Hd. lia. }
        split.
        -- intros _. exists "", c, s. repeat split; auto.
        -- intros _. apply digit_of_nonzero in Hin as [d' [Hd' Hge]].
           assert (d' = dv) by congruence. subst d'.
           destruct (parse_digits_from s (10 * default 0 acc + dv)) as [n [E Hn]];
             [lia|].
           exists n. split; [exact E|lia].
    + split.
      * intros [n [E Hn]]. subst acc. cbn in Hacc. lia.
      * intros [zs [d [rest [E [Hz Hin]]]]]. exfalso. destruct zs as [|z zs].
        -- cbn in E. inversion E; subst d.
           apply digit_of_nonzero in Hin as [d' [Hd' _]]. congruence.
        -- change (String c s = String z (zs ++ String d rest)) in E.
           inversion E; subst. cbn in Hz. apply andb_true_iff in Hz as [Hz _].
           apply Ascii.eqb_eq in Hz. subst z. discriminate.
Qed.

Lemma trimStart_blank (ws s : string) :
  blank ws = true -> trimStart (ws ++ s) = trimStart s.
Proof. rewrite <- white_blank. apply trimStart_white. Qed.

(** [parseInt(s, 10) > 0], by the shape of the string. *)
Lemma parseInt10_positive (s : string) :
  (exists n, parseInt10 s = Some n /\ 0 < n) <-> integer_above_zero s.
Proof.
  unfold integer_above_zero. split.
  - intros [n [E Hn]]. unfold parseInt10 in E.
    destruct (trimStart_split s) as [ws [Hws Es]]. rewrite white_blank in Hws.
    assert (Hshape : forall r,
               (exists m, parse_digits None r = Some m /\ 0 < m) ->
               exists zs d rest, r = zs ++ String d rest /\ zeros zs = true
                                 /\ In d nonzero_digits).
    { intros r. now apply parse_digits_positive. }
    destruct (trimStart s) as [|c r] eqn:Et.
    + discriminate.
    + destruct (Ascii.ascii_dec c "-") as [->|Hm].
      * destruct (parse_digits None r) as [m|] eqn:Em; [|discriminate].
        cbn in E. inversion E; subst n. apply parse_digits_nonneg in Em. lia.
      * destruct (Ascii.ascii_dec c "+") as [->|Hp].
        -- destruct (Hshape r) as [zs [d [rest [-> [Hz Hin]]]]]; [now exists n|].
           exists ws, "+", zs, d, rest. repeat split; auto.
        -- assert (E' : parse_digits None (String c r) = Some n).
           { revert E. clear -Hm Hp.
             destruct c as [[] [] [] [] [] [] [] []]; try exact (fun H => H);
               congruence. }
           destruct (Hshape (String c r)) as [zs [d [rest [Er [Hz Hin]]]]];
             [now exists n|].
           exists ws, "", zs, d, rest. rewrite Es. cbn [append].
           repeat split; auto. now rewrite Er.
  - intros [ws [sign [zs [d [rest [-> [Hws [Hsign [Hz Hin]]]]]]]]].
    unfold parseInt10. rewrite trimStart_blank by exact Hws.
    assert (Hpos : exists n, parse_digits None (zs ++ String d rest) = Some n /\ 0 < n).
    { apply parse_digits_positive; [reflexivity|]. now exists zs, d, rest. }
    destruct Hsign as [-> | ->].
    + change ("" ++ zs ++ String d rest) with (zs ++ String d rest).
      destruct zs as [|z zs].
      * change ("" ++ String d rest) with (String d rest) in *.
        cbn in Hin.
        repeat (destruct Hin as [<-|Hin]; [exact Hpos|]). contradiction.
      * cbn in Hz. apply andb_true_iff in Hz as [Hz0 _].
        apply Ascii.eqb_eq in Hz0. subst z.
        change (String "0" zs ++ String d rest)
          with (String "0" (zs ++ String d rest)) in *.
        exact Hpos.
    + change ("+" ++ zs ++ String d rest) with (String "+" (zs ++ String d rest)).
      cbn [trimStart is_space]. exact Hpos.
Qed.

End WrittenOut.

(** ** Arrays *)

Section ArrayFacts.

Context {A : Type}.
Implicit Types (l pre mid post : list A) (x : A).

Lemma filter_index_from_later (k i0 : Z) l :
  k < i0 -> filter_index_from (fun i => negb (i =? k)) l i0 = l.
Proof.
  revert i0; induction l as [|x l IH]; intros i0 Hk; simpl; [reflexivity|].
  destruct (Z.eqb_spec i0 k); [lia|]. simpl. rewrite IH by lia. reflexivity.
Qed.

Lemma filter_index_from_delete (k i0 : Z) l :
  i0 <= k ->
  filter_index_from (fun i => negb (i =? k)) l i0 = delete (Z.to_nat (k - i0)) l.
Proof.
  revert i0; induction l as [|x l IH]; intros i0 Hk; simpl.
  - now destruct (Z.to_nat (k - i0)).
  - destruct (Z.eqb_spec i0 k) as [->|Hne]; simpl.
    + rewrite Z.sub_diag. simpl. apply filter_index_from_later. lia.
    + rewrite IH by lia.
      replace (Z.to_nat (k - i0)) with (S (Z.to_nat (k - (i0 + 1)))) by lia.
      reflexivity.
Qed.

Lemma filter_index_delete (k : Z) l :
  0 <= k -> filter_index (fun i => negb (i =? k)) l = delete (Z.to_nat k) l.
Proof.
  intros Hk. unfold filter_index. rewrite filter_index_from_delete by lia.
  now rewrite Z.sub_0_r.
Qed.

Lemma delete_at_length pre x post : delete (length pre) (pre ++ x :: post) = pre ++ post.
Proof. induction pre as [|y pre IH]; simpl; [reflexivity | now rewrite IH]. Qed.

Lemma splice_insert_at_length pre post x :
  splice_insert (pre ++ post) (Z.of_nat (length pre)) x = pre ++ x :: post.
Proof.
  unfold splice_insert. destruct (Z.ltb_spec (Z.of_nat (length pre)) 0); [lia|].
  rewrite length_app, Z.min_l by lia. rewrite Nat2Z.id.
  now rewrite take_app_length, drop_app_length.
Qed.


End ArrayFacts.

Lemma at_index_middle (pre post : row) (c : cell) :
  at_index (pre ++ c :: post) (Z.of_nat (length pre)) = c.
Proof.
  unfold at_index. destruct (Z.ltb_spec (Z.of_nat (length pre)) 0); [lia|].
  rewrite Nat2Z.id, list_lookup_middle by reflexivity. reflexivity.
Qed.

Lemma at_index_beyond (r : row) (i : Z) :
  Z.of_nat (length r) <= i -> at_index r i = Undefined.
Proof.
  intros H. unfold at_index. destruct (Z.ltb_spec i 0); [reflexivity|].
  rewrite lookup_ge_None_2 by lia. reflexivity.
Qed.

(** ** The move of one row *)

Lemma reorder_row_back (pre mid post : row) (a c : cell) :
  reorder_row (Z.of_nat (length pre)) (Z.of_nat (length pre + 1 + length mid))
    (pre ++ a :: mid ++ c :: post)
  = pre ++ a :: c :: mid ++ post.
Proof.
  unfold reorder_row.
  destruct (Z.ltb_spec (Z.of_nat (length pre + 1 + length mid)) (Z.of_nat (length pre)));
    [lia|].
  rewrite filter_index_delete by lia. rewrite Nat2Z.id.
  replace (pre ++ a :: mid ++ c :: post) with ((pre ++ a :: mid) ++ c :: post)
    by (now rewrite <- app_assoc).
  replace (length pre + 1 + length mid)%nat with (length (pre ++ a :: mid))
    by (rewrite length_app; simpl; lia).
  rewrite delete_at_length, at_index_middle.
  replace ((pre ++ a :: mid) ++ post) with ((pre ++ [a]) ++ mid ++ post)
    by (now rewrite <- !app_assoc).
  replace (Z.of_nat (length pre) + 1) with (Z.of_nat (length (pre ++ [a])))
    by (rewrite length_app; simpl; lia).
  rewrite splice_insert_at_length. now rewrite <- app_assoc.
Qed.

Lemma reorder_row_forth (pre mid post : row) (a c : cell) :
  reorder_row (Z.of_nat (length pre + 1 + length mid)) (Z.of_nat (length pre))
    (pre ++ c :: mid ++ a :: post)
  = pre ++ mid ++ a :: c :: post.
Proof.
  unfold reorder_row.
  destruct (Z.ltb_spec (Z.of_nat (length pre)) (Z.of_nat (length pre + 1 + length mid)));
    [|lia].
  rewrite filter_index_delete by lia. rewrite Nat2Z.id.
  rewrite delete_at_length, at_index_middle.
  replace (pre ++ mid ++ a :: post) with ((pre ++ mid ++ [a]) ++ post)
    by (now rewrite <- !app_assoc).
  replace (Z.of_nat (length pre + 1 + length mid) - 1 + 1)
    with (Z.of_nat (length (pre ++ mid ++ [a])))
    by (rewrite !length_app; simpl; lia).
  rewrite splice_insert_at_length. now rewrite <- !app_assoc.
Qed.

(** ** Looking a column up by its label *)

Lemma header_is_hit (label : string) (c : cell) :
  header_is label c = Ok true <-> labelled label c.
Proof.
  unfold labelled. destruct c as [|s]; simpl.
  - split; [discriminate | intros [s [H _]]; discriminate].
  - destruct (String.eqb_spec (trim (toLowerCase s)) label) as [E|E].
    + split; [intros _; now exists s | reflexivity].
    + split; [intros H; inversion H | intros [s' [H1 H2]]; inversion H1; subst; congruence].
Qed.

Lemma header_is_miss (label : string) (c : cell) :
  header_is label c = Ok false <-> is_string c /\ ~ labelled label c.
Proof.
  unfold labelled, is_string. destruct c as [|s]; simpl.
  - split; [discriminate | intros [[s H] _]; discriminate].
  - destruct (String.eqb_spec (trim (toLowerCase s)) label) as [E|E].
    + split; [intros H; inversion H | intros [_ H]; exfalso; apply H; now exists s].
    + split; [|reflexivity]. intros _. split; [now exists s|].
      intros [s' [H1 H2]]. inversion H1; subst; congruence.
Qed.

Lemma header_is_string (label : string) (c : cell) :
  is_string c -> exists b, header_is label c = Ok b.
Proof. intros [s ->]. simpl. eauto. Qed.

Section FindIndex.

Variable p : cell -> result bool.

Lemma findIndex_from_app (pre r : row) (i : Z) :
  Forall (fun c => p c = Ok false) pre ->
  findIndex_from p (pre ++ r) i = findIndex_from p r (i + Z.of_nat (length pre)).
Proof.
  intros H; revert i; induction H as [|c pre Hc _ IH]; intros i; simpl.
  - now rewrite Z.add_0_r.
  - rewrite Hc. simpl. rewrite IH. f_equal. lia.
Qed.

Lemma findIndex_from_none (r : row) (i : Z) :
  Forall (fun c => p c = Ok false) r -> findIndex_from p r i = Ok (-1).
Proof.
  intros H. rewrite <- (app_nil_r r), findIndex_from_app by assumption. reflexivity.
Qed.

Lemma findIndex_from_hit (pre post : row) (c : cell) (i : Z) :
  Forall (fun c => p c = Ok false) pre -> p c = Ok true ->
  findIndex_from p (pre ++ c :: post) i = Ok (i + Z.of_nat (length pre)).
Proof.
  intros Hpre Hc. rewrite findIndex_from_app by assumption. simpl. now rewrite Hc.
Qed.

Lemma findIndex_from_inv (r : row) (i k : Z) :
  0 <= i -> findIndex_from p r i = Ok k ->
  (k = -1 /\ Forall (fun c => p c = Ok false) r)
  \/ (exists pre c post,
        r = pre ++ c :: post /\ k = i + Z.of_nat (length pre)
        /\ p c = Ok true /\ Forall (fun c => p c = Ok false) pre).
Proof.
  revert i; induction r as [|x r IH]; intros i Hi H; simpl in H.
  - inversion H. left. auto.
  - destruct (p x) as [[|]|] eqn:Hx; simpl in H; [| |discriminate].
    + inversion H; subst. right. exists [], x, r. simpl. repeat split; auto. lia.
    + destruct (IH (i + 1) ltac:(lia) H) as [[-> Hr]|[pre [c [post [-> [-> [Hc Hpre]]]]]]].
      * left. auto.
      * right. exists (x :: pre), c, post. simpl. repeat split; auto. lia.
Qed.

Lemma findIndex_from_total (r : row) (i : Z) :
  Forall (fun c => exists b, p c = Ok b) r -> exists k, findIndex_from p r i = Ok k.
Proof.
  intros H; revert i; induction H as [|c r [b Hc] _ IH]; intros i; simpl.
  - eauto.
  - rewrite Hc. simpl. destruct b; eauto.
Qed.

End FindIndex.

Lemma findIndex_located (label : string) (h : row) (i : Z) :
  tidy label -> findIndex (header_is label) h = Ok i -> located label h i.
Proof.
  intros Ht H. apply findIndex_from_inv in H; [|lia].
  assert (Hmiss : forall l : row,
             Forall (fun c => header_is label c = Ok false) l ->
             Forall (fun c => ~ reads_as label c) l).
  { intros l Hl. eapply Forall_impl; [exact Hl|]. intros c Hc.
    apply header_is_miss in Hc as [_ Hc]. now rewrite <- labelled_reads_as. }
  destruct H as [[-> Hr]|[pre [c [post [-> [-> [Hc Hpre]]]]]]].
  - left. auto.
  - right. exists pre, c, post. repeat split; auto.
    apply labelled_reads_as; [assumption|]. now apply header_is_hit.
Qed.

Lemma findIndex_strings (label : string) (h : row) :
  Forall is_string h -> exists i, findIndex (header_is label) h = Ok i.
Proof.
  intros H. apply findIndex_from_total.
  eapply Forall_impl; [exact H|]. intros c Hc. now apply header_is_string.
Qed.

Lemma findIndex_absent (label : string) (h : row) :
  tidy label ->
  Forall is_string h -> Forall (fun c => ~ reads_as label c) h ->
  findIndex (header_is label) h = Ok (-1).
Proof.
  intros Ht Hs Hn. apply findIndex_from_none.
  rewrite Forall_forall in *. intros c Hc. apply header_is_miss.
  split; [auto|]. rewrite labelled_reads_as by assumption. auto.
Qed.

(** Any row that reaches both columns splits around them. *)
Lemma row_split_two (r : row) (i j : nat) :
  (i < j)%nat -> (j < length r)%nat ->
  exists pre a mid c post,
    r = pre ++ a :: mid ++ c :: post
    /\ length pre = i /\ (length pre + 1 + length mid)%nat = j.
Proof.
  intros Hij Hj.
  destruct (lookup_lt_is_Some_2 r j Hj) as [c Hc].
  pose proof (take_drop_middle r j c Hc) as Hr.
  assert (Hi : (i < length (take j r))%nat) by (rewrite length_take; lia).
  destruct (lookup_lt_is_Some_2 _ i Hi) as [a Ha].
  pose proof (take_drop_middle _ i a Ha) as Ht.
  exists (take i (take j r)), a, (drop (S i) (take j r)), c, (drop (S j) r).
  split; [|split].
  - rewrite <- Hr at 1. rewrite <- Ht at 1. now rewrite <- app_assoc.
  - rewrite !length_take. lia.
  - rewrite length_drop, !length_take. lia.
Qed.



Lemma reorder_row_moved (ai ci : Z) (r : row) :
  0 <= ai -> 0 <= ci -> ci <> ai -> ci <> ai + 1 ->
  Z.max ai ci < Z.of_nat (length r) ->
  cabinet_moved ai ci r (reorder_row ai ci r).
Proof.
  intros Ha Hc Hne Hadj Hlen.
  destruct (Z.lt_ge_cases ai ci) as [Hlt|Hge].
  - destruct (row_split_two r (Z.to_nat ai) (Z.to_nat ci)) as
      [pre [a [mid [c [post [-> [H1 H2]]]]]]]; [lia|lia|].
    replace ai with (Z.of_nat (length pre)) by lia.
    replace ci with (Z.of_nat (length pre + 1 + length mid)) by lia.
    rewrite reorder_row_back. now constructor.
  - destruct (row_split_two r (Z.to_nat ci) (Z.to_nat ai)) as
      [pre [c [mid [a [post [-> [H1 H2]]]]]]]; [lia|lia|].
    replace ci with (Z.of_nat (length pre)) by lia.
    replace ai with (Z.of_nat (length pre + 1 + length mid)) by lia.
    rewrite reorder_row_forth. now constructor.
Qed.

(** ** ColumnReorderer *)

(** The found index is never below [-1], and is within the header when it
    is not [-1]. *)
Lemma located_range (label : string) (h : row) (i : Z) :
  located label h i -> i = -1 \/ 0 <= i < Z.of_nat (length h).
Proof.
  intros [[-> _]|[pre [c [post [-> [-> _]]]]]]; [now left|right].
  rewrite length_app. simpl. lia.
Qed.

Lemma area_is_not_cabinet (c : cell) :
  header_is "area" c = Ok true -> header_is "cabinet" c = Ok false.
Proof.
  intros H. apply header_is_hit in H as [s [-> Hs]]. simpl. now rewrite Hs.
Qed.

Lemma reorderedData_equipment (h : row) (rest : grid) (ai ci : Z) :
  findIndex (header_is "area") h = Ok ai ->
  findIndex (header_is "cabinet") h = Ok ci ->
  reorderedData true (Some (h :: rest))
  = Ok (Some (if (ai =? -1) || (ci =? -1) || (ci =? ai + 1) then h :: rest
              else map (reorder_row ai ci) (h :: rest))).
Proof.
  intros Hai Hci. cbn [reorderedData negb]. rewrite Hai. cbn. rewrite Hci. cbn.
  now destruct ((ai =? -1) || (ci =? -1) || (ci =? ai + 1)).
Qed.

(** One cell cannot be found under both labels. *)
Lemma found_columns_differ (h : row) (ai ci : Z) :
  findIndex (header_is "area") h = Ok ai ->
  findIndex (header_is "cabinet") h = Ok ci ->
  ai <> -1 -> ci <> ai.
Proof.
  intros Hai Hci Na ->.
  apply findIndex_from_inv in Hai, Hci; try lia.
  destruct Hai as [[? _]|[pre [c [post [-> [Ek [Hc Hpre]]]]]]]; [lia|].
  destruct Hci as [[? _]|[pre' [c' [post' [Eh [Ek' [Hc' Hpre']]]]]]]; [lia|].
  assert (length pre = length pre') by lia.
  apply app_inj_1 in Eh as [-> Eh]; [|assumption]. inversion Eh; subst c'.
  apply area_is_not_cabinet in Hc. congruence.
Qed.

(** In the header row itself the move always finds both cells. *)
Lemma header_row_moved (h : row) (ai ci : Z) :
  findIndex (header_is "area") h = Ok ai ->
  findIndex (header_is "cabinet") h = Ok ci ->
  ai <> -1 -> ci <> -1 -> ci <> ai + 1 ->
  cabinet_moved ai ci h (reorder_row ai ci h).
Proof.
  intros Hai Hci Na Nc Nadj.
  pose proof (found_columns_differ h ai ci Hai Hci Na).
  apply findIndex_located, located_range in Hai, Hci; try apply tidy_labels.
  apply reorder_row_moved; lia.
Qed.


Lemma split_at_two (pre pre' post post' : row) (a c : cell) :
  pre ++ a :: post = pre' ++ c :: post' ->
  (length pre < length pre')%nat ->
  exists mid, pre' = pre ++ a :: mid /\ post = mid ++ c :: post'.
Proof.
  intros E Hlen. apply app_eq_app in E as [l [[E1 E2]|[E1 E2]]].
  - subst pre. rewrite length_app in Hlen. lia.
  - destruct l as [|x mid].
    + subst pre'. rewrite length_app in Hlen. simpl in Hlen. lia.
    + simpl in E2. inversion E2; subst. now exists mid.
Qed.



Lemma between_middle (pre mid post : row) (c : cell) :
  between (pre ++ c :: mid ++ post) (Z.of_nat (length pre) + 1)
    (Z.of_nat (length pre + 1 + length mid)) = mid.
Proof.
  unfold between.
  replace (Z.to_nat (Z.of_nat (length pre) + 1)) with (length (pre ++ [c]))
    by (rewrite length_app; simpl; lia).
  replace (pre ++ c :: mid ++ post) with ((pre ++ [c]) ++ mid ++ post)
    by (now rewrite <- app_assoc).
  rewrite drop_app_length.
  replace (Z.to_nat _) with (length mid) by lia.
  apply take_app_length.
Qed.

(** After the move the two columns are found next to each other. *)
Lemma reorder_row_header (h : row) (ai ci : Z) :
  findIndex (header_is "area") h = Ok ai ->
  findIndex (header_is "cabinet") h = Ok ci ->
  ai <> -1 -> ci <> -1 -> ci <> ai + 1 ->
  existsb (fun c => match header_is "cabinet" c with Ok true => true | _ => false end)
    (between h (ci + 1) ai) = false ->
  exists na,
    findIndex (header_is "area") (reorder_row ai ci h) = Ok na
    /\ findIndex (header_is "cabinet") (reorder_row ai ci h) = Ok (na + 1).
Proof.
  intros Hai Hci Na Nc Nadj Hbetween.
  apply findIndex_from_inv in Hai; [|lia]. apply findIndex_from_inv in Hci; [|lia].
  destruct Hai as [[? _]|[pre [a [post [Eh [Ea [Ha Hpre]]]]]]]; [lia|].
  destruct Hci as [[? _]|[pre' [c [post' [Eh' [Ec [Hc Hpre']]]]]]]; [lia|].
  rewrite Z.add_0_l in Ea, Ec. rewrite Eh in Eh'.
  destruct (Nat.lt_total (length pre) (length pre')) as [Hlt|[Heq|Hgt]].
  - (* the cabinet column is behind the area column *)
    destruct (split_at_two _ _ _ _ _ _ Eh' Hlt) as [mid [-> ->]].
    subst h ai ci. rewrite length_app. simpl length.
    replace (length pre + S (length mid))%nat with (length pre + 1 + length mid)%nat by lia.
    rewrite reorder_row_back. exists (Z.of_nat (length pre)). split.
    + unfold findIndex. rewrite findIndex_from_hit by assumption. f_equal.
    + unfold findIndex.
      replace (pre ++ a :: c :: mid ++ post') with ((pre ++ [a]) ++ c :: mid ++ post')
        by (now rewrite <- app_assoc).
      rewrite findIndex_from_hit; [| |assumption].
      * f_equal. rewrite length_app. simpl. lia.
      * apply Forall_app in Hpre' as [Hp Hm]. apply Forall_app. split; [assumption|].
        inversion Hm; subst. now constructor.
  - (* one cell cannot carry both labels *)
    apply app_inj_1 in Eh' as [_ E]; [|assumption]. inversion E; subst c.
    apply area_is_not_cabinet in Ha. congruence.
  - (* the cabinet column is ahead of the area column *)
    symmetry in Eh'.
    destruct (split_at_two _ _ _ _ _ _ Eh' Hgt) as [mid [-> ->]].
    subst h ai ci. rewrite length_app in *. simpl length in *.
    replace (length pre' + S (length mid))%nat with (length pre' + 1 + length mid)%nat
      in * by lia.
    rewrite <- Eh' in *. rewrite between_middle in Hbetween.
    rewrite reorder_row_forth. exists (Z.of_nat (length pre' + length mid)).
    apply Forall_app in Hpre as [Hp Hm]. inversion Hm as [|? ? Hcs Hmid]; subst.
    split.
    + unfold findIndex.
      replace (pre' ++ mid ++ a :: c :: post) with ((pre' ++ mid) ++ a :: c :: post)
        by (now rewrite <- app_assoc).
      rewrite findIndex_from_hit; [| |assumption].
      * f_equal. rewrite length_app. lia.
      * apply Forall_app. now split.
    + unfold findIndex.
      replace (pre' ++ mid ++ a :: c :: post) with ((pre' ++ mid ++ [a]) ++ c :: post)
        by (now rewrite <- !app_assoc).
      rewrite findIndex_from_hit; [| |assumption].
      * f_equal. rewrite !length_app. simpl. lia.
      * apply Forall_app. split; [assumption|]. apply Forall_app. split.
        -- rewrite Forall_forall in *. intros x Hx.
           destruct (header_is_string "cabinet" x) as [[|] Hb].
           ++ apply (header_is_miss "area"). now apply Hmid.
           ++ exfalso.
              assert (existsb
                        (fun c => match header_is "cabinet" c with
                                  | Ok true => true | _ => false end) mid = true).
              { apply existsb_exists. exists x. split; [now apply list_elem_of_In|].
                now rewrite Hb. }
              congruence.
           ++ assumption.
        -- constructor; [|constructor]. now apply area_is_not_cabinet.
Qed.

(** C2, as the code has it.  Where no further column labelled 'cabinet'
    stands between the first one and the 'area' column that follows it,
    reordering a second time changes nothing: [reorder(reorder(g))] is
    [reorder(g)], also when the first call raises. *)
Theorem reorderedData_idempotent (isEquipmentView : bool) (data : option grid) :
  cabinet_again_before_area data = false ->
  reorderedData isEquipmentView data ≫= reorderedData isEquipmentView
  = reorderedData isEquipmentView data.
Proof.
  intros Hamb. destruct data as [[|h rest]|]; try reflexivity.
  destruct isEquipmentView; [|reflexivity].
  cbn [reorderedData negb cabinet_again_before_area] in *.
  destruct (findIndex (header_is "area") h) as [ai|] eqn:Hai; [|reflexivity].
  destruct (findIndex (header_is "cabinet") h) as [ci|] eqn:Hci; [|reflexivity].
  cbn [mbind result_bind] in *.
  destruct ((ai =? -1) || (ci =? -1) || (ci =? ai + 1)) eqn:E.
  - cbn [mbind result_bind reorderedData negb]. rewrite Hai. cbn [mbind result_bind].
    rewrite Hci. cbn [mbind result_bind]. now rewrite E.
  - apply orb_false_iff in E as [E E3]. apply orb_false_iff in E as [E1 E2].
    destruct (reorder_row_header h ai ci Hai Hci) as [na [Hna Hnc]];
      [lia|lia|lia|assumption|].
    cbn [mbind result_bind reorderedData negb map]. rewrite Hna.
    cbn [mbind result_bind]. rewrite Hnc. cbn [mbind result_bind].
    rewrite Z.eqb_refl, orb_true_r. reflexivity.
Qed.

(** C2, as the spec has it, fails: with two columns labelled 'cabinet'
    ahead of the 'area' column, each call moves another one of them. *)
Lemma reorderedData_not_idempotent :
  let g := [ [Str "Cabinet"; Str "cabinet"; Str "Area"];
             [Str "C1"; Str "C2"; Str "North"] ] in
  reorderedData true (Some g) ≫= reorderedData true <> reorderedData true (Some g)
  /\ reorderedData true (Some g)
     = Ok (Some [ [Str "cabinet"; Str "Area"; Str "Cabinet"];
                  [Str "C2"; Str "North"; Str "C1"] ])
  /\ reorderedData true (Some g) ≫= reorderedData true
     = Ok (Some [ [Str "Area"; Str "cabinet"; Str "Cabinet"];
                  [Str "North"; Str "C2"; Str "C1"] ]).
Proof. vm_compute. repeat split; congruence. Qed.

(** ** ColumnVisibilityResolver *)

Lemma visit_column_test (h : row) (rows : list row) (term : string)
    (vis : gset Z) (c : Z) :
  visit_column h rows term (toLowerCase term) vis c
  = if column_test h rows term c then {[c]} ∪ vis else vis.
Proof. unfold visit_column, column_test. destruct (truthy term); reflexivity. Qed.

Lemma fold_visit_column (h : row) (rows : list row) (term : string)
    (cols : list Z) (vis : gset Z) (c : Z) :
  c ∈ fold_left (visit_column h rows term (toLowerCase term)) cols vis
  <-> c ∈ vis \/ (c ∈ cols /\ column_test h rows term c = true).
Proof.
  revert vis; induction cols as [|x cols IH]; intros vis; simpl.
  - split; [auto | intros [H|[H _]]; [assumption | inversion H]].
  - rewrite IH, visit_column_test. destruct (column_test h rows term x) eqn:Hx.
    + rewrite elem_of_union, elem_of_singleton, elem_of_cons. split.
      * intros [[->|H]|[H1 H2]]; auto.
      * intros [H|[[->|H1] H2]]; auto.
    + rewrite elem_of_cons. split.
      * intros [H|[H1 H2]]; auto.
      * intros [H|[[->|H1] H2]]; auto. congruence.
Qed.

Lemma column_test_search (h : row) (rows : list row) (term : string) (c : Z) :
  term <> "" ->
  column_test h rows term c = true <-> header_label_contains h c term.
Proof.
  intros Ht. unfold column_test, header_label_contains.
  apply truthy_true in Ht. rewrite Ht. apply truthy_true in Ht.
  destruct (at_index h c) as [|s]; simpl.
  - split; [discriminate | intros [s [H _]]; discriminate].
  - rewrite andb_true_iff, includes_toLowerCase, truthy_true. split.
    + intros [_ H]. now exists s.
    + intros [s' [E H]]. inversion E; subst s'. split; [|assumption].
      eapply contains_nonempty; eassumption.
Qed.

Lemma positive_at_cell (c : Z) (r : row) :
  positive_at c r = true <-> positive_cell r c.
Proof.
  unfold positive_at, positive_cell. destruct (parseInt (at_index r c)) as [n|].
  - rewrite Z.ltb_lt. split; [intros H; now exists n | intros [m [E H]]; congruence].
  - split; [discriminate | intros [m [E _]]; discriminate].
Qed.

Lemma column_test_default (h : row) (rows : list row) (c : Z) :
  column_test h rows "" c = true <-> exists r, r ∈ rows /\ positive_cell r c.
Proof.
  unfold column_test. simpl. rewrite existsb_exists. split.
  - intros [r [Hr H]]. exists r. split; [now apply list_elem_of_In|].
    now apply positive_at_cell.
  - intros [r [Hr H]]. exists r. split; [now apply list_elem_of_In|].
    now apply positive_at_cell.
Qed.

Lemma parseInt_Undefined : parseInt Undefined = None.
Proof. reflexivity. Qed.

Lemma no_positive_cell_beyond (r : row) (c : Z) :
  Z.of_nat (length r) <= c -> ~ positive_cell r c.
Proof.
  intros H [n [E _]]. rewrite at_index_beyond, parseInt_Undefined in E by assumption.
  discriminate.
Qed.

Lemma at_index_cell_at (r : row) (c : Z) (s : string) :
  at_index r c = Str s <-> cell_at r c s.
Proof.
  unfold at_index, cell_at. destruct (Z.ltb_spec c 0) as [Hlt|Hge].
  - split; [discriminate | intros [H _]; lia].
  - destruct (r !! Z.to_nat c) as [x|]; cbn.
    + split; [intros ->; now split | intros [_ H]; now inversion H].
    + split; [discriminate | intros [_ H]; discriminate].
Qed.

Lemma header_label_has (h : row) (c : Z) (term : string) :
  header_label_contains h c term <-> label_has h c term.
Proof.
  unfold header_label_contains, label_has.
  split; intros [s [H1 H2]]; exists s.
  - split; [now apply at_index_cell_at | now apply contains_occurs].
  - split; [now apply at_index_cell_at | now apply contains_occurs].
Qed.

Lemma positive_cell_quantity (r : row) (c : Z) :
  positive_cell r c <-> quantity_at r c.
Proof.
  unfold positive_cell, quantity_at, parseInt. split.
  - intros [n [E Hn]]. destruct (at_index r c) as [|s] eqn:Ec.
    + vm_compute in E. discriminate.
    + exists s. split; [now apply at_index_cell_at|].
      apply parseInt10_positive. now exists n.
  - intros [s [Hc Hq]]. apply at_index_cell_at in Hc. rewrite Hc.
    now apply parseInt10_positive.
Qed.

(** C3.  On the equipment dataset with at least one visible row, the memo
    yields a set, and for every column index [c] from 3 on: with a search
    term, [c] is in the set exactly when the label of header row 0 contains
    the term, the case of letters set aside, whatever the body rows hold;
    without one, [c] is in the set exactly when some visible row holds in
    column [c] an integer above zero, [c] being a column of header row 0
    or no visible row being longer than header row 0. *)
Theorem visibleEquipmentColumns_membership (h : row) (rest : grid)
    (rows : list row) (term : string) :
  rows <> [] ->
  exists vis,
    visibleEquipmentColumns true rows (Some (h :: rest)) term = Some vis
    /\ (forall c, 3 <= c ->
          (term <> "" -> (c ∈ vis <-> label_has h c term))
          /\ (term = "" ->
              c < Z.of_nat (length h)
              \/ Forall (fun r => (length r <= length h)%nat) rows ->
              (c ∈ vis <-> exists r, r ∈ rows /\ quantity_at r c)))
    /\ (term <> "" ->
        forall rows', rows' <> [] ->
          visibleEquipmentColumns true rows' (Some (h :: rest)) term = Some vis).
Proof.
  intros Hrows. unfold visibleEquipmentColumns. cbn [negb orb].
  destruct rows as [|r0 rows]; [congruence|]. cbn [length Nat.eqb].
  eexists. split; [reflexivity|]. split.
  - intros c Hc.
    assert (Hmem :
      c ∈ fold_left
            (visit_column h (r0 :: rows) term (toLowerCase term))
            (seqZ 3 (Z.of_nat (length h) - 3))
            ({[2]} ∪ ({[1]} ∪ ({[0]} ∪ ∅)) : gset Z)
      <-> c < Z.of_nat (length h) /\ column_test h (r0 :: rows) term c = true).
    { rewrite fold_visit_column, elem_of_seqZ. split.
      - intros [H|[H1 H2]]; [exfalso|split; [lia|assumption]].
        rewrite !elem_of_union, !elem_of_singleton, elem_of_empty in H. intuition lia.
      - intros [H1 H2]. right. split; [lia|assumption]. }
    split.
    + intros Ht. rewrite <- header_label_has.
      rewrite Hmem, column_test_search by assumption. split; [tauto|].
      intros H. split; [|assumption].
      destruct H as [s [E _]]. destruct (Z.lt_ge_cases c (Z.of_nat (length h))); [assumption|].
      rewrite at_index_beyond in E by assumption. discriminate.
    + intros -> Hfit.
      assert (Hq : (exists r, r ∈ r0 :: rows /\ quantity_at r c)
                   <-> exists r, r ∈ r0 :: rows /\ positive_cell r c).
      { split; intros [r [Hr H]]; exists r; (split; [exact Hr|]);
          now apply positive_cell_quantity. }
      rewrite Hq. clear Hq.
      rewrite Hmem, column_test_default. split; [tauto|].
      intros H. split; [|assumption].
      destruct Hfit as [Hfit|Hfit]; [assumption|].
      destruct (Z.lt_ge_cases c (Z.of_nat (length h))) as [|Hge]; [assumption|].
      exfalso. destruct H as [r [Hr Hpos]].
      rewrite Forall_forall in Hfit. specialize (Hfit r Hr).
      apply (no_positive_cell_beyond r c); [lia|assumption].
  - intros Ht rows' Hrows'. destruct rows' as [|r1 rows']; [congruence|].
    cbn [length Nat.eqb]. f_equal.
    generalize ({[2]} ∪ ({[1]} ∪ ({[0]} ∪ ∅)) : gset Z).
    induction (seqZ 3 (Z.of_nat (length h) - 3)) as [|x cols IH]; intros vis;
      [reflexivity|].
    simpl. rewrite IH. f_equal. unfold visit_column.
    apply truthy_true in Ht. now rewrite Ht.
Qed.

(** ** FilterEngine: the text search *)

Lemma cell_includes_matches (term : string) (r : row) :
  term <> "" ->
  existsb (cell_includes (toLowerCase term)) r = true <-> row_matches term r.
Proof.
  intros Ht. rewrite existsb_exists. unfold row_matches, cell_includes. split.
  - intros [[|s] [Hin H]]; [discriminate|]. simpl in H.
    apply andb_true_iff in H as [_ H]. apply includes_toLowerCase in H.
    exists s. split; [now apply list_elem_of_In | assumption].
  - intros [s [Hin H]]. exists (Str s). split; [now apply list_elem_of_In|].
    simpl. apply andb_true_iff. split.
    + apply truthy_true. eapply contains_nonempty; eassumption.
    + now apply includes_toLowerCase.
Qed.

Lemma row_matches_has (term : string) (r : row) :
  row_matches term r <-> row_has term r.
Proof.
  unfold row_matches, row_has.
  split; intros [s [H1 H2]]; exists s; (split; [exact H1|]);
    now apply contains_occurs.
Qed.

(** C6.  The text-search pass leaves the rows of the equipment dataset as
    they are, whatever the search term.  On the other datasets, with a
    search term, it keeps exactly the rows with a cell that contains the
    term, the case of letters set aside, in their order; without a search
    term the pass is not made. *)
Theorem search_pass_by_dataset (dataType : DataType) (term : string)
    (rows : list row) :
  (dataType = equipment -> search_pass (isEquipmentView dataType) term rows = rows)
  /\ (dataType <> equipment ->
      (term = "" -> search_pass (isEquipmentView dataType) term rows = rows)
      /\ (term <> "" ->
          exists keep : row -> bool,
            search_pass (isEquipmentView dataType) term rows = List.filter keep rows
            /\ forall r, keep r = true <-> row_has term r)).
Proof.
  split.
  - intros ->. unfold search_pass. simpl. now destruct (truthy term).
  - intros Hdt.
    assert (isEquipmentView dataType = false) as -> by (now destruct dataType).
    split.
    + intros ->. reflexivity.
    + intros Ht. exists (fun r => existsb (cell_includes (toLowerCase term)) r).
      split.
      * unfold search_pass. apply truthy_true in Ht. now rewrite Ht.
      * intros r. rewrite <- row_matches_has. now apply cell_includes_matches.
Qed.

(** ** FilterEngine: the facet options *)

Lemma Set_add_fold_elem (l acc : list cell) (x : cell) :
  x ∈ fold_left Set_add l acc <-> x ∈ acc \/ x ∈ l.
Proof.
  revert acc; induction l as [|y l IH]; intros acc; simpl.
  - split; [auto | intros [H|H]; [assumption | inversion H]].
  - rewrite IH, elem_of_cons. unfold Set_add. case_bool_decide as Hy.
    + split; [intros [H|H]; auto | intros [H|[->|H]]; auto].
    + rewrite elem_of_app, list_elem_of_singleton.
      split; [intros [[H|H]|H]; auto | intros [H|[H|H]]; auto].
Qed.

Lemma Set_add_fold_NoDup (l acc : list cell) :
  NoDup acc -> NoDup (fold_left Set_add l acc).
Proof.
  revert acc; induction l as [|y l IH]; intros acc Hacc; simpl; [assumption|].
  apply IH. unfold Set_add. case_bool_decide as Hy; [assumption|].
  apply NoDup_app. split; [assumption|]. split.
  - intros x Hx Hx'. apply list_elem_of_singleton in Hx'. now subst.
  - apply NoDup_singleton.
Qed.

Lemma new_Set_elem (l : list cell) (x : cell) : x ∈ new_Set l <-> x ∈ l.
Proof.
  unfold new_Set. rewrite Set_add_fold_elem. split; [|auto].
  intros [H|H]; [inversion H | assumption].
Qed.

Lemma new_Set_NoDup (l : list cell) : NoDup (new_Set l).
Proof. apply Set_add_fold_NoDup. constructor. Qed.

Lemma unique_column_elem (rows : list row) (i : Z) (x : cell) :
  x ∈ unique_column rows i
  <-> Boolean x = true /\ exists r, r ∈ rows /\ at_index r i = x.
Proof.
  unfold unique_column. rewrite new_Set_elem, list_elem_of_In, filter_In, in_map_iff.
  split.
  - intros [[r [E Hr]] Hb]. split; [assumption|]. exists r.
    split; [now apply list_elem_of_In | assumption].
  - intros [Hb [r [Hr E]]]. split; [|assumption]. exists r.
    split; [assumption | now apply list_elem_of_In].
Qed.

Lemma facet_options_unique (rows rows' : list row) (i : Z) :
  (forall r, r ∈ rows' -> r ∈ rows) ->
  facet_options rows i (Str "All" :: unique_column rows' i).
Proof.
  intros Hsub. right. exists (unique_column rows' i). split; [reflexivity|].
  split; [apply new_Set_NoDup|].
  intros x Hx. apply unique_column_elem in Hx as [Hb [r [Hr E]]].
  split; [assumption|]. exists r. auto.
Qed.

Lemma well_formed_header (data : option grid) :
  well_formed data -> header_strings data.
Proof.
  destruct data as [[|h rest]|]; simpl; auto. intros H. now inversion H.
Qed.

Lemma cabinet_moved_Forall (P : cell -> Prop) (ai ci : Z) (r r' : row) :
  cabinet_moved ai ci r r' -> Forall P r -> Forall P r'.
Proof.
  intros [pre a mid c post _ _|pre c mid a post _ _] H;
    repeat (rewrite ?Forall_app, ?Forall_cons in *); tauto.
Qed.

(** [reorderedData] never raises on a grid whose header row holds strings;
    it keeps the number of rows, the strings of the header row and the
    labels that are missing from it. *)
Lemma reorderedData_ok (eq : bool) (data : option grid) :
  header_strings data ->
  exists rd,
    reorderedData eq data = Ok rd
    /\ header_strings rd
    /\ length <$> rd = length <$> data
    /\ (forall label, column_absent label data -> column_absent label rd).
Proof.
  intros Hh. destruct data as [[|h rest]|]; try (eexists; split; [reflexivity|auto]).
  destruct eq; [|eexists; split; [reflexivity|auto]].
  destruct (findIndex_strings "area" h Hh) as [ai Hai].
  destruct (findIndex_strings "cabinet" h Hh) as [ci Hci].
  eexists. split; [exact (reorderedData_equipment h rest ai ci Hai Hci)|].
  destruct ((ai =? -1) || (ci =? -1) || (ci =? ai + 1)) eqn:E; [auto|].
  apply orb_false_iff in E as [E E3]. apply orb_false_iff in E as [E1 E2].
  assert (Hm : cabinet_moved ai ci h (reorder_row ai ci h))
    by (apply header_row_moved; auto; lia).
  split; [|split].
  - simpl. eapply cabinet_moved_Forall; eassumption.
  - simpl. now rewrite length_map.
  - intros label Habs. simpl in *. eapply cabinet_moved_Forall; eassumption.
Qed.

Local Ltac facet_disabled :=
  eexists; eexists; split; [reflexivity|];
  split; [now left|]; split; intros _; split; reflexivity.

Lemma types_memo_ok (flt : bool) (rd : option grid) (h : Z) :
  0 <= h -> header_strings rd ->
  facet_memo_ok "type" rd h (types_memo flt rd h).
Proof.
  intros Hh Hs. unfold facet_memo_ok, types_memo.
  destruct rd as [g|]; [|facet_disabled].
  destruct (negb flt || (Z.of_nat (length g) <? h + 1)) eqn:E; [facet_disabled|].
  apply orb_false_iff in E as [_ E]. apply Z.ltb_ge in E.
  destruct g as [|hd rest]; [simpl in E; lia|].
  destruct (findIndex_strings "type" hd Hs) as [ti Hti]. rewrite Hti.
  cbn [mbind result_bind].
  destruct (Z.eqb_spec ti (-1)) as [->|Hne]; [facet_disabled|].
  eexists; eexists; split; [reflexivity|]. split; [|split].
  - now apply facet_options_unique.
  - intros Habs. exfalso. apply Hne.
    pose proof (findIndex_absent "type" hd (proj2 (proj2 tidy_labels)) Hs Habs).
    congruence.
  - unfold no_data_rows. lia.
Qed.

Lemma areas_memo_ok (rd : option grid) (h : Z) :
  0 <= h -> header_strings rd ->
  facet_memo_ok "area" rd h (areas_memo rd h).
Proof.
  intros Hh Hs. unfold facet_memo_ok, areas_memo.
  destruct rd as [g|]; [|facet_disabled].
  destruct (Z.ltb_spec (Z.of_nat (length g)) (h + 1)) as [E|E]; [facet_disabled|].
  destruct g as [|hd rest]; [simpl in E; lia|].
  destruct (findIndex_strings "area" hd Hs) as [ai Hai]. rewrite Hai.
  cbn [mbind result_bind].
  destruct (Z.eqb_spec ai (-1)) as [->|Hne]; [facet_disabled|].
  eexists; eexists; split; [reflexivity|]. split; [|split].
  - now apply facet_options_unique.
  - intros Habs. exfalso. apply Hne.
    pose proof (findIndex_absent "area" hd (proj1 tidy_labels) Hs Habs).
    congruence.
  - unfold no_data_rows. lia.
Qed.

Lemma cabinets_memo_ok (eq : bool) (rd : option grid) (selectedArea : string)
    (areaColumnIndex h : Z) :
  0 <= h -> header_strings rd ->
  facet_memo_ok "cabinet" rd h (cabinets_memo eq rd selectedArea areaColumnIndex h).
Proof.
  intros Hh Hs. unfold facet_memo_ok, cabinets_memo.
  destruct rd as [g|]; [|facet_disabled].
  destruct (negb eq || (Z.of_nat (length g) <? h + 1)) eqn:E; [facet_disabled|].
  apply orb_false_iff in E as [_ E]. apply Z.ltb_ge in E.
  destruct g as [|hd rest]; [simpl in E; lia|].
  destruct (findIndex_strings "cabinet" hd Hs) as [ci Hci]. rewrite Hci.
  cbn [mbind result_bind].
  assert (Habsent : column_absent "cabinet" (Some (hd :: rest)) -> ci = -1).
  { intros Habs.
    pose proof (findIndex_absent "cabinet" hd (proj1 (proj2 tidy_labels)) Hs Habs).
    congruence. }
  destruct ((ci =? -1) || String.eqb selectedArea "All" || (areaColumnIndex =? -1))
    eqn:G.
  - eexists; eexists; split; [reflexivity|]. split; [now left|]. split.
    + auto.
    + unfold no_data_rows. lia.
  - apply orb_false_iff in G as [G _]. apply orb_false_iff in G as [G _].
    apply Z.eqb_neq in G.
    eexists; eexists; split; [reflexivity|]. split; [|split].
    + destruct (0 <? length _)%nat; [|now left].
      apply facet_options_unique. intros r Hr.
      apply list_elem_of_In, filter_In in Hr as [Hr _]. now apply list_elem_of_In.
    + intros Habs. exfalso. auto.
    + unfold no_data_rows. lia.
Qed.

Lemma headerRowCount_nonneg (dataType : DataType) : 0 <= headerRowCount dataType.
Proof. destruct dataType; vm_compute; congruence. Qed.

(** One render of a grid whose header row holds strings only: no memo
    raises, and the view is made of what the memos return. *)
Lemma render_ok (dataType : DataType) (data : option grid) (fs : FilterState) :
  header_strings data ->
  exists rd types ti areas ai cabinets ci,
    reorderedData (isEquipmentView dataType) data = Ok rd
    /\ header_strings rd
    /\ length <$> rd = length <$> data
    /\ (forall label, column_absent label data -> column_absent label rd)
    /\ facet_memo_ok "type" rd (headerRowCount dataType) (Ok (types, ti))
    /\ facet_memo_ok "area" rd (headerRowCount dataType) (Ok (areas, ai))
    /\ facet_memo_ok "cabinet" rd (headerRowCount dataType) (Ok (cabinets, ci))
    /\ render dataType data fs
       = Ok {| v_reorderedData := rd;
               v_types := types; v_typeColumnIndex := ti;
               v_areas := areas; v_areaColumnIndex := ai;
               v_cabinets := cabinets; v_cabinetColumnIndex := ci;
               v_filteredBodyRows :=
                 filteredBodyRows rd (selectedType fs) (selectedArea fs)
                   (selectedCabinet fs) (searchTerm fs) (isFilterableView dataType)
                   ti ai ci (isEquipmentView dataType) (headerRowCount dataType);
               v_visibleEquipmentColumns :=
                 visibleEquipmentColumns (isEquipmentView dataType)
                   (filteredBodyRows rd (selectedType fs) (selectedArea fs)
                      (selectedCabinet fs) (searchTerm fs) (isFilterableView dataType)
                      ti ai ci (isEquipmentView dataType) (headerRowCount dataType))
                   rd (searchTerm fs) |}.
Proof.
  intros Hh.
  destruct (reorderedData_ok (isEquipmentView dataType) data Hh)
    as [rd [Hrd [Hs [Hlen Habs]]]].
  pose proof (headerRowCount_nonneg dataType) as Hn.
  pose proof (types_memo_ok (isFilterableView dataType) rd _ Hn Hs) as Ht.
  pose proof (areas_memo_ok rd _ Hn Hs) as Ha.
  destruct Ht as [types [ti [Et Ht]]]. destruct Ha as [areas [ai [Ea Ha]]].
  pose proof (cabinets_memo_ok (isEquipmentView dataType) rd (selectedArea fs)
                ai _ Hn Hs) as Hc.
  destruct Hc as [cabinets [ci [Ec Hc]]].
  exists rd, types, ti, areas, ai, cabinets, ci.
  split; [assumption|]. split; [assumption|]. split; [assumption|].
  split; [assumption|].
  split; [exists types, ti; auto|]. split; [exists areas, ai; auto|].
  split; [exists cabinets, ci; auto|].
  unfold render. rewrite Hrd. cbn [mbind result_bind]. rewrite Et.
  cbn [mbind result_bind]. rewrite Ea. cbn [mbind result_bind]. rewrite Ec.
  reflexivity.
Qed.

Lemma facet_memo_ok_inv (label : string) (rd : option grid) (h : Z)
    (opts : list cell) (i : Z) :
  facet_memo_ok label rd h (Ok (opts, i)) ->
  facet_options (body_rows rd h) i opts
  /\ (column_absent label rd -> opts = [] /\ i = -1)
  /\ (no_data_rows rd h -> opts = [] /\ i = -1).
Proof. intros [opts' [i' [E H]]]. inversion E; subst. exact H. Qed.

Lemma no_data_rows_length (data rd : option grid) (h : Z) :
  length <$> rd = length <$> data -> no_data_rows data h -> no_data_rows rd h.
Proof.
  destruct data as [g|], rd as [g'|]; simpl; intros E H; try discriminate; auto.
  inversion E as [E']. now rewrite E'.
Qed.

Lemma cabinet_moved_Forall_inv (P : cell -> Prop) (ai ci : Z) (r r' : row) :
  cabinet_moved ai ci r r' -> Forall P r' -> Forall P r.
Proof.
  intros [pre a mid c post _ _|pre c mid a post _ _] H;
    repeat (rewrite ?Forall_app, ?Forall_cons in * ); tauto.
Qed.

Lemma types_memo_members (flt : bool) (rd : option grid) (h : Z)
    (opts : list cell) (i : Z) :
  types_memo flt rd h = Ok (opts, i) -> i <> -1 ->
  opts = Str "All" :: unique_column (body_rows rd h) i.
Proof.
  unfold types_memo. destruct rd as [g|]; [|intros H; inversion H; lia].
  destruct (negb flt || (Z.of_nat (length g) <? h + 1)); [intros H; inversion H; lia|].
  destruct g as [|hd rest]; [discriminate|].
  destruct (findIndex (header_is "type") hd) as [ti|]; [|discriminate].
  cbn [mbind result_bind]. destruct (ti =? -1); intros H Hi; inversion H; subst; [lia|].
  reflexivity.
Qed.

Lemma areas_memo_members (rd : option grid) (h : Z) (opts : list cell) (i : Z) :
  areas_memo rd h = Ok (opts, i) -> i <> -1 ->
  opts = Str "All" :: unique_column (body_rows rd h) i.
Proof.
  unfold areas_memo. destruct rd as [g|]; [|intros H; inversion H; lia].
  destruct (Z.of_nat (length g) <? h + 1); [intros H; inversion H; lia|].
  destruct g as [|hd rest]; [discriminate|].
  destruct (findIndex (header_is "area") hd) as [ti|]; [|discriminate].
  cbn [mbind result_bind]. destruct (ti =? -1); intros H Hi; inversion H; subst; [lia|].
  reflexivity.
Qed.

(** One render, memo by memo. *)
Lemma render_memos (dataType : DataType) (data : option grid) (fs : FilterState) :
  header_strings data ->
  exists v,
    render dataType data fs = Ok v
    /\ reorderedData (isEquipmentView dataType) data = Ok (v_reorderedData v)
    /\ header_strings (v_reorderedData v)
    /\ types_memo (isFilterableView dataType) (v_reorderedData v)
         (headerRowCount dataType) = Ok (v_types v, v_typeColumnIndex v)
    /\ areas_memo (v_reorderedData v) (headerRowCount dataType)
       = Ok (v_areas v, v_areaColumnIndex v)
    /\ cabinets_memo (isEquipmentView dataType) (v_reorderedData v)
         (selectedArea fs) (v_areaColumnIndex v) (headerRowCount dataType)
       = Ok (v_cabinets v, v_cabinetColumnIndex v)
    /\ v_filteredBodyRows v
       = filteredBodyRows (v_reorderedData v) (selectedType fs) (selectedArea fs)
           (selectedCabinet fs) (searchTerm fs) (isFilterableView dataType)
           (v_typeColumnIndex v) (v_areaColumnIndex v) (v_cabinetColumnIndex v)
           (isEquipmentView dataType) (headerRowCount dataType)
    /\ v_visibleEquipmentColumns v
       = visibleEquipmentColumns (isEquipmentView dataType) (v_filteredBodyRows v)
           (v_reorderedData v) (searchTerm fs).
Proof.
  intros Hh.
  destruct (reorderedData_ok (isEquipmentView dataType) data Hh)
    as [rd [Hrd [Hs _]]].
  pose proof (headerRowCount_nonneg dataType) as Hn.
  destruct (types_memo_ok (isFilterableView dataType) rd _ Hn Hs) as [ts [ti [Et _]]].
  destruct (areas_memo_ok rd _ Hn Hs) as [ars [ai [Ea _]]].
  destruct (cabinets_memo_ok (isEquipmentView dataType) rd (selectedArea fs)
              ai _ Hn Hs) as [cs [ci [Ec _]]].
  eexists. split.
  - unfold render. rewrite Hrd. cbn [mbind result_bind]. rewrite Et.
    cbn [mbind result_bind]. rewrite Ea. cbn [mbind result_bind]. rewrite Ec.
    reflexivity.
  - cbn. auto 10.
Qed.

Lemma cabinets_memo_members (eq : bool) (rd : option grid) (sel : string)
    (ai h : Z) (opts : list cell) (ci : Z) :
  cabinets_memo eq rd sel ai h = Ok (opts, ci) ->
  opts = []
  \/ (eq = true /\ sel <> "All" /\ ai <> -1 /\ ci <> -1
      /\ exists u,
           u <> []
           /\ u = unique_column
                    (List.filter (fun r => strict_eq (at_index r ai) (Str sel))
                       (body_rows rd h)) ci
           /\ opts = Str "All" :: u).
Proof.
  unfold cabinets_memo. destruct rd as [g|]; [|intros H; inversion H; now left].
  destruct eq; cbn [negb orb]; [|intros H; inversion H; now left].
  destruct (Z.of_nat (length g) <? h + 1); [intros H; inversion H; now left|].
  destruct g as [|hd rest]; [discriminate|].
  destruct (findIndex (header_is "cabinet") hd) as [i|]; [|discriminate].
  cbn [mbind result_bind].
  destruct (Z.eqb_spec i (-1)); cbn [orb]; [intros H; inversion H; now left|].
  destruct (String.eqb_spec sel "All"); cbn [orb]; [intros H; inversion H; now left|].
  destruct (Z.eqb_spec ai (-1)); [intros H; inversion H; now left|].
  cbv zeta. cbn [body_rows].
  destruct (unique_column _ i) as [|x u] eqn:Eu; cbn [length Nat.ltb Nat.leb];
    intros H; inversion H; subst; [now left|].
  right. split; [reflexivity|]. split; [assumption|]. split; [assumption|].
  split; [assumption|]. exists (x :: u). split; [discriminate|].
  split; [now rewrite <- Eu | reflexivity].
Qed.

Lemma located_absent (label : string) (h : row) (i : Z) :
  located label h i -> (i = -1 <-> Forall (fun c => ~ reads_as label c) h).
Proof.
  intros [[-> H]|[pre [c [post [-> [-> [Hc Hpre]]]]]]].
  - split; auto.
  - split; [lia|]. intros H. apply Forall_app in H as [_ H].
    inversion H; subst. contradiction.
Qed.

(** The reorder keeps the labels of header row 0 and the number of rows. *)
Lemma reorderedData_columns (eq : bool) (data rd : option grid) (label : string) :
  header_strings data -> reorderedData eq data = Ok rd ->
  (column_absent label rd <-> column_absent label data)
  /\ (forall h, no_data_rows rd h <-> no_data_rows data h).
Proof.
  intros Hh. destruct data as [[|h rest]|];
    try (intros E; inversion E; subst; split; [reflexivity | intros; reflexivity]).
  destruct eq; [|intros E; inversion E; subst; split; [reflexivity|intros; reflexivity]].
  destruct (findIndex_strings "area" h Hh) as [ai Hai].
  destruct (findIndex_strings "cabinet" h Hh) as [ci Hci].
  rewrite (reorderedData_equipment h rest ai ci Hai Hci).
  destruct ((ai =? -1) || (ci =? -1) || (ci =? ai + 1)) eqn:E;
    intros Er; inversion Er; subst; [split; [reflexivity|intros; reflexivity]|].
  apply orb_false_iff in E as [E E3]. apply orb_false_iff in E as [E1 E2].
  assert (Hm : cabinet_moved ai ci h (reorder_row ai ci h))
    by (apply header_row_moved; auto; lia).
  split.
  - cbn. split; intros H.
    + eapply cabinet_moved_Forall_inv; eassumption.
    + eapply cabinet_moved_Forall; eassumption.
  - intros k. cbn. now rewrite length_map.
Qed.

(** The branches of the three memos. *)
Lemma types_memo_cases (rd : option grid) (h : Z) (opts : list cell) (i : Z) :
  header_strings rd -> types_memo true rd h = Ok (opts, i) ->
  (no_data_rows rd h /\ opts = [] /\ i = -1)
  \/ (~ no_data_rows rd h
      /\ exists hd rest,
           rd = Some (hd :: rest) /\ located "type" hd i
           /\ opts = if i =? -1 then []
                     else Str "All" :: unique_column (body_rows rd h) i).
Proof.
  intros Hs. unfold types_memo, no_data_rows.
  destruct rd as [g|]; [|intros E; inversion E; now left].
  cbn [negb orb].
  destruct (Z.ltb_spec (Z.of_nat (length g)) (h + 1)) as [Hlt|Hge];
    [intros E; inversion E; now left|].
  destruct g as [|hd rest]; [discriminate|].
  destruct (findIndex (header_is "type") hd) as [ti|] eqn:Hti; [|discriminate].
  cbn [mbind result_bind]. intros E. right. split; [lia|]. exists hd, rest.
  apply findIndex_located in Hti; [|apply tidy_labels].
  destruct (Z.eqb_spec ti (-1)) as [->|Hne]; inversion E; subst.
  - now repeat split.
  - split; [reflexivity|]. split; [exact Hti|].
    destruct (Z.eqb_spec i (-1)); [contradiction|reflexivity].
Qed.

Lemma areas_memo_cases (rd : option grid) (h : Z) (opts : list cell) (i : Z) :
  header_strings rd -> areas_memo rd h = Ok (opts, i) ->
  (no_data_rows rd h /\ opts = [] /\ i = -1)
  \/ (~ no_data_rows rd h
      /\ exists hd rest,
           rd = Some (hd :: rest) /\ located "area" hd i
           /\ opts = if i =? -1 then []
                     else Str "All" :: unique_column (body_rows rd h) i).
Proof.
  intros Hs. unfold areas_memo, no_data_rows.
  destruct rd as [g|]; [|intros E; inversion E; now left].
  destruct (Z.ltb_spec (Z.of_nat (length g)) (h + 1)) as [Hlt|Hge];
    [intros E; inversion E; now left|].
  destruct g as [|hd rest]; [discriminate|].
  destruct (findIndex (header_is "area") hd) as [ti|] eqn:Hti; [|discriminate].
  cbn [mbind result_bind]. intros E. right. split; [lia|]. exists hd, rest.
  apply findIndex_located in Hti; [|apply tidy_labels].
  destruct (Z.eqb_spec ti (-1)) as [->|Hne]; inversion E; subst.
  - now repeat split.
  - split; [reflexivity|]. split; [exact Hti|].
    destruct (Z.eqb_spec i (-1)); [contradiction|reflexivity].
Qed.

Lemma cabinets_memo_cases (eq : bool) (rd : option grid) (sel : string)
    (ai h : Z) (opts : list cell) (ci : Z) :
  header_strings rd -> cabinets_memo eq rd sel ai h = Ok (opts, ci) ->
  ((eq = false \/ no_data_rows rd h) /\ opts = [] /\ ci = -1)
  \/ (eq = true /\ ~ no_data_rows rd h
      /\ exists hd rest,
           rd = Some (hd :: rest) /\ located "cabinet" hd ci
           /\ opts = if (ci =? -1) || String.eqb sel "All" || (ai =? -1) then []
                     else
                       match unique_column
                               (List.filter
                                  (fun r => strict_eq (at_index r ai) (Str sel))
                                  (body_rows rd h)) ci with
                       | [] => []
                       | u => Str "All" :: u
                       end).
Proof.
  intros Hs. unfold cabinets_memo, no_data_rows.
  destruct rd as [g|]; [|intros E; inversion E; left; auto].
  destruct eq; cbn [negb orb]; [|intros E; inversion E; left; auto].
  destruct (Z.ltb_spec (Z.of_nat (length g)) (h + 1)) as [Hlt|Hge];
    [intros E; inversion E; left; auto|].
  destruct g as [|hd rest]; [discriminate|].
  destruct (findIndex (header_is "cabinet") hd) as [i|] eqn:Hi; [|discriminate].
  cbn [mbind result_bind]. intros E. right. split; [reflexivity|]. split; [lia|].
  exists hd, rest. apply findIndex_located in Hi; [|apply tidy_labels].
  destruct ((i =? -1) || String.eqb sel "All" || (ai =? -1)) eqn:G;
    inversion E; subst.
  - split; [reflexivity|]. split; [exact Hi|]. now rewrite G.
  - split; [reflexivity|]. split; [exact Hi|]. rewrite G. cbn [body_rows].
    now destruct (unique_column _ ci).
Qed.

Lemma Boolean_filled (c : cell) : Boolean c = true <-> filled c.
Proof.
  unfold filled. destruct c as [|s]; cbn.
  - split; [discriminate | intros [s [E _]]; discriminate].
  - rewrite truthy_true. split.
    + intros H. now exists s.
    + intros [s' [E H]]. now inversion E.
Qed.

Lemma column_absent_missing (label : string) (data : option grid) :
  column_absent label data <-> column_missing label data.
Proof.
  destruct data as [[|h rest]|]; cbn; try reflexivity.
  split; intros H; (eapply Forall_impl; [exact H|]); intros c Hc Hr; apply Hc;
    now apply reads_as_reads.
Qed.

Lemma facet_on_unique (label : string) (hd : row) (rest : grid)
    (among : row -> Prop) (rows : list row) (i : Z) :
  located label hd i -> i <> -1 ->
  (forall r, among r <-> r ∈ rows) ->
  facet_on label (Some (hd :: rest)) among (Str "All" :: unique_column rows i) i.
Proof.
  intros Hl Hi Hrows. exists hd, rest, (unique_column rows i).
  split; [reflexivity|]. split; [now apply located_first_labelled|].
  split; [exact Hi|].
  split; [reflexivity|]. split; [apply new_Set_NoDup|].
  assert (Hmem : forall x,
             x ∈ unique_column rows i
             <-> filled x /\ exists r, among r /\ at_index r i = x).
  { intros x. rewrite unique_column_elem, Boolean_filled. split.
    - intros [Hb [r [Hr E]]]. split; [exact Hb|]. exists r. split; [|exact E].
      now apply Hrows.
    - intros [Hb [r [Hr E]]]. split; [exact Hb|]. exists r. split; [|exact E].
      now apply Hrows. }
  split; [exact Hmem|]. split.
  - intros Hnd r Hr E. inversion Hnd as [|? ? Hnot _]; subst. apply Hnot.
    apply Hmem. split; [now exists "All"|]. now exists r.
  - intros Hall. constructor; [|apply new_Set_NoDup].
    intros Hin. apply Hmem in Hin as [_ [r [Hr E]]]. now apply (Hall r).
Qed.

(** The three option lists of one render of a grid of strings: when they
    are empty, and what they hold when they are not. *)
Lemma render_facets (dataType : DataType) (data : option grid) (fs : FilterState) :
  well_formed data ->
  exists v,
    render dataType data fs = Ok v
    /\ let h := headerRowCount dataType in
       let rd := v_reorderedData v in
       let body := fun r => r ∈ body_rows rd h in
       let in_area :=
         fun r => r ∈ body_rows rd h
                  /\ at_index r (v_areaColumnIndex v) = Str (selectedArea fs) in
       (v_types v = [] <-> no_data_rows data h \/ column_missing "type" data)
       /\ (v_areas v = [] <-> no_data_rows data h \/ column_missing "area" data)
       /\ (v_cabinets v = []
           <-> dataType <> equipment
               \/ no_data_rows data h
               \/ column_missing "cabinet" data
               \/ selectedArea fs = "All"
               \/ column_missing "area" data
               \/ forall r, in_area r ->
                    ~ filled (at_index r (v_cabinetColumnIndex v)))
       /\ (v_types v <> [] ->
           facet_on "type" rd body (v_types v) (v_typeColumnIndex v))
       /\ (v_areas v <> [] ->
           facet_on "area" rd body (v_areas v) (v_areaColumnIndex v))
       /\ (v_cabinets v <> [] ->
           facet_on "cabinet" rd in_area (v_cabinets v) (v_cabinetColumnIndex v)).
Proof.
  intros Hwf. apply well_formed_header in Hwf.
  destruct (render_memos dataType data fs Hwf)
    as [v [Hv [Hrd [Hs [Ht [Ha [Hc _]]]]]]].
  exists v. split; [exact Hv|]. cbv zeta.
  set (h := headerRowCount dataType) in *.
  set (rd := v_reorderedData v) in *.
  assert (Habs : forall label, column_absent label rd <-> column_missing label data).
  { intros label. rewrite <- column_absent_missing.
    exact (proj1 (reorderedData_columns _ _ _ label Hwf Hrd)). }
  assert (Hnd : no_data_rows rd h <-> no_data_rows data h).
  { exact (proj2 (reorderedData_columns _ _ _ "area" Hwf Hrd) h). }
  replace (isFilterableView dataType) with true in Ht by now destruct dataType.
  apply types_memo_cases in Ht; [|exact Hs].
  pose proof (areas_memo_cases _ _ _ _ Hs Ha) as Ha'.
  apply cabinets_memo_cases in Hc; [|exact Hs].
  assert (Hlab : forall label hd rest i,
             rd = Some (hd :: rest) -> located label hd i ->
             (i = -1 <-> column_missing label data)).
  { intros label hd rest i E Hl. rewrite <- Habs, E. cbn.
    now apply located_absent. }
  (* the area column, which the cabinet memo reads *)
  assert (Harea : ~ no_data_rows rd h ->
                  (v_areaColumnIndex v = -1 <-> column_missing "area" data)).
  { intros Hrows. destruct Ha' as [[Hn _]|[_ [hd [rest [E [Hl _]]]]]];
      [contradiction|]. now apply (Hlab "area" hd rest). }
  split; [|split; [|split; [|split; [|split]]]].
  - (* types, empty *)
    destruct Ht as [[Hn [-> _]]|[Hn [hd [rest [E [Hl ->]]]]]].
    + split; [intros _; left; now apply Hnd | reflexivity].
    + pose proof (Hlab "type" hd rest _ E Hl) as Hi.
      destruct (Z.eqb_spec (v_typeColumnIndex v) (-1)) as [Ei|Ei].
      * split; [intros _; right; now apply Hi | reflexivity].
      * split; [discriminate|]. intros [H|H]; [apply Hnd in H; contradiction|].
        apply Hi in H. contradiction.
  - (* areas, empty *)
    destruct Ha' as [[Hn [-> _]]|[Hn [hd [rest [E [Hl ->]]]]]].
    + split; [intros _; left; now apply Hnd | reflexivity].
    + pose proof (Hlab "area" hd rest _ E Hl) as Hi.
      destruct (Z.eqb_spec (v_areaColumnIndex v) (-1)) as [Ei|Ei].
      * split; [intros _; right; now apply Hi | reflexivity].
      * split; [discriminate|]. intros [H|H]; [apply Hnd in H; contradiction|].
        apply Hi in H. contradiction.
  - (* cabinets, empty *)
    destruct Hc as [[Hn [-> Eci]]|[Heq [Hn [hd [rest [E [Hl ->]]]]]]].
    + split; [|reflexivity]. intros _.
      destruct Hn as [Hn|Hn].
      * left. intros ->. discriminate.
      * right. left. now apply Hnd.
    + pose proof (Hlab "cabinet" hd rest _ E Hl) as Hi.
      specialize (Harea Hn).
      destruct (Z.eqb_spec (v_cabinetColumnIndex v) (-1)) as [Eci|Eci]; cbn [orb].
      { split; [|reflexivity]. intros _. right. right. left. now apply Hi. }
      destruct (String.eqb_spec (selectedArea fs) "All") as [Esel|Esel]; cbn [orb].
      { split; [|reflexivity]. intros _. right. right. right. now left. }
      destruct (Z.eqb_spec (v_areaColumnIndex v) (-1)) as [Eai|Eai].
      { split; [|reflexivity]. intros _. right. right. right. right. left.
        now apply Harea. }
      destruct (unique_column _ (v_cabinetColumnIndex v)) as [|x u] eqn:Eu.
      * split; [|reflexivity]. intros _. do 5 right. intros r [Hr Har] Hb.
        apply Boolean_filled in Hb.
        assert (Hin : at_index r (v_cabinetColumnIndex v)
                      ∈ unique_column
                          (List.filter
                             (fun r => strict_eq (at_index r (v_areaColumnIndex v))
                                         (Str (selectedArea fs)))
                             (body_rows rd h)) (v_cabinetColumnIndex v)).
        { apply unique_column_elem. split; [exact Hb|]. exists r.
          split; [|reflexivity]. apply list_elem_of_In, filter_In.
          split; [now apply list_elem_of_In|].
          unfold strict_eq. now apply bool_decide_eq_true. }
        rewrite Eu in Hin. inversion Hin.
      * split; [discriminate|]. intros H. exfalso.
        destruct H as [H|[H|[H|[H|[H|H]]]]].
        -- apply H. destruct dataType; [discriminate ..|reflexivity].
        -- now apply Hnd in H.
        -- now apply Hi in H.
        -- contradiction.
        -- now apply Harea in H.
        -- assert (Hin : x ∈ x :: u) by left. rewrite <- Eu in Hin.
           apply unique_column_elem in Hin as [Hb [r [Hr Ex]]].
           apply list_elem_of_In, filter_In in Hr as [Hr Hsel].
           unfold strict_eq in Hsel. apply bool_decide_eq_true in Hsel.
           apply Boolean_filled in Hb. rewrite <- Ex in Hb. apply (H r); [|exact Hb].
           split; [now apply list_elem_of_In | exact Hsel].
  - (* types, contents *)
    intros Hne. destruct Ht as [[_ [E _]]|[_ [hd [rest [E [Hl Eo]]]]]];
      [contradiction|].
    destruct (Z.eqb_spec (v_typeColumnIndex v) (-1)) as [Ei|Ei];
      [rewrite Eo in Hne; contradiction|].
    rewrite Eo, E. apply facet_on_unique; [exact Hl | exact Ei | intros r; reflexivity].
  - (* areas, contents *)
    intros Hne. destruct Ha' as [[_ [E _]]|[_ [hd [rest [E [Hl Eo]]]]]];
      [contradiction|].
    destruct (Z.eqb_spec (v_areaColumnIndex v) (-1)) as [Ei|Ei];
      [rewrite Eo in Hne; contradiction|].
    rewrite Eo, E. apply facet_on_unique; [exact Hl | exact Ei | intros r; reflexivity].
  - (* cabinets, contents *)
    intros Hne. destruct Hc as [[_ [E _]]|[_ [_ [hd [rest [E [Hl Eo]]]]]]];
      [contradiction|].
    destruct ((v_cabinetColumnIndex v =? -1) || String.eqb (selectedArea fs) "All"
              || (v_areaColumnIndex v =? -1)) eqn:G;
      [rewrite Eo in Hne; contradiction|].
    apply orb_false_iff in G as [G _]. apply orb_false_iff in G as [G _].
    apply Z.eqb_neq in G.
    destruct (unique_column _ (v_cabinetColumnIndex v)) as [|x u] eqn:Eu;
      [rewrite Eo in Hne; contradiction|].
    rewrite Eo, <- Eu, E. apply facet_on_unique; [exact Hl | exact G |].
    intros r. split.
    + intros [Hr Hsel]. apply list_elem_of_In, filter_In.
      split; [now apply list_elem_of_In|].
      unfold strict_eq. now apply bool_decide_eq_true.
    + intros Hr. apply list_elem_of_In, filter_In in Hr as [Hr Hsel].
      split; [now apply list_elem_of_In|].
      unfold strict_eq in Hsel. now apply bool_decide_eq_true in Hsel.
Qed.

(** C4, as the code has it.  On a grid of strings the render succeeds.
    The type list and the area list are empty exactly when the grid has no
    data row or header row 0 has no column of that label.  The cabinet
    list is empty exactly when the dataset is not the equipment one, the
    grid has no data row, header row 0 has no cabinet column or no area
    column, the selected area is 'All', or no data row of the selected
    area holds a cabinet value that is not empty.  A list that is not
    empty is 'All' followed by the values, not empty, that the data rows
    (for the cabinet list: the data rows of the selected area) hold in the
    first column of that label, each of them once; it has a duplicate
    exactly when one of these rows holds 'All' in that column. *)
Theorem facet_options_of_render (dataType : DataType) (data : option grid)
    (fs : FilterState) :
  well_formed data ->
  exists v,
    render dataType data fs = Ok v
    /\ let h := headerRowCount dataType in
       let rd := v_reorderedData v in
       let body := fun r => r ∈ body_rows rd h in
       let in_area :=
         fun r => r ∈ body_rows rd h
                  /\ at_index r (v_areaColumnIndex v) = Str (selectedArea fs) in
       (v_types v = [] <-> no_data_rows data h \/ column_missing "type" data)
       /\ (v_areas v = [] <-> no_data_rows data h \/ column_missing "area" data)
       /\ (v_cabinets v = []
           <-> dataType <> equipment
               \/ no_data_rows data h
               \/ column_missing "cabinet" data
               \/ selectedArea fs = "All"
               \/ column_missing "area" data
               \/ forall r, in_area r ->
                    ~ filled (at_index r (v_cabinetColumnIndex v)))
       /\ (v_types v <> [] ->
           facet_on "type" rd body (v_types v) (v_typeColumnIndex v))
       /\ (v_areas v <> [] ->
           facet_on "area" rd body (v_areas v) (v_areaColumnIndex v))
       /\ (v_cabinets v <> [] ->
           facet_on "cabinet" rd in_area (v_cabinets v) (v_cabinetColumnIndex v)).
Proof. exact (render_facets dataType data fs). Qed.

(** C4, as the spec has it, fails twice over: a grid without data rows has
    empty option lists, and a data cell that reads 'All' is listed after
    the leading 'All'. *)
Lemma facet_options_counterexample :
  (exists v,
      render stock (Some [ [Str "Type"] ]) fs_default = Ok v
      /\ v_types v = []
      /\ ~ (exists rest, v_types v = Str "All" :: rest))
  /\ (exists v,
        render stock (Some [ [Str "Type"]; [Str "All"]; [Str "Valve"] ]) fs_default
        = Ok v
        /\ v_types v = [Str "All"; Str "All"; Str "Valve"]
        /\ ~ NoDup (v_types v)).
Proof.
  split; eexists; (split; [vm_compute; reflexivity|]); cbn; (split; [reflexivity|]).
  - intros [rest H]. discriminate.
  - intros H. inversion H as [|? ? Hn _]; subst. apply Hn. left.
Qed.

(** C9. On a grid of strings the render never raises, and a facet whose
    column is missing from header row 0 has no options and its filter pass
    returns every list of rows as it is. *)
Theorem render_total (dataType : DataType) (data : option grid)
    (fs : FilterState) :
  well_formed data ->
  exists v,
    render dataType data fs = Ok v
    /\ (column_absent "type" data ->
        v_types v = []
        /\ forall rows,
             type_pass (isFilterableView dataType) (selectedType fs)
               (v_typeColumnIndex v) rows = rows)
    /\ (column_absent "area" data ->
        v_areas v = []
        /\ forall rows, area_pass (selectedArea fs) (v_areaColumnIndex v) rows = rows)
    /\ (column_absent "cabinet" data ->
        v_cabinets v = []
        /\ forall rows,
             cabinet_pass (isEquipmentView dataType) (selectedCabinet fs)
               (v_cabinetColumnIndex v) rows = rows).
Proof.
  intros Hwf. apply well_formed_header in Hwf.
  destruct (render_ok dataType data fs Hwf)
    as [rd [ts [ti [ars [ai [cs [ci [_ [_ [_ [Habs [Ht [Ha [Hc Hr]]]]]]]]]]]]]].
  eexists. split; [exact Hr|]. cbn.
  apply facet_memo_ok_inv in Ht as [_ [Ht _]], Ha as [_ [Ha _]], Hc as [_ [Hc _]].
  split; [|split]; intros H; apply Habs in H.
  - destruct (Ht H) as [-> ->]. split; [reflexivity|]. intros rows.
    unfold type_pass. now rewrite Z.eqb_refl, andb_false_r.
  - destruct (Ha H) as [-> ->]. split; [reflexivity|]. intros rows.
    unfold area_pass. now rewrite Z.eqb_refl, andb_false_r.
  - destruct (Hc H) as [-> ->]. split; [reflexivity|]. intros rows.
    unfold cabinet_pass. now rewrite Z.eqb_refl, andb_false_r.
Qed.

(** C10. A grid of strings with fewer than [headerRowCount + 1] rows has
    three empty option lists, not the one-element list 'All'. *)
Theorem no_data_rows_no_options (dataType : DataType) (data : option grid)
    (fs : FilterState) :
  well_formed data ->
  no_data_rows data (headerRowCount dataType) ->
  exists v,
    render dataType data fs = Ok v
    /\ v_types v = [] /\ v_areas v = [] /\ v_cabinets v = [].
Proof.
  intros Hwf Hshort. apply well_formed_header in Hwf.
  destruct (render_ok dataType data fs Hwf)
    as [rd [ts [ti [ars [ai [cs [ci [_ [_ [Hlen [_ [Ht [Ha [Hc Hr]]]]]]]]]]]]]].
  eexists. split; [exact Hr|]. cbn.
  apply (no_data_rows_length _ _ _ Hlen) in Hshort.
  apply facet_memo_ok_inv in Ht as [_ [_ Ht]], Ha as [_ [_ Ha]], Hc as [_ [_ Hc]].
  destruct (Ht Hshort) as [-> _], (Ha Hshort) as [-> _], (Hc Hshort) as [-> _].
  auto.
Qed.

(** ** The component as a state machine *)

Lemma commit_once_settled (st : State) : settled st -> commit_once st = st.
Proof.
  intros [H1 H2]. unfold commit_once. cbn zeta.
  rewrite (bool_decide_eq_true_2 _ H1). cbn iota.
  rewrite (bool_decide_eq_true_2 _ H2). reflexivity.
Qed.

Lemma commit_is_settled (st : State) : settled (commit st).
Proof.
  destruct st. unfold commit, commit_once, settled. cbn.
  repeat (case_bool_decide; cbn in * ); split; congruence.
Qed.

Lemma commit_settled (st : State) : settled st -> commit st = st.
Proof.
  intros H. unfold commit. rewrite (commit_once_settled st H).
  now apply commit_once_settled.
Qed.

(** The promise chain touches [data], [loading] and [error] only. *)
Lemma settle_frame (run : nat) (init : bool) (resp : Response) (st : State) :
  exists d l e, settle run init resp st = setError e (setLoading l (setData d st)).
Proof.
  destruct st as [a dt d l e f fl iv ds df al rq]. unfold settle. cbn.
  destruct (parsed resp) as [m|result]; cbn;
    destruct (default false (fl !! run)) eqn:Hm; cbn;
    try destruct (success result); try destruct (payload_data result) as [g|];
    destruct init; unfold setError, setLoading, setData; cbn; rewrite ?Hm; cbn;
    rewrite ?Hm; cbn; eexists _, _, _; reflexivity.
Qed.

(** A chain whose run has [isMounted] cleared returns at each of its guards. *)
Lemma settle_not_mounted (run : nat) (init : bool) (resp : Response) (st : State) :
  default false (isMounted st !! run) = false -> settle run init resp st = st.
Proof.
  intros H. unfold settle.
  destruct (parsed resp) as [m|result]; cbn; rewrite ?H; cbn; rewrite ?H; reflexivity.
Qed.

Lemma cleanup_clears (st : State) (i : nat) :
  one_live_run st -> isMounted (cleanup st) !! i <> Some true.
Proof.
  intros Hlive. unfold cleanup. cbn. destruct (intervalId st) as [run|] eqn:E.
  - destruct (decide (i = run)) as [->|Hne].
    + intros H. apply list_lookup_insert_Some in H.
      destruct H as [[_ [H _]]|[H _]]; congruence.
    + rewrite list_lookup_insert_ne by congruence. intros H.
      apply Hlive in H as [_ H]. congruence.
  - intros H. apply Hlive in H as [_ H]. congruence.
Qed.

Lemma cleanup_keeps_cleared (st : State) (i : nat) :
  isMounted st !! i = Some false -> isMounted (cleanup st) !! i = Some false.
Proof.
  intros H. unfold cleanup. cbn. destruct (intervalId st) as [run|]; [|assumption].
  destruct (decide (i = run)) as [->|Hne].
  - apply list_lookup_insert_Some. left. split; [reflexivity|]. split; [reflexivity|].
    eapply lookup_lt_Some; eassumption.
  - now rewrite list_lookup_insert_ne by congruence.
Qed.

Lemma cleanup_length (st : State) :
  length (isMounted (cleanup st)) = length (isMounted st).
Proof.
  unfold cleanup. cbn. destruct (intervalId st); [apply length_insert | reflexivity].
Qed.

Lemma effect_fetch_live (st : State) :
  one_live_run st -> alive st = true -> one_live_run (effect_fetch st).
Proof.
  intros Hlive Halive i. unfold effect_fetch. cbn. intros H.
  split; [assumption|].
  apply lookup_app_Some in H as [H|[Hlen H]].
  - now apply cleanup_clears in H.
  - f_equal. apply lookup_lt_Some in H. simpl in H.
    unfold cleanup in *. cbn in *. lia.
Qed.

Lemma effect_fetch_keeps_cleared (st : State) (i : nat) :
  isMounted st !! i = Some false -> isMounted (effect_fetch st) !! i = Some false.
Proof.
  intros H. unfold effect_fetch. cbn. apply lookup_app_l_Some.
  now apply (cleanup_keeps_cleared st).
Qed.

Lemma commit_once_live (st : State) :
  one_live_run st -> alive st = true -> one_live_run (commit_once st).
Proof.
  intros Hlive Halive. unfold commit_once. cbn zeta.
  set (st1 := if bool_decide (deps_selectedArea st = Some (selectedArea (filters st)))
              then st else effect_selectedArea st).
  assert (H1 : one_live_run st1 /\ alive st1 = true).
  { subst st1. case_bool_decide; [auto|]. split; [exact Hlive | exact Halive]. }
  clearbody st1. destruct H1 as [H1 H1'].
  case_bool_decide; [assumption|]. now apply effect_fetch_live.
Qed.

Lemma commit_once_alive (st : State) : alive (commit_once st) = alive st.
Proof.
  destruct st. unfold commit_once. cbn. repeat (case_bool_decide; cbn in * ); reflexivity.
Qed.

Lemma commit_live (st : State) :
  one_live_run st -> alive st = true -> one_live_run (commit st).
Proof.
  intros Hlive Halive. unfold commit.
  apply commit_once_live; [now apply commit_once_live|].
  now rewrite commit_once_alive.
Qed.

Lemma commit_once_keeps_cleared (st : State) (i : nat) :
  isMounted st !! i = Some false -> isMounted (commit_once st) !! i = Some false.
Proof.
  intros H. unfold commit_once. cbn zeta.
  set (st1 := if bool_decide (deps_selectedArea st = Some (selectedArea (filters st)))
              then st else effect_selectedArea st).
  assert (H1 : isMounted st1 !! i = Some false)
    by (subst st1; case_bool_decide; exact H).
  clearbody st1.
  case_bool_decide; [assumption|]. now apply effect_fetch_keeps_cleared.
Qed.

Lemma handle_live (ev : Event) (st : State) :
  one_live_run st -> one_live_run (handle ev st).
Proof.
  intros Hlive.
  destruct ev as [v|v|v|v|a d| |run init resp|]; cbn [handle];
    try (destruct (alive st) eqn:Halive; cbn [negb]; [|exact Hlive]).
  1-5: exact Hlive.
  - destruct (intervalId st) as [run|] eqn:E; [|exact Hlive].
    intros i H. cbn in *. destruct (Hlive i H). split; congruence.
  - destruct (settle_frame run init resp st) as [d [l [e ->]]]. exact Hlive.
  - intros i H. cbn in H. now apply cleanup_clears in H.
Qed.

Lemma handle_keeps_cleared (ev : Event) (st : State) (i : nat) :
  isMounted st !! i = Some false -> isMounted (handle ev st) !! i = Some false.
Proof.
  intros H.
  destruct ev as [v|v|v|v|a d| |run init resp|]; cbn [handle];
    try (destruct (alive st) eqn:Halive; cbn [negb]; [|exact H]).
  1-5: exact H.
  - destruct (intervalId st) as [run|] eqn:E; exact H.
  - destruct (settle_frame run init resp st) as [d [l [e ->]]]. exact H.
  - cbn. now apply (cleanup_keeps_cleared st).
Qed.

Lemma step_keeps_cleared (ev : Event) (st : State) (i : nat) :
  isMounted st !! i = Some false -> isMounted (step ev st) !! i = Some false.
Proof.
  intros H. unfold step. cbn zeta. apply (handle_keeps_cleared ev) in H.
  destruct (alive (handle ev st)); [|assumption].
  unfold commit. now do 2 apply commit_once_keeps_cleared.
Qed.

Lemma mount_invariant (a : Area) (d : DataType) : invariant (mount a d).
Proof.
  split.
  - apply commit_live; [|reflexivity]. intros i H. inversion H.
  - intros _. apply commit_is_settled.
Qed.

Lemma step_invariant (ev : Event) (st : State) :
  invariant st -> invariant (step ev st).
Proof.
  intros [Hlive Hset]. unfold step. cbn zeta.
  pose proof (handle_live ev st Hlive) as Hl.
  destruct (alive (handle ev st)) eqn:Halive.
  - split; [now apply commit_live|]. intros _. apply commit_is_settled.
  - split; [assumption|]. congruence.
Qed.

Lemma run_events_invariant (evs : list Event) (st : State) :
  invariant st -> invariant (run_events evs st).
Proof.
  revert st; induction evs as [|ev evs IH]; intros st H; simpl; [assumption|].
  apply IH. now apply step_invariant.
Qed.

Lemma run_events_keeps_cleared (evs : list Event) (st : State) (i : nat) :
  isMounted st !! i = Some false -> isMounted (run_events evs st) !! i = Some false.
Proof.
  revert st; induction evs as [|ev evs IH]; intros st H; simpl; [assumption|].
  apply IH. now apply step_keeps_cleared.
Qed.

(** *** Cancellation *)

Lemma cleared_in_range (flags : list bool) (i : nat) :
  (i < length flags)%nat -> flags !! i <> Some true -> flags !! i = Some false.
Proof.
  intros Hlt Hn. destruct (lookup_lt_is_Some_2 flags i Hlt) as [[|] E]; congruence.
Qed.

Lemma dead_has_no_live_run (st : State) (i : nat) :
  one_live_run st -> alive st = false -> isMounted st !! i <> Some true.
Proof. intros Hlive Hdead H. apply Hlive in H as [H _]. congruence. Qed.

Arguments cleanup : simpl never.

Lemma cancel_clears (ev : Event) (st : State) (run : nat) :
  invariant st -> cancels ev st -> (run < length (isMounted st))%nat ->
  isMounted (step ev st) !! run = Some false.
Proof.
  intros [Hlive Hset] Hc Hrun.
  destruct (alive st) eqn:Halive.
  - specialize (Hset eq_refl). destruct Hset as [Hs1 Hs2].
    destruct Hc as [->|[a [d [-> Hkey]]]].
    + unfold step, handle. rewrite Halive. cbn.
      apply cleared_in_range; [now rewrite cleanup_length | now apply cleanup_clears].
    + unfold step, handle. rewrite Halive. cbn [negb setProps alive].
      rewrite Halive. unfold commit. apply commit_once_keeps_cleared.
      unfold commit_once. cbn.
      rewrite (bool_decide_eq_true_2 _ Hs1). cbn.
      rewrite bool_decide_eq_false_2 by congruence.
      unfold effect_fetch. cbn. apply lookup_app_l_Some.
      apply (cleared_in_range (isMounted (cleanup (setProps a d st)))).
      * now rewrite cleanup_length.
      * now apply cleanup_clears.
  - assert (Hstep : step ev st = st).
    { destruct Hc as [->|[a [d [-> _]]]]; unfold step, handle; rewrite Halive;
        cbn; now rewrite Halive. }
    rewrite Hstep. apply cleared_in_range; [assumption|].
    now apply dead_has_no_live_run.
Qed.

(** C8. Take any state the component reaches, a run of the fetch effect
    started by then, and cancel: unmount, or change the pair
    (area, dataType).  Whatever happens next, a response or an error of a
    request of that run leaves the whole state as it is, and so [data],
    [loading] and [error]. *)
Theorem late_response_changes_nothing (a : Area) (d : DataType)
    (before after : list Event) (cancel : Event)
    (run : nat) (isInitialLoad : bool) (resp : Response) :
  let st1 := run_events before (mount a d) in
  (run < length (isMounted st1))%nat ->
  cancels cancel st1 ->
  let st2 := run_events after (step cancel st1) in
  step (Settled run isInitialLoad resp) st2 = st2.
Proof.
  intros st1 Hrun Hcancel st2.
  assert (Hinv1 : invariant st1) by apply run_events_invariant, mount_invariant.
  assert (Hinv2 : invariant st2) by now apply run_events_invariant, step_invariant.
  assert (Hflag : isMounted st2 !! run = Some false)
    by now apply run_events_keeps_cleared, cancel_clears.
  unfold step. cbn [handle]. rewrite settle_not_mounted by now rewrite Hflag.
  destruct (alive st2) eqn:Halive; [|reflexivity].
  apply commit_settled. now apply Hinv2.
Qed.

(** *** Failures of the fetch *)

Local Ltac settle_simpl Hm := repeat first [progress cbn | rewrite Hm].

Lemma settle_background_failure (run : nat) (resp : Response) (st : State) :
  failure resp <> None -> settle run false resp st = st.
Proof.
  intros Hf. destruct st as [a dt d l e f fl iv ds df al rq]. unfold settle.
  destruct resp as [m|status|m|result]; cbn in *;
    destruct (default false (fl !! run)) eqn:Hm; settle_simpl Hm;
    try reflexivity.
  destruct (success result), (payload_data result); try congruence;
    settle_simpl Hm; reflexivity.
Qed.

Lemma settle_initial_failure (run : nat) (resp : Response) (m : string) (st : State) :
  failure resp = Some m -> isMounted st !! run = Some true ->
  settle run true resp st = setLoading false (setError (Some m) st).
Proof.
  intros Hf Hm. destruct st as [a dt d l e f fl iv ds df al rq]. cbn in Hm.
  unfold settle.
  destruct resp as [m'|status|m'|result]; cbn in *; settle_simpl Hm;
    try (inversion Hf; subst; reflexivity).
  destruct (success result), (payload_data result); try congruence;
    settle_simpl Hm; congruence.
Qed.

Lemma settle_error (run : nat) (init : bool) (resp : Response) (m : string)
    (st : State) :
  error (settle run init resp st) = Some m ->
  error st = Some m \/ (init = true /\ failure resp = Some m).
Proof.
  destruct st as [a dt d l e f fl iv ds df al rq]. unfold settle.
  destruct resp as [m'|status|m'|result]; cbn;
    destruct (default false (fl !! run)) eqn:Hm; cbn;
    try destruct (success result); try destruct (payload_data result);
    destruct init; settle_simpl Hm; intros H;
    try (left; exact H); try (right; split; [reflexivity | exact H]);
    try discriminate.
Qed.

Lemma commit_once_error (st : State) (m : string) :
  error (commit_once st) = Some m -> error st = Some m.
Proof.
  destruct st. unfold commit_once. cbn.
  repeat (case_bool_decide; cbn in * ); congruence.
Qed.

Lemma handle_error (ev : Event) (st : State) (m : string) :
  error (handle ev st) = Some m ->
  error st = Some m
  \/ exists run resp, ev = Settled run true resp /\ failure resp = Some m.
Proof.
  destruct ev as [v|v|v|v|a d| |run init resp|]; cbn [handle];
    try (destruct (alive st); cbn [negb]; [|now left]).
  1-5: now left.
  - destruct (intervalId st); now left.
  - intros H. apply settle_error in H as [H|[-> H]]; [now left|]. right. eauto.
  - now left.
Qed.

Lemma background_failure_ignored (st : State) (run : nat) (resp : Response) :
  invariant st -> failure resp <> None -> step (Settled run false resp) st = st.
Proof.
  intros [Hlive Hset] Hf. unfold step. cbn [handle].
  rewrite settle_background_failure by assumption.
  destruct (alive st) eqn:Halive; [|reflexivity]. now apply commit_settled, Hset.
Qed.

Lemma initial_failure_surfaces (st : State) (run : nat) (resp : Response)
    (m : string) :
  invariant st -> failure resp = Some m -> isMounted st !! run = Some true ->
  step (Settled run true resp) st = setLoading false (setError (Some m) st).
Proof.
  intros [Hlive Hset] Hf Hm. unfold step. cbn [handle].
  rewrite (settle_initial_failure run resp m st Hf Hm).
  destruct (Hlive run Hm) as [Halive _].
  replace (alive (setLoading false (setError (Some m) st))) with true
    by (symmetry; exact Halive).
  apply commit_settled. exact (Hset Halive).
Qed.

Lemma step_error (ev : Event) (st : State) (m : string) :
  error (step ev st) = Some m ->
  error st = Some m
  \/ exists run resp, ev = Settled run true resp /\ failure resp = Some m.
Proof.
  intros H. apply handle_error. revert H. unfold step. cbn zeta.
  generalize (handle ev st). intros st' H.
  destruct (alive st'); [|exact H].
  apply commit_once_error, commit_once_error. exact H.
Qed.

(** C7. In every state the component reaches: a request of a background
    refresh that fails leaves the whole state as it is, the grid and the
    absence of an error included; a failing request of the initial load of
    the running fetch effect sets [error] to the message of the failure;
    and no other event sets [error] to a message. *)
Theorem background_failure_is_silent (a : Area) (d : DataType)
    (evs : list Event) :
  let st := run_events evs (mount a d) in
  (forall run resp,
      failure resp <> None -> step (Settled run false resp) st = st)
  /\ (forall run resp m,
        failure resp = Some m -> isMounted st !! run = Some true ->
        let st' := step (Settled run true resp) st in
        error st' = Some m /\ loading st' = false /\ data st' = data st)
  /\ (forall ev m,
        error (step ev st) = Some m ->
        error st = Some m
        \/ exists run resp, ev = Settled run true resp /\ failure resp = Some m).
Proof.
  intros st.
  assert (Hinv : invariant st) by apply run_events_invariant, mount_invariant.
  clearbody st. split; [|split].
  - intros run resp Hf. now apply background_failure_ignored.
  - intros run resp m Hf Hm st'. subst st'.
    rewrite (initial_failure_surfaces st run resp m Hinv Hf Hm). auto.
  - intros ev m. apply step_error.
Qed.

(** *** The filter reset *)

Lemma settle_filters (run : nat) (init : bool) (resp : Response) (st : State) :
  filters (settle run init resp st) = filters st
  /\ alive (settle run init resp st) = alive st
  /\ (settled st -> settled (settle run init resp st)).
Proof.
  destruct (settle_frame run init resp st) as [d [l [e ->]]]. auto.
Qed.

(** One commit of a settled state whose [selectedArea] was just replaced. *)
Lemma commit_after_setSelectedArea (v : string) (st : State) :
  settled st ->
  selectedArea (filters (commit (setSelectedArea v st))) = v
  /\ (v <> selectedArea (filters st) ->
      selectedCabinet (filters (commit (setSelectedArea v st))) = "All").
Proof.
  intros [H1 H2]. destruct st as [a dt d l e f fl iv ds df al rq]. cbn in *. subst.
  unfold commit, commit_once. cbn.
  repeat (case_bool_decide; cbn in * ); split; try reflexivity; try congruence;
    intros Hv; congruence.
Qed.

(** One commit of a settled state whose props were just replaced. *)
Lemma commit_after_setProps (a' : Area) (d' : DataType) (st : State) :
  settled st ->
  filters (commit (setProps a' d' st)) = filters st
  \/ selectedCabinet (filters (commit (setProps a' d' st))) = "All".
Proof.
  intros [H1 H2]. destruct st as [a dt d l e f fl iv ds df al rq]. cbn in *. subst.
  unfold commit, commit_once. cbn.
  repeat (case_bool_decide; cbn in * ); auto.
Qed.

Lemma step_filters (ev : Event) (st : State) :
  invariant st ->
  selectedArea (filters (step ev st)) = selectedArea (filters st)
  \/ selectedCabinet (filters (step ev st)) = "All".
Proof.
  intros [Hlive Hset]. unfold step. cbn zeta.
  destruct ev as [v|v|v|v|a d| |run init resp|]; cbn [handle].
  7: { destruct (settle_filters run init resp st) as [Hf [Ha Hs]].
       rewrite Ha. destruct (alive st); [|left; now rewrite Hf].
       rewrite commit_settled by auto. left. now rewrite Hf. }
  all: destruct (alive st) eqn:Halive; cbn [negb]; [|rewrite Halive; now left].
  all: specialize (Hset eq_refl).
  - replace (alive (setSelectedType v st)) with true by (symmetry; exact Halive).
    rewrite commit_settled; [now left|]. exact Hset.
  - replace (alive (setSelectedArea v st)) with true by (symmetry; exact Halive).
    destruct (commit_after_setSelectedArea v st Hset) as [_ H].
    destruct (String.eqb_spec v (selectedArea (filters st))) as [->|Hne]; [|auto].
    rewrite commit_settled; [now left|]. exact Hset.
  - replace (alive (setSelectedCabinet v st)) with true by (symmetry; exact Halive).
    rewrite commit_settled; [now left|]. exact Hset.
  - replace (alive (setSearchTerm v st)) with true by (symmetry; exact Halive).
    rewrite commit_settled; [now left|]. exact Hset.
  - replace (alive (setProps a d st)) with true by (symmetry; exact Halive).
    destruct (commit_after_setProps a d st Hset) as [H|H]; [left; now rewrite H|auto].
  - destruct (intervalId st) as [run|].
    + replace (alive (fetchData run false st)) with true by (symmetry; exact Halive).
      rewrite commit_settled; [now left|]. exact Hset.
    + rewrite Halive. rewrite commit_settled; [now left|]. exact Hset.
  - now left.
Qed.

(** C5. In every state the component reaches: an event after which the
    selected area differs from the one before leaves the selected cabinet
    at 'All'; a click on an area button of the mounted component selects
    that area; and a change of the cabinet selection leaves the selected
    area as it is. *)
Theorem area_change_resets_cabinet (a : Area) (d : DataType) (evs : list Event) :
  let st := run_events evs (mount a d) in
  (forall ev,
      selectedArea (filters (step ev st)) <> selectedArea (filters st) ->
      selectedCabinet (filters (step ev st)) = "All")
  /\ (forall v,
        alive st = true -> selectedArea (filters (step (ClickArea v) st)) = v)
  /\ (forall v,
        selectedArea (filters (step (ChangeCabinet v) st))
        = selectedArea (filters st)).
Proof.
  intros st.
  assert (Hinv : invariant st) by apply run_events_invariant, mount_invariant.
  clearbody st. split; [|split].
  - intros ev Hne. destruct (step_filters ev st Hinv) as [H|H]; [congruence|exact H].
  - intros v Halive. destruct Hinv as [_ Hset]. unfold step. cbn [handle].
    rewrite Halive. cbn [negb].
    replace (alive (setSelectedArea v st)) with true by (symmetry; exact Halive).
    now apply commit_after_setSelectedArea, Hset.
  - intros v. destruct Hinv as [_ Hset]. unfold step. cbn [handle].
    destruct (alive st) eqn:Halive; cbn [negb]; [|now rewrite Halive].
    replace (alive (setSelectedCabinet v st)) with true by (symmetry; exact Halive).
    rewrite commit_settled; [reflexivity|]. exact (Hset eq_refl).
Qed.

(** ** The theorems at work on the sample grid *)

Local Ltac all_strings :=
  repeat (constructor; [eexists; reflexivity|]); try constructor.



Lemma reorderedData_idempotent_witness :
  cabinet_again_before_area (Some sample_grid) = false
  /\ reorderedData true (Some sample_grid) ≫= reorderedData true
     = reorderedData true (Some sample_grid).
Proof.
  split; [reflexivity|].
  apply (reorderedData_idempotent true (Some sample_grid)). reflexivity.
Defined.

Lemma visibleEquipmentColumns_membership_witness :
  let valve := [Str "North"; Str "C1"; Str "Valve"; Str "0"; Str "3"] in
  [valve] <> []
  /\ quantity_at valve 4 /\ ~ quantity_at valve 3
  /\ label_has example_header 4 "SLOT2" /\ ~ label_has example_header 3 "SLOT2"
  /\ (exists vis,
        visibleEquipmentColumns true [valve] (Some example_equipment) "" = Some vis
        /\ 4 ∈ vis /\ (3 ∉ vis))
  /\ (exists vis,
        visibleEquipmentColumns true [valve] (Some example_equipment) "SLOT2"
        = Some vis
        /\ 4 ∈ vis /\ (3 ∉ vis)
        /\ visibleEquipmentColumns true example_rows (Some example_equipment) "SLOT2"
           = Some vis)
  /\ (fun vis => bool_decide (vis = list_to_set [0; 1; 2; 4]))
       <$> visibleEquipmentColumns true [valve] (Some example_equipment) ""
     = Some true
  /\ (fun vis => bool_decide (vis = list_to_set [0; 1; 2; 4]))
       <$> visibleEquipmentColumns true [valve] (Some example_equipment) "SLOT2"
     = Some true.
Proof.
  intros valve.
  assert (Hrun : (fun vis => bool_decide (vis = list_to_set [0; 1; 2; 4]))
                   <$> visibleEquipmentColumns true [valve]
                         (Some example_equipment) ""
                 = Some true) by (vm_compute; reflexivity).
  assert (Hrun' : (fun vis => bool_decide (vis = list_to_set [0; 1; 2; 4]))
                    <$> visibleEquipmentColumns true [valve]
                          (Some example_equipment) "SLOT2"
                  = Some true) by (vm_compute; reflexivity).
  assert (Hne : [valve] <> []) by discriminate.
  assert (Hq4 : quantity_at valve 4).
  { exists "3"%string. split; [split; [lia|reflexivity]|].
    exists ""%string, ""%string, ""%string, "3"%char, ""%string.
    repeat split; auto. cbn. tauto. }
  assert (Hq3 : ~ quantity_at valve 3).
  { intros [s [[_ Hl] Hq]]. cbn in Hl. inversion Hl; subst s.
    apply parseInt10_positive in Hq as [n [E Hn]].
    vm_compute in E. inversion E; subst n. lia. }
  assert (Hl4 : label_has example_header 4 "SLOT2").
  { exists "Slot2"%string. split; [split; [lia|reflexivity]|].
    exists ""%string, "Slot2"%string, ""%string. split; reflexivity. }
  assert (Hl3 : ~ label_has example_header 3 "SLOT2").
  { intros [s [[_ Hl] Ho]]. cbn in Hl. inversion Hl; subst s.
    apply contains_occurs, includes_toLowerCase in Ho. vm_compute in Ho.
    discriminate. }
  split; [exact Hne|]. split; [exact Hq4|]. split; [exact Hq3|].
  split; [exact Hl4|]. split; [exact Hl3|].
  split; [|split; [|split; [exact Hrun | exact Hrun']]].
  - destruct (visibleEquipmentColumns_membership example_header
                (tl example_equipment) [valve] "" Hne) as [vis [E [H _]]].
    exists vis. split; [exact E|]. split.
    + destruct (H 4) as [_ H4]; [lia|]. apply H4; [reflexivity|left; cbn; lia|].
      exists valve. split; [left|exact Hq4].
    + intros Hin. destruct (H 3) as [_ H3]; [lia|].
      apply H3 in Hin; [|reflexivity|left; cbn; lia].
      destruct Hin as [r [Hr Hq]]. apply list_elem_of_singleton in Hr. subst r.
      contradiction.
  - assert (Ht : "SLOT2" <> "") by discriminate.
    destruct (visibleEquipmentColumns_membership example_header
                (tl example_equipment) [valve] "SLOT2" Hne) as [vis [E [H Hrows]]].
    exists vis. split; [exact E|]. split; [|split].
    + destruct (H 4) as [H4 _]; [lia|]. now apply H4.
    + intros Hin. destruct (H 3) as [H3 _]; [lia|]. now apply H3 in Hin.
    + apply (Hrows Ht example_rows). discriminate.
Defined.

Lemma facet_options_of_render_witness :
  let fs := {| selectedType := "All"; selectedArea := "North";
               selectedCabinet := "All"; searchTerm := "" |} in
  well_formed (Some example_typed)
  /\ exists v,
       render equipment (Some example_typed) fs = Ok v
       /\ v_types v = [Str "All"; Str "Valve"; Str "Pump"]
       /\ v_areas v = [Str "All"; Str "North"; Str "South"]
       /\ v_cabinets v = [Str "All"; Str "C1"; Str "C2"]
       /\ (let rd := v_reorderedData v in
           let body := fun r => r ∈ body_rows rd 4 in
           let in_area :=
             fun r => r ∈ body_rows rd 4
                      /\ at_index r (v_areaColumnIndex v) = Str "North" in
           facet_on "type" rd body (v_types v) (v_typeColumnIndex v)
           /\ facet_on "area" rd body (v_areas v) (v_areaColumnIndex v)
           /\ facet_on "cabinet" rd in_area (v_cabinets v) (v_cabinetColumnIndex v)
           /\ ~ column_missing "type" (Some example_typed)
           /\ ~ (forall r, in_area r ->
                   ~ filled (at_index r (v_cabinetColumnIndex v)))).
Proof.
  intros fs.
  assert (Hwf : well_formed (Some example_typed)).
  { unfold well_formed, example_typed. repeat (constructor; [all_strings|]).
    constructor. }
  split; [exact Hwf|].
  destruct (facet_options_of_render equipment (Some example_typed) fs Hwf)
    as [v [Hv [Ht [Ha [Hc [Hts [Has Hcs]]]]]]].
  exists v. split; [exact Hv|].
  assert (Et : v_types v = [Str "All"; Str "Valve"; Str "Pump"])
    by (vm_compute in Hv; injection Hv as <-; reflexivity).
  assert (Ea : v_areas v = [Str "All"; Str "North"; Str "South"])
    by (vm_compute in Hv; injection Hv as <-; reflexivity).
  assert (Ec : v_cabinets v = [Str "All"; Str "C1"; Str "C2"])
    by (vm_compute in Hv; injection Hv as <-; reflexivity).
  split; [exact Et|]. split; [exact Ea|]. split; [exact Ec|].
  change (headerRowCount equipment) with 4 in *.
  change (selectedArea fs) with "North" in *. cbv zeta.
  split; [apply Hts; rewrite Et; discriminate|].
  split; [apply Has; rewrite Ea; discriminate|].
  split; [apply Hcs; rewrite Ec; discriminate|].
  split.
  - intros H. assert (E : v_types v = []) by (apply Ht; now right).
    rewrite Et in E. discriminate.
  - intros H. assert (E : v_cabinets v = []) by (apply Hc; do 5 right; exact H).
    rewrite Ec in E. discriminate.
Defined.

Lemma area_change_resets_cabinet_witness :
  let st :=
    run_events [Settled 0 true sample_response; ClickArea "North"; ChangeCabinet "C1"]
      (mount PULP2 equipment) in
  selectedArea (filters (step (ClickArea "South") st)) <> selectedArea (filters st)
  /\ selectedCabinet (filters st) = "C1"
  /\ selectedCabinet (filters (step (ClickArea "South") st)) = "All".
Proof.
  intros st.
  assert (Hne : selectedArea (filters (step (ClickArea "South") st))
                <> selectedArea (filters st)) by (vm_compute; congruence).
  split; [exact Hne|]. split; [reflexivity|].
  pose proof (area_change_resets_cabinet PULP2 equipment
                [Settled 0 true sample_response; ClickArea "North"; ChangeCabinet "C1"])
    as H.
  cbv zeta in H. destruct H as [H _]. exact (H (ClickArea "South") Hne).
Defined.

Lemma search_pass_by_dataset_witness :
  let valve := [Str "North"; Str "C1"; Str "Valve"; Str "0"; Str "3"] in
  let pump := [Str "South"; Str "C2"; Str "Pump"; Str "2"; Str "0"] in
  stock <> equipment /\ "pump" <> ""
  /\ row_has "pump" pump /\ ~ row_has "pump" valve
  /\ search_pass (isEquipmentView stock) "pump" [valve; pump] = [pump]
  /\ search_pass (isEquipmentView stock) "PUMP" [valve; pump] = [pump]
  /\ search_pass (isEquipmentView equipment) "pump" [valve; pump] = [valve; pump].
Proof.
  intros valve pump.
  assert (Hrun : search_pass (isEquipmentView stock) "PUMP" [valve; pump] = [pump])
    by (vm_compute; reflexivity).
  assert (Hd : stock <> equipment) by discriminate.
  assert (Ht : "pump" <> "") by discriminate.
  assert (Hp : row_has "pump" pump).
  { exists "Pump"%string. split; [do 2 right; left|].
    exists ""%string, "Pump"%string, ""%string. split; reflexivity. }
  assert (Hv : ~ row_has "pump" valve).
  { intros H. apply row_matches_has, cell_includes_matches in H; [|exact Ht].
    vm_compute in H. discriminate. }
  split; [exact Hd|]. split; [exact Ht|]. split; [exact Hp|]. split; [exact Hv|].
  destruct (search_pass_by_dataset stock "pump" [valve; pump]) as [_ Hstock].
  destruct (search_pass_by_dataset equipment "pump" [valve; pump]) as [Heq _].
  split; [|split; [exact Hrun | exact (Heq eq_refl)]].
  destruct (Hstock Hd) as [_ Hkeep]. destruct (Hkeep Ht) as [keep [E Hk]].
  rewrite E. cbn [List.filter].
  assert (Ep : keep pump = true) by now apply Hk.
  assert (Ev : keep valve = false).
  { destruct (keep valve) eqn:K; [|reflexivity]. apply Hk in K. contradiction. }
  now rewrite Ep, Ev.
Defined.

Lemma background_failure_is_silent_witness :
  let st := run_events [Settled 0 true sample_response; Tick] (mount PULP2 stock) in
  failure (HttpStatus "500") <> None
  /\ data st = Some sample_grid /\ error st = None /\ loading st = false
  /\ step (Settled 0 false (HttpStatus "500")) st = st.
Proof.
  intros st. split; [discriminate|]. split; [reflexivity|]. split; [reflexivity|].
  split; [reflexivity|].
  apply (background_failure_is_silent PULP2 stock
           [Settled 0 true sample_response; Tick]).
  discriminate.
Defined.

Lemma late_response_changes_nothing_witness :
  let st1 := run_events [Tick] (mount PULP2 equipment) in
  (0 < length (isMounted st1))%nat
  /\ cancels (Props NPP11 equipment) st1
  /\ (let st2 := run_events [ClickArea "North"] (step (Props NPP11 equipment) st1) in
      step (Settled 0 false sample_response) st2 = st2).
Proof.
  intros st1.
  assert (H1 : (0 < length (isMounted st1))%nat) by (vm_compute; lia).
  assert (H2 : cancels (Props NPP11 equipment) st1).
  { right. exists NPP11, equipment. split; [reflexivity|]. vm_compute. congruence. }
  split; [exact H1|]. split; [exact H2|].
  exact (late_response_changes_nothing PULP2 equipment [Tick] [ClickArea "North"]
           (Props NPP11 equipment) 0 false sample_response H1 H2).
Defined.

Lemma render_total_witness :
  well_formed (Some sample_grid)
  /\ column_absent "type" (Some sample_grid)
  /\ exists v,
       render stock (Some sample_grid) fs_default = Ok v
       /\ v_types v = []
       /\ forall rows,
            type_pass (isFilterableView stock) (selectedType fs_default)
              (v_typeColumnIndex v) rows = rows.
Proof.
  assert (Hwf : well_formed (Some sample_grid)).
  { unfold well_formed. repeat (constructor; [all_strings|]). constructor. }
  assert (Habs : column_absent "type" (Some sample_grid)).
  { cbn. repeat (constructor; [apply not_reads_as; [apply tidy_labels|discriminate]|]).
    constructor. }
  split; [exact Hwf|]. split; [exact Habs|].
  destruct (render_total stock (Some sample_grid) fs_default Hwf) as [v [Hv [Ht _]]].
  exists v. split; [exact Hv|]. exact (Ht Habs).
Defined.

Lemma no_data_rows_no_options_witness :
  well_formed (Some [sample_header])
  /\ no_data_rows (Some [sample_header]) (headerRowCount stock)
  /\ exists v,
       render stock (Some [sample_header]) fs_default = Ok v
       /\ v_types v = [] /\ v_areas v = [] /\ v_cabinets v = [].
Proof.
  assert (Hwf : well_formed (Some [sample_header])).
  { unfold well_formed. repeat (constructor; [all_strings|]). constructor. }
  assert (Hshort : no_data_rows (Some [sample_header]) (headerRowCount stock))
    by (vm_compute; reflexivity).
  split; [exact Hwf|]. split; [exact Hshort|].
  exact (no_data_rows_no_options stock (Some [sample_header]) fs_default Hwf Hshort).
Defined.

(** * Further properties of the code *)

(** ** ColumnReorderer: what a move does to the cells *)

Lemma splice_insert_Permutation {A} (l : list A) (start : Z) (x : A) :
  splice_insert l start x ≡ₚ x :: l.
Proof.
  unfold splice_insert. cbv zeta. rewrite <- Permutation_middle.
  now rewrite take_drop.
Qed.

Lemma splice_insert_length {A} (l : list A) (start : Z) (x : A) :
  length (splice_insert l start x) = S (length l).
Proof. now rewrite splice_insert_Permutation. Qed.

Lemma reorder_row_cells (ai ci : Z) (r : row) :
  0 <= ci ->
  reorder_row ai ci r
  ≡ₚ (if ci <? Z.of_nat (length r) then r else Undefined :: r).
Proof.
  intros Hci. unfold reorder_row. rewrite splice_insert_Permutation.
  rewrite filter_index_delete by assumption.
  destruct (Z.ltb_spec ci (Z.of_nat (length r))) as [Hlt|Hge].
  - destruct (lookup_lt_is_Some_2 r (Z.to_nat ci)) as [c Hc]; [lia|].
    unfold at_index. destruct (Z.ltb_spec ci 0); [lia|]. rewrite Hc. simpl.
    symmetry. now apply delete_Permutation.
  - rewrite at_index_beyond by assumption.
    assert (Hdel : forall (l : row) (n : nat), (length l <= n)%nat -> delete n l = l).
    { induction l as [|x l IH]; intros [|n] H; simpl in *;
        try reflexivity; try lia. f_equal. apply IH. lia. }
    rewrite Hdel by lia. reflexivity.
Qed.

(** X1. On an equipment grid whose header row holds strings the reorder
    returns a grid with as many rows, and no cell is lost or copied: each
    row comes back as a permutation of itself, except that a row shorter
    than the header row may come back with one [undefined] cell added. *)
Theorem reorderedData_keeps_cells (h : row) (rest : grid) :
  Forall is_string h ->
  exists g',
    reorderedData true (Some (h :: rest)) = Ok (Some g')
    /\ Forall2
         (fun r r' =>
            r' ≡ₚ r
            \/ (r' ≡ₚ Undefined :: r /\ (length r < length h)%nat))
         (h :: rest) g'.
Proof.
  intros Hh.
  destruct (findIndex_strings "area" h Hh) as [ai Hai].
  destruct (findIndex_strings "cabinet" h Hh) as [ci Hci].
  eexists. split; [exact (reorderedData_equipment h rest ai ci Hai Hci)|].
  destruct ((ai =? -1) || (ci =? -1) || (ci =? ai + 1)) eqn:E.
  - apply Forall_Forall2_diag, Forall_forall. intros r _. now left.
  - apply orb_false_iff in E as [E E3]. apply orb_false_iff in E as [E1 E2].
    pose proof Hci as Lci.
    apply findIndex_located, located_range in Lci; [|apply tidy_labels].
    apply Forall2_fmap_r, Forall_Forall2_diag, Forall_forall. intros r _.
    pose proof (reorder_row_cells ai ci r ltac:(lia)) as Hp.
    destruct (Z.ltb_spec ci (Z.of_nat (length r))); [now left|].
    right. split; [assumption|lia].
Qed.

Lemma reorderedData_keeps_cells_witness :
  Forall is_string sample_header
  /\ exists g',
       reorderedData true (Some (sample_header :: [Str "C9"] :: sample_rows))
       = Ok (Some g')
       /\ Forall2
            (fun r r' =>
               r' ≡ₚ r
               \/ (r' ≡ₚ Undefined :: r /\ (length r < length sample_header)%nat))
            (sample_header :: [Str "C9"] :: sample_rows) g'.
Proof.
  assert (H : Forall is_string sample_header) by all_strings.
  split; [exact H|].
  exact (reorderedData_keeps_cells sample_header ([Str "C9"] :: sample_rows) H).
Defined.

(** X2. On an equipment grid whose header row holds strings and carries
    both labels, with no further 'cabinet' label between the two columns,
    the header row of the reordered grid has its first 'cabinet' column
    right after its first 'area' column. *)
Theorem reorderedData_canonical_layout (h : row) (rest : grid) :
  Forall is_string h ->
  Exists (reads_as "area") h ->
  Exists (reads_as "cabinet") h ->
  cabinet_again_before_area (Some (h :: rest)) = false ->
  exists h' rest' na,
    reorderedData true (Some (h :: rest)) = Ok (Some (h' :: rest'))
    /\ 0 <= na
    /\ located "area" h' na
    /\ located "cabinet" h' (na + 1).
Proof.
  intros Hh Ha Hc Hamb.
  destruct (findIndex_strings "area" h Hh) as [ai Hai].
  destruct (findIndex_strings "cabinet" h Hh) as [ci Hci].
  pose proof (reorderedData_equipment h rest ai ci Hai Hci) as Hr.
  pose proof tidy_labels as [Ta [Tc _]].
  assert (Na : ai <> -1).
  { intros ->. apply findIndex_located in Hai; [|assumption].
    destruct Hai as [[_ Hn]|[pre [c [post [_ [E _]]]]]]; [|lia].
    rewrite Exists_exists in Ha. rewrite Forall_forall in Hn.
    destruct Ha as [c [Hin Hc']]. now apply (Hn c). }
  assert (Nc : ci <> -1).
  { intros ->. apply findIndex_located in Hci; [|assumption].
    destruct Hci as [[_ Hn]|[pre [c [post [_ [E _]]]]]]; [|lia].
    rewrite Exists_exists in Hc. rewrite Forall_forall in Hn.
    destruct Hc as [c [Hin Hc']]. now apply (Hn c). }
  pose proof Hai as Rai. apply findIndex_located, located_range in Rai; [|assumption].
  destruct (Z.eqb_spec ci (ai + 1)) as [->|Nadj].
  - exists h, rest, ai. rewrite Hr, orb_true_r.
    split; [reflexivity|]. split; [lia|].
    split; now apply findIndex_located.
  - cbn [cabinet_again_before_area] in Hamb. rewrite Hai, Hci in Hamb.
    destruct (reorder_row_header h ai ci Hai Hci Na Nc Nadj Hamb) as [na [Hna Hnc]].
    exists (reorder_row ai ci h), (map (reorder_row ai ci) rest), na.
    rewrite Hr.
    destruct (Z.eqb_spec ai (-1)); [contradiction|].
    destruct (Z.eqb_spec ci (-1)); [contradiction|]. cbn [orb map].
    split; [reflexivity|].
    pose proof Hna as Lna. apply findIndex_located in Lna; [|assumption].
    assert (0 <= na).
    { destruct Lna as [[_ Hn]|[pre [c [post [_ [E _]]]]]]; [exfalso|lia].
      apply (cabinet_moved_Forall_inv _ ai ci h) in Hn;
        [|now apply header_row_moved].
      rewrite Exists_exists in Ha. rewrite Forall_forall in Hn.
      destruct Ha as [c [Hin Hc']]. now apply (Hn c). }
    split; [assumption|]. split; now apply findIndex_located.
Qed.

Lemma reorderedData_canonical_layout_witness :
  Forall is_string sample_header
  /\ Exists (reads_as "area") sample_header
  /\ Exists (reads_as "cabinet") sample_header
  /\ cabinet_again_before_area (Some sample_grid) = false
  /\ exists h' rest' na,
       reorderedData true (Some sample_grid) = Ok (Some (h' :: rest'))
       /\ 0 <= na
       /\ located "area" h' na
       /\ located "cabinet" h' (na + 1).
Proof.
  assert (H1 : Forall is_string sample_header) by all_strings.
  assert (H2 : Exists (reads_as "area") sample_header).
  { apply Exists_cons_tl, Exists_cons_tl, Exists_cons_hd.
    exists " "%string, "AREA"%string, " "%string. repeat split; reflexivity. }
  assert (H3 : Exists (reads_as "cabinet") sample_header).
  { apply Exists_cons_hd.
    exists ""%string, "Cabinet"%string, ""%string. repeat split; reflexivity. }
  assert (H4 : cabinet_again_before_area (Some sample_grid) = false) by reflexivity.
  split; [exact H1|]. split; [exact H2|]. split; [exact H3|]. split; [exact H4|].
  exact (reorderedData_canonical_layout sample_header sample_rows H1 H2 H3 H4).
Defined.

(** ** ColumnVisibilityResolver: the bounds of the set *)

(** X3. The memo is [null] exactly when the view is not the equipment view,
    there is no grid or there is no visible row.  A set it returns always
    holds the columns 0, 1 and 2, also when header row 0 is narrower, and
    holds no index outside of them and of the columns of header row 0. *)
Theorem visibleEquipmentColumns_bounds (isEquipmentView : bool)
    (rows : list row) (rd : option grid) (term : string) :
  (visibleEquipmentColumns isEquipmentView rows rd term = None
   <-> isEquipmentView = false \/ rd = None \/ rows = [])
  /\ (forall vis,
        visibleEquipmentColumns isEquipmentView rows rd term = Some vis ->
        0 ∈ vis /\ 1 ∈ vis /\ 2 ∈ vis
        /\ forall c, c ∈ vis ->
             0 <= c
             /\ (3 <= c ->
                 exists h rest, rd = Some (h :: rest) /\ c < Z.of_nat (length h))).
Proof.
  unfold visibleEquipmentColumns. split.
  - destruct rd as [g|]; [|split; auto].
    destruct isEquipmentView; cbn [negb orb]; [|split; auto].
    destruct rows as [|r rows]; cbn [length Nat.eqb]; [split; auto|].
    split; [discriminate|]. intros [H|[H|H]]; discriminate.
  - intros vis H. destruct rd as [g|]; [|discriminate].
    destruct (negb isEquipmentView || (length rows =? 0)%nat); [discriminate|].
    inversion H as [Hvis]. clear H Hvis.
    split; [|split; [|split]];
      try (apply fold_visit_column; left;
           rewrite !elem_of_union, !elem_of_singleton; auto).
    intros c Hc. apply fold_visit_column in Hc as [Hc|[Hc _]].
    + rewrite !elem_of_union, !elem_of_singleton, elem_of_empty in Hc.
      split; [intuition lia|]. intros H3. exfalso. intuition lia.
    + apply elem_of_seqZ in Hc. split; [lia|]. intros _.
      destruct g as [|h rest]; [simpl in Hc; lia|]. exists h, rest.
      split; [reflexivity|lia].
Qed.

(** ** FilterEngine: what the option lists hold *)

(** X4. On a grid of strings that has a data row, a facet 'type' or 'area'
    whose label some column of header row 0 reads has an option list: the
    render finds the first such column, and the list holds exactly 'All'
    and the values of that column in the data rows that are not empty,
    'All' first and each value once.  No value of the column is missing
    from the list. *)
Theorem facet_options_complete (dataType : DataType) (data : option grid)
    (fs : FilterState) (f : Facet) :
  well_formed data ->
  ~ no_data_rows data (headerRowCount dataType) ->
  ~ column_missing (facet_label f) data ->
  exists v,
    render dataType data fs = Ok v
    /\ (let body := body_rows (v_reorderedData v) (headerRowCount dataType) in
        exists header rest others,
          v_reorderedData v = Some (header :: rest)
          /\ first_labelled (facet_label f) header (facet_index v f)
          /\ facet_index v f <> -1
          /\ facet_list v f = Str "All" :: others
          /\ NoDup others
          /\ forall x, x ∈ facet_list v f
                       <-> x = Str "All"
                           \/ (filled x
                               /\ exists r, r ∈ body
                                            /\ at_index r (facet_index v f) = x)).
Proof.
  intros Hwf Hrows Hcol.
  destruct (render_facets dataType data fs Hwf)
    as [v [Hv [Ht [Ha [_ [Hts [Has _]]]]]]].
  exists v. split; [exact Hv|]. cbv zeta.
  assert (Hon : facet_on (facet_label f) (v_reorderedData v)
                  (fun r => r ∈ body_rows (v_reorderedData v) (headerRowCount dataType))
                  (facet_list v f) (facet_index v f)).
  { destruct f; cbn [facet_label facet_list facet_index] in *.
    - apply Hts. intros E. apply Ht in E. tauto.
    - apply Has. intros E. apply Ha in E. tauto. }
  destruct Hon as [header [rest [others [E [Hl [Hi [Eo [Hnd [Hmem _]]]]]]]]].
  exists header, rest, others. repeat (split; [assumption|]).
  intros x. rewrite Eo, elem_of_cons, Hmem. reflexivity.
Qed.

Lemma facet_options_complete_witness :
  well_formed (Some example_typed)
  /\ ~ no_data_rows (Some example_typed) (headerRowCount equipment)
  /\ ~ column_missing (facet_label TypeFacet) (Some example_typed)
  /\ exists v,
       render equipment (Some example_typed) fs_default = Ok v
       /\ v_types v = [Str "All"; Str "Valve"; Str "Pump"]
       /\ v_typeColumnIndex v = 2
       /\ first_labelled "type"
            [Str "Area"; Str "Cabinet"; Str " TYPE "; Str "Slot1"] 2
       /\ forall x, x ∈ v_types v
                    <-> x = Str "All"
                        \/ (filled x
                            /\ exists r, r ∈ body_rows (v_reorderedData v) 4
                                         /\ at_index r 2 = x).
Proof.
  assert (Hwf : well_formed (Some example_typed)).
  { unfold well_formed, example_typed. repeat (constructor; [all_strings|]).
    constructor. }
  assert (Hrows : ~ no_data_rows (Some example_typed) (headerRowCount equipment))
    by (vm_compute; discriminate).
  assert (Hcol : ~ column_missing (facet_label TypeFacet) (Some example_typed)).
  { cbn. intros H. do 2 (apply Forall_cons in H as [_ H]).
    apply Forall_cons in H as [H _]. apply H.
    exists " ", "TYPE", " ". now repeat split. }
  split; [exact Hwf|]. split; [exact Hrows|]. split; [exact Hcol|].
  destruct (facet_options_complete equipment (Some example_typed) fs_default
              TypeFacet Hwf Hrows Hcol)
    as [v [Hv [header [rest [others [E [Hl [_ [_ [_ Hmem]]]]]]]]]].
  cbn [facet_label facet_list facet_index] in *.
  change (headerRowCount equipment) with 4 in *.
  exists v. split; [exact Hv|].
  assert (Et : v_types v = [Str "All"; Str "Valve"; Str "Pump"])
    by (vm_compute in Hv; injection Hv as <-; reflexivity).
  assert (Ei : v_typeColumnIndex v = 2)
    by (vm_compute in Hv; injection Hv as <-; reflexivity).
  assert (Eh : header = [Str "Area"; Str "Cabinet"; Str " TYPE "; Str "Slot1"]).
  { vm_compute in Hv. injection Hv as <-. cbn in E. now injection E as <- _. }
  split; [exact Et|]. split; [exact Ei|].
  rewrite Ei, Eh in Hl. split; [exact Hl|].
  rewrite Ei in Hmem. exact Hmem.
Defined.

(** X5. On a grid of strings the cabinet options are empty unless the view
    is the equipment view and an area other than 'All' is selected; the
    list never is the single option 'All'; when it is not empty it holds
    exactly 'All' and the cabinet values, not empty, of the data rows of
    the selected area; and the cabinet control is drawn exactly when the
    list is not empty. *)
Theorem cabinet_options_by_area (dataType : DataType) (data : option grid)
    (fs : FilterState) :
  well_formed data ->
  exists v,
    render dataType data fs = Ok v
    /\ (dataType <> equipment \/ selectedArea fs = "All" -> v_cabinets v = [])
    /\ length (v_cabinets v) <> 1%nat
    /\ (v_cabinets v <> [] ->
        forall x,
          x ∈ v_cabinets v
          <-> x = Str "All"
              \/ (Boolean x = true
                  /\ exists r,
                       r ∈ body_rows (v_reorderedData v) (headerRowCount dataType)
                       /\ at_index r (v_areaColumnIndex v) = Str (selectedArea fs)
                       /\ at_index r (v_cabinetColumnIndex v) = x))
    /\ exists c,
         renderFilters (isFilterableView dataType) (isEquipmentView dataType)
           (v_types v) (v_areas v) (v_cabinets v) = Some c
         /\ cabinetSelect c
            = match v_cabinets v with [] => None | _ => Some (v_cabinets v) end.
Proof.
  intros Hwf. apply well_formed_header in Hwf.
  destruct (render_memos dataType data fs Hwf) as [v [Hv [_ [_ [_ [_ [Hc _]]]]]]].
  exists v. split; [exact Hv|].
  apply cabinets_memo_members in Hc.
  destruct Hc as [E|[Heq [Hsel [Hai [Hci [u [Hu [Eu E]]]]]]]].
  - rewrite E. split; [auto|]. split; [discriminate|]. split; [congruence|].
    exists {| searchBar := negb (isEquipmentView dataType);
              typeButtons := if (1 <? length (v_types v))%nat
                             then Some (v_types v) else None;
              areaButtons := if isEquipmentView dataType
                                && (1 <? length (v_areas v))%nat
                             then Some (v_areas v) else None;
              cabinetSelect := None |}.
    split; [|reflexivity]. unfold renderFilters.
    destruct dataType; cbn; rewrite ?andb_false_r; reflexivity.
  - rewrite E. split; [|split; [|split]].
    + intros [H|H]; [|contradiction]. destruct dataType; try discriminate. congruence.
    + destruct u; [congruence|]. discriminate.
    + intros _ x. rewrite elem_of_cons, Eu, unique_column_elem.
      split; (intros [H|[Hb [r [Hr Hx]]]]; [now left|right; split; [assumption|]]).
      * apply list_elem_of_In, filter_In in Hr as [Hr Ht].
        exists r. split; [now apply list_elem_of_In|]. split; [|assumption].
        unfold strict_eq in Ht. now apply bool_decide_eq_true in Ht.
      * destruct Hx as [Hx1 Hx2]. exists r. split; [|assumption].
        apply list_elem_of_In, filter_In. split; [now apply list_elem_of_In|].
        unfold strict_eq. now apply bool_decide_eq_true.
    + eexists. split.
      * unfold renderFilters. destruct dataType; try discriminate. cbn. reflexivity.
      * cbn. destruct u; [congruence|]. reflexivity.
Qed.

Lemma cabinet_options_by_area_witness :
  let fs := {| selectedType := "All"; selectedArea := "North";
               selectedCabinet := "All"; searchTerm := "" |} in
  well_formed (Some example_equipment)
  /\ exists v,
       render equipment (Some example_equipment) fs = Ok v
       /\ (equipment <> equipment \/ selectedArea fs = "All" -> v_cabinets v = [])
       /\ length (v_cabinets v) <> 1%nat
       /\ (v_cabinets v <> [] ->
           forall x,
             x ∈ v_cabinets v
             <-> x = Str "All"
                 \/ (Boolean x = true
                     /\ exists r,
                          r ∈ body_rows (v_reorderedData v) (headerRowCount equipment)
                          /\ at_index r (v_areaColumnIndex v) = Str (selectedArea fs)
                          /\ at_index r (v_cabinetColumnIndex v) = x))
       /\ exists c,
            renderFilters (isFilterableView equipment) (isEquipmentView equipment)
              (v_types v) (v_areas v) (v_cabinets v) = Some c
            /\ cabinetSelect c
               = match v_cabinets v with [] => None | _ => Some (v_cabinets v) end.
Proof.
  intros fs.
  assert (Hwf : well_formed (Some example_equipment)).
  { unfold well_formed. repeat (constructor; [all_strings|]). constructor. }
  split; [exact Hwf|].
  exact (cabinet_options_by_area equipment (Some example_equipment) fs Hwf).
Defined.

Example cabinets_of_the_selected_area :
  v_cabinets
    <$> render equipment (Some example_equipment)
          {| selectedType := "All"; selectedArea := "North";
             selectedCabinet := "All"; searchTerm := "" |}
  = Ok [Str "All"; Str "C1"].
Proof. reflexivity. Qed.

(** ** FilterEngine: the rows that are kept *)

Lemma filter_sublist {A} (p : A -> bool) (l : list A) : sublist (List.filter p l) l.
Proof.
  induction l as [|x l IH]; simpl; [constructor|].
  destruct (p x); now constructor.
Qed.

Lemma elem_of_List_filter {A} (p : A -> bool) (l : list A) (x : A) :
  x ∈ List.filter p l <-> x ∈ l /\ p x = true.
Proof. rewrite !list_elem_of_In. apply filter_In. Qed.

Lemma cell_has_value_spec (c : cell) :
  cell_has_value c = true <-> exists s, c = Str s /\ trim s <> "".
Proof.
  destruct c as [|s]; simpl.
  - split; [discriminate | intros [s [E _]]; discriminate].
  - rewrite andb_true_iff, negb_true_iff, truthy_true. split.
    + intros [_ H]. exists s. split; [reflexivity|].
      now apply String.eqb_neq.
    + intros [s' [E H]]. inversion E; subst s'. split.
      * intros ->. now apply H.
      * now apply String.eqb_neq.
Qed.

Lemma type_pass_elem (flt : bool) (sel : string) (i : Z) (rows : list row) (r : row) :
  r ∈ type_pass flt sel i rows
  <-> r ∈ rows /\ (flt = true -> sel <> "All" -> i <> -1 -> at_index r i = Str sel).
Proof.
  unfold type_pass.
  destruct flt, (String.eqb_spec sel "All"), (Z.eqb_spec i (-1)); cbn;
    try (split; [intros H; split; [exact H|intros; congruence] | tauto]).
  rewrite elem_of_List_filter. unfold strict_eq. rewrite bool_decide_eq_true.
  split; intros [H1 H2]; split; auto.
Qed.

Lemma area_pass_elem (sel : string) (i : Z) (rows : list row) (r : row) :
  r ∈ area_pass sel i rows
  <-> r ∈ rows /\ (sel <> "All" -> i <> -1 -> at_index r i = Str sel).
Proof.
  unfold area_pass.
  destruct (String.eqb_spec sel "All"), (Z.eqb_spec i (-1)); cbn;
    try (split; [intros H; split; [exact H|intros; congruence] | tauto]).
  rewrite elem_of_List_filter. unfold strict_eq. rewrite bool_decide_eq_true.
  split; intros [H1 H2]; split; auto.
Qed.

Lemma cabinet_pass_elem (eq : bool) (sel : string) (i : Z) (rows : list row)
    (r : row) :
  r ∈ cabinet_pass eq sel i rows
  <-> r ∈ rows /\ (eq = true -> sel <> "All" -> i <> -1 -> at_index r i = Str sel).
Proof.
  unfold cabinet_pass.
  destruct eq, (String.eqb_spec sel "All"), (Z.eqb_spec i (-1)); cbn;
    try (split; [intros H; split; [exact H|intros; congruence] | tauto]).
  rewrite elem_of_List_filter. unfold strict_eq. rewrite bool_decide_eq_true.
  split; intros [H1 H2]; split; auto.
Qed.

Lemma search_pass_elem (eq : bool) (term : string) (rows : list row) (r : row) :
  r ∈ search_pass eq term rows
  <-> r ∈ rows /\ (eq = false -> term <> "" -> row_matches term r).
Proof.
  unfold search_pass. destruct (truthy term) eqn:Ht.
  - apply truthy_true in Ht. destruct eq.
    + split; [intros H; split; [exact H|discriminate] | tauto].
    + rewrite elem_of_List_filter, cell_includes_matches by assumption.
      split; intros [H1 H2]; split; auto.
  - assert (term = "") as -> by (destruct term; [reflexivity|discriminate]).
    split; [intros H; split; [exact H|congruence] | tauto].
Qed.

Lemma nonempty_pass_elem (eq : bool) (rows : list row) (r : row) :
  r ∈ nonempty_pass eq rows
  <-> r ∈ rows /\ (eq = true -> exists s, Str s ∈ r /\ trim s <> "").
Proof.
  unfold nonempty_pass. destruct eq.
  - rewrite elem_of_List_filter, existsb_exists. split; intros [H1 H2]; split; auto.
    + intros _. destruct H2 as [c [Hc Hv]].
      apply cell_has_value_spec in Hv as [s [-> Hs]].
      exists s. split; [now apply list_elem_of_In | assumption].
    + destruct (H2 eq_refl) as [s [Hs Ht]]. exists (Str s).
      split; [now apply list_elem_of_In|]. apply cell_has_value_spec. eauto.
  - split; [intros H; split; [exact H|discriminate] | tauto].
Qed.

Lemma filteredBodyRows_elem (rd : option grid) (sT sA sC term : string)
    (flt : bool) (ti ai ci : Z) (eq : bool) (h : Z) (r : row) :
  r ∈ filteredBodyRows rd sT sA sC term flt ti ai ci eq h
  <-> r ∈ body_rows rd h
      /\ (flt = true -> sT <> "All" -> ti <> -1 -> at_index r ti = Str sT)
      /\ (sA <> "All" -> ai <> -1 -> at_index r ai = Str sA)
      /\ (eq = true -> sC <> "All" -> ci <> -1 -> at_index r ci = Str sC)
      /\ (eq = false -> term <> "" -> row_matches term r)
      /\ (eq = true -> exists s, Str s ∈ r /\ trim s <> "").
Proof.
  unfold filteredBodyRows. cbv zeta.
  rewrite nonempty_pass_elem, search_pass_elem, cabinet_pass_elem, area_pass_elem,
    type_pass_elem.
  unfold body_rows. tauto.
Qed.

(** X6. The visible rows are data rows of the reordered grid, in their
    order, each at most as often as the grid has it; and a data row is
    visible exactly when it passes every test that is switched on: the
    selected type, area and cabinet in their columns, the search term in
    some cell (not in the equipment view), and a cell that is not blank
    (in the equipment view only). *)
Theorem filteredBodyRows_selects (rd : option grid) (sT sA sC term : string)
    (flt : bool) (ti ai ci : Z) (eq : bool) (h : Z) :
  sublist (filteredBodyRows rd sT sA sC term flt ti ai ci eq h) (body_rows rd h)
  /\ forall r,
       r ∈ filteredBodyRows rd sT sA sC term flt ti ai ci eq h
       <-> r ∈ body_rows rd h
           /\ (flt = true -> sT <> "All" -> ti <> -1 -> at_index r ti = Str sT)
           /\ (sA <> "All" -> ai <> -1 -> at_index r ai = Str sA)
           /\ (eq = true -> sC <> "All" -> ci <> -1 -> at_index r ci = Str sC)
           /\ (eq = false -> term <> "" -> row_matches term r)
           /\ (eq = true -> exists s, Str s ∈ r /\ trim s <> "").
Proof.
  split; [|intros r; apply filteredBodyRows_elem].
  unfold filteredBodyRows, body_rows. cbv zeta.
  set (rows0 := match rd with Some g => slice_from g h | None => [] end).
  assert (Hpass : forall (b : bool) (p : row -> bool) (l : list row),
             sublist (if b then List.filter p l else l) l).
  { intros [] p l; [apply filter_sublist | reflexivity]. }
  etransitivity; [|etransitivity; [|etransitivity; [|etransitivity]]].
  - unfold nonempty_pass. apply Hpass.
  - unfold search_pass. destruct (truthy term); [|reflexivity].
    cbv zeta. destruct eq; [reflexivity | apply filter_sublist].
  - unfold cabinet_pass. apply Hpass.
  - unfold area_pass. apply Hpass.
  - unfold type_pass. apply Hpass.
Qed.

Lemma filteredBodyRows_selects_witness :
  sublist
    (filteredBodyRows (Some example_stock) "All" "South" "All" "pump"
       true (-1) 0 (-1) false 1)
    (body_rows (Some example_stock) 1)
  /\ [Str "South"; Str "C2"; Str "Pump"; Str "2"; Str "0"]
       ∈ filteredBodyRows (Some example_stock) "All" "South" "All" "pump"
           true (-1) 0 (-1) false 1.
Proof.
  destruct (filteredBodyRows_selects (Some example_stock) "All" "South" "All" "pump"
              true (-1) 0 (-1) false 1) as [H1 H2].
  split; [exact H1|]. apply H2. split; [|split; [|split; [|split; [|split]]]].
  - right. left.
  - intros _ H. congruence.
  - intros _ _. reflexivity.
  - discriminate.
  - intros _ _. exists "Pump"%string. split; [do 2 right; left|].
    exists ""%string, "Pump"%string, ""%string. split; reflexivity.
  - discriminate.
Defined.

Lemma at_index_elem (r : row) (i : Z) (s : string) :
  at_index r i = Str s -> Str s ∈ r.
Proof.
  unfold at_index. destruct (i <? 0); [discriminate|].
  destruct (r !! Z.to_nat i) as [c|] eqn:E; [|discriminate].
  simpl. intros ->. eapply list_elem_of_lookup_2. exact E.
Qed.

Lemma types_memo_disabled (flt : bool) (rd : option grid) (h : Z) (opts : list cell) :
  types_memo flt rd h = Ok (opts, -1) -> opts = [].
Proof.
  unfold types_memo. destruct rd as [g|]; [|intros H; now inversion H].
  destruct (negb flt || (Z.of_nat (length g) <? h + 1)); [intros H; now inversion H|].
  destruct g as [|hd rest]; [discriminate|].
  destruct (findIndex (header_is "type") hd) as [ti|]; [|discriminate].
  cbn [mbind result_bind]. destruct (Z.eqb_spec ti (-1)); intros H; inversion H; subst;
    [reflexivity|contradiction].
Qed.

Lemma areas_memo_disabled (rd : option grid) (h : Z) (opts : list cell) :
  areas_memo rd h = Ok (opts, -1) -> opts = [].
Proof.
  unfold areas_memo. destruct rd as [g|]; [|intros H; now inversion H].
  destruct (Z.of_nat (length g) <? h + 1); [intros H; now inversion H|].
  destruct g as [|hd rest]; [discriminate|].
  destruct (findIndex (header_is "area") hd) as [ti|]; [|discriminate].
  cbn [mbind result_bind]. destruct (Z.eqb_spec ti (-1)); intros H; inversion H; subst;
    [reflexivity|contradiction].
Qed.

Lemma isFilterableView_true (dataType : DataType) : isFilterableView dataType = true.
Proof. now destruct dataType. Qed.

(** X7. A type button selects something.  On a grid of strings, after a
    click on an offered type other than 'All', the other filters at their
    defaults, at least one row is visible and every visible row holds that
    type in the type column; in the equipment view this needs a type that
    is not blank. *)
Theorem offered_type_selects_rows (dataType : DataType) (data : option grid)
    (s : string) :
  well_formed data ->
  s <> "All" ->
  (dataType = equipment -> trim s <> "") ->
  exists v,
    render dataType data (select_type s) = Ok v
    /\ (Str s ∈ v_types v ->
        v_filteredBodyRows v <> []
        /\ Forall (fun r => at_index r (v_typeColumnIndex v) = Str s)
             (v_filteredBodyRows v)).
Proof.
  intros Hwf Hs Hblank. apply well_formed_header in Hwf.
  destruct (render_memos dataType data (select_type s) Hwf)
    as [v [Hv [_ [_ [Ht [_ [_ [Hrows _]]]]]]]].
  exists v. split; [exact Hv|]. intros Hin.
  assert (Hti : v_typeColumnIndex v <> -1).
  { intros E. rewrite E in Ht. apply types_memo_disabled in Ht.
    rewrite Ht in Hin. inversion Hin. }
  rewrite (types_memo_members _ _ _ _ _ Ht Hti) in Hin.
  apply elem_of_cons in Hin as [Hin|Hin]; [congruence|].
  apply unique_column_elem in Hin as [_ [r [Hr Hx]]].
  rewrite Hrows. cbn [select_type selectedType selectedArea selectedCabinet searchTerm].
  split.
  - assert (Hmem : r ∈ filteredBodyRows (v_reorderedData v) s "All" "All" ""
                         (isFilterableView dataType) (v_typeColumnIndex v)
                         (v_areaColumnIndex v) (v_cabinetColumnIndex v)
                         (isEquipmentView dataType) (headerRowCount dataType)).
    { apply filteredBodyRows_elem. split; [exact Hr|].
      split; [intros; exact Hx|]. split; [congruence|]. split; [congruence|].
      split; [congruence|]. intros Heq. exists s.
      split; [eapply at_index_elem; exact Hx|].
      apply Hblank. now destruct dataType. }
    intros E. rewrite E in Hmem. inversion Hmem.
  - apply Forall_forall. intros r' Hr'. apply filteredBodyRows_elem in Hr'.
    destruct Hr' as [_ [H _]]. apply H; auto. apply isFilterableView_true.
Qed.

Lemma offered_type_selects_rows_witness :
  let g := [ [Str "Item"; Str "Type"]; [Str "Valve"; Str "Spare"];
             [Str "Pump"; Str "Main"]; [Str "Seal"; Str "Spare"] ] in
  well_formed (Some g)
  /\ "Spare" <> "All"
  /\ (stock = equipment -> trim "Spare" <> "")
  /\ exists v,
       render stock (Some g) (select_type "Spare") = Ok v
       /\ (Str "Spare" ∈ v_types v ->
           v_filteredBodyRows v <> []
           /\ Forall (fun r => at_index r (v_typeColumnIndex v) = Str "Spare")
                (v_filteredBodyRows v)).
Proof.
  intros g.
  assert (Hwf : well_formed (Some g)).
  { unfold well_formed. repeat (constructor; [all_strings|]). constructor. }
  assert (H1 : "Spare" <> "All") by discriminate.
  assert (H2 : stock = equipment -> trim "Spare" <> "") by discriminate.
  split; [exact Hwf|]. split; [exact H1|]. split; [exact H2|].
  exact (offered_type_selects_rows stock (Some g) "Spare" Hwf H1 H2).
Defined.

(** X8. An area button selects something.  On a grid of strings, after a
    click on an offered area other than 'All', the other filters at their
    defaults, at least one row is visible and every visible row holds that
    area in the area column; in the equipment view this needs an area that
    is not blank. *)
Theorem offered_area_selects_rows (dataType : DataType) (data : option grid)
    (s : string) :
  well_formed data ->
  s <> "All" ->
  (dataType = equipment -> trim s <> "") ->
  exists v,
    render dataType data (select_area s) = Ok v
    /\ (Str s ∈ v_areas v ->
        v_filteredBodyRows v <> []
        /\ Forall (fun r => at_index r (v_areaColumnIndex v) = Str s)
             (v_filteredBodyRows v)).
Proof.
  intros Hwf Hs Hblank. apply well_formed_header in Hwf.
  destruct (render_memos dataType data (select_area s) Hwf)
    as [v [Hv [_ [_ [_ [Ha [_ [Hrows _]]]]]]]].
  exists v. split; [exact Hv|]. intros Hin.
  assert (Hai : v_areaColumnIndex v <> -1).
  { intros E. rewrite E in Ha. apply areas_memo_disabled in Ha.
    rewrite Ha in Hin. inversion Hin. }
  rewrite (areas_memo_members _ _ _ _ Ha Hai) in Hin.
  apply elem_of_cons in Hin as [Hin|Hin]; [congruence|].
  apply unique_column_elem in Hin as [_ [r [Hr Hx]]].
  rewrite Hrows. cbn [select_area selectedType selectedArea selectedCabinet searchTerm].
  split.
  - assert (Hmem : r ∈ filteredBodyRows (v_reorderedData v) "All" s "All" ""
                         (isFilterableView dataType) (v_typeColumnIndex v)
                         (v_areaColumnIndex v) (v_cabinetColumnIndex v)
                         (isEquipmentView dataType) (headerRowCount dataType)).
    { apply filteredBodyRows_elem. split; [exact Hr|].
      split; [congruence|]. split; [intros; exact Hx|]. split; [congruence|].
      split; [congruence|]. intros Heq. exists s.
      split; [eapply at_index_elem; exact Hx|].
      apply Hblank. now destruct dataType. }
    intros E. rewrite E in Hmem. inversion Hmem.
  - apply Forall_forall. intros r' Hr'. apply filteredBodyRows_elem in Hr'.
    destruct Hr' as [_ [_ [H _]]]. now apply H.
Qed.

Lemma offered_area_selects_rows_witness :
  well_formed (Some example_equipment)
  /\ "North" <> "All"
  /\ (equipment = equipment -> trim "North" <> "")
  /\ exists v,
       render equipment (Some example_equipment) (select_area "North") = Ok v
       /\ (Str "North" ∈ v_areas v ->
           v_filteredBodyRows v <> []
           /\ Forall (fun r => at_index r (v_areaColumnIndex v) = Str "North")
                (v_filteredBodyRows v)).
Proof.
  assert (Hwf : well_formed (Some example_equipment)).
  { unfold well_formed. repeat (constructor; [all_strings|]). constructor. }
  assert (H1 : "North" <> "All") by discriminate.
  assert (H2 : equipment = equipment -> trim "North" <> "") by discriminate.
  split; [exact Hwf|]. split; [exact H1|]. split; [exact H2|].
  exact (offered_area_selects_rows equipment (Some example_equipment) "North" Hwf H1 H2).
Defined.

Lemma visibleEquipmentColumns_bounds_witness :
  exists vis,
    visibleEquipmentColumns true example_rows (Some example_equipment) "" = Some vis
    /\ 0 ∈ vis /\ 1 ∈ vis /\ 2 ∈ vis
    /\ forall c, c ∈ vis ->
         0 <= c
         /\ (3 <= c ->
             exists h rest,
               Some example_equipment = Some (h :: rest) /\ c < Z.of_nat (length h)).
Proof.
  eexists. split; [reflexivity|].
  apply (proj2 (visibleEquipmentColumns_bounds true example_rows
                  (Some example_equipment) "")).
  reflexivity.
Defined.

(** ** GridFetcher: the runs of the fetch effect *)

Lemma all_false_replicate (l : list bool) :
  Forall (fun b => b = false) l -> l = replicate (length l) false.
Proof.
  induction 1 as [|b l Hb _ IH]; [reflexivity|].
  cbn. now rewrite Hb, <- IH.
Qed.

Lemma cleanup_flags (st : State) :
  flags_ok st ->
  isMounted (cleanup st) = replicate (length (isMounted st)) false.
Proof.
  unfold cleanup. intros [[Hi Hf]|[n [Hf Hi]]]; cbn; rewrite Hi.
  - now apply all_false_replicate.
  - rewrite Hf, insert_app_r_alt by (rewrite length_replicate; lia).
    rewrite length_replicate, Nat.sub_diag, length_app, length_replicate. cbn.
    now rewrite Nat.add_1_r, replicate_S_end.
Qed.

Lemma effect_fetch_restarts (st : State) :
  flags_ok st -> alive st = true ->
  effect_fetch st
  = {| area := area st; dataType := dataType st; data := data st; loading := true;
       error := None; filters := fs_default;
       isMounted := replicate (length (isMounted st)) false ++ [true];
       intervalId := Some (length (isMounted st));
       deps_selectedArea := deps_selectedArea st;
       deps_fetch := Some (area st, dataType st); alive := true;
       requests := requests st ++
         [{| req_area := area st; req_type := dataType st;
             req_run := length (isMounted st); req_isInitialLoad := true |}] |}.
Proof.
  intros Hf Ha. unfold effect_fetch. cbn.
  rewrite (cleanup_flags st Hf), length_replicate.
  unfold cleanup; cbn. now rewrite Ha.
Qed.

Lemma step_props_change (a' : Area) (d' : DataType) (st : State) :
  settled st -> alive st = true -> flags_ok st ->
  (a', d') <> (area st, dataType st) ->
  step (Props a' d') st = restarted a' d' st.
Proof.
  intros [Hs1 Hs2] Ha Hf Hne. unfold step, handle. rewrite Ha. cbn [negb].
  change (alive (setProps a' d' st)) with (alive st). rewrite Ha.
  unfold commit.
  assert (H1 : commit_once (setProps a' d' st) = effect_fetch (setProps a' d' st)).
  { unfold commit_once.
    change (deps_selectedArea (setProps a' d' st)) with (deps_selectedArea st).
    change (filters (setProps a' d' st)) with (filters st).
    rewrite (bool_decide_eq_true_2 (deps_selectedArea st = _)) by exact Hs1.
    rewrite bool_decide_eq_false_2; [reflexivity|].
    change (deps_fetch (setProps a' d' st)) with (deps_fetch st).
    rewrite Hs2. cbn. intros E. apply Hne. now inversion E. }
  rewrite H1, effect_fetch_restarts by assumption.
  unfold commit_once, restarted. cbn.
  destruct (bool_decide (deps_selectedArea st = Some "All")) eqn:E; cbn;
    rewrite (bool_decide_eq_true_2 (Some (a', d') = Some (a', d'))) by reflexivity;
    [|reflexivity].
  apply bool_decide_eq_true_1 in E. now rewrite E.
Qed.

Lemma step_props_same (st : State) :
  settled st -> step (Props (area st) (dataType st)) st = st.
Proof.
  intros Hs. unfold step, handle. destruct (alive st) eqn:Ha; cbn [negb].
  - assert (E : setProps (area st) (dataType st) st = st) by now destruct st.
    rewrite E, Ha. now apply commit_settled.
  - now rewrite Ha.
Qed.

Lemma mount_state (a : Area) (d : DataType) : mount a d = mounted_state a d.
Proof.
  unfold mount, commit.
  match goal with |- commit_once (commit_once ?s) = _ => set (s0 := s) end.
  assert (H : commit_once s0 = mounted_state a d).
  { unfold commit_once. subst s0. cbn.
    rewrite effect_fetch_restarts; [reflexivity| |reflexivity].
    left. split; [reflexivity|constructor]. }
  rewrite H. apply commit_once_settled. split; reflexivity.
Qed.

Lemma commit_once_core (st : State) :
  deps_fetch st = Some (area st, dataType st) ->
  core (commit_once st) = core st /\ requests (commit_once st) = requests st.
Proof.
  intros Hd. unfold commit_once.
  destruct (bool_decide (deps_selectedArea st = Some (selectedArea (filters st)))).
  - rewrite bool_decide_eq_true_2 by exact Hd. now split.
  - rewrite bool_decide_eq_true_2 by exact Hd. now split.
Qed.

Lemma commit_core (st : State) :
  deps_fetch st = Some (area st, dataType st) ->
  core (commit st) = core st /\ requests (commit st) = requests st.
Proof.
  intros Hd. unfold commit.
  destruct (commit_once_core st Hd) as [H1 H2].
  assert (Hd' : deps_fetch (commit_once st)
                = Some (area (commit_once st), dataType (commit_once st))).
  { unfold core in H1. inversion H1 as [[Ha Ht Hdt Hl He Hm Hi Hf Hal]].
    rewrite Hf, Ha, Ht. exact Hd. }
  destruct (commit_once_core _ Hd') as [H3 H4].
  split; congruence.
Qed.

Lemma latest_flags_ok (st : State) : latest_run_listens st -> flags_ok st.
Proof.
  unfold latest_run_listens, flags_ok. destruct (alive st); [now right | now left].
Qed.

Lemma filter_event_core (ev : Event) (st : State) :
  settled st ->
  match ev with
  | ClickType _ | ClickArea _ | ChangeCabinet _ | ChangeSearch _ =>
      core (step ev st) = core st /\ requests (step ev st) = requests st
  | _ => True
  end.
Proof.
  intros [_ Hd].
  destruct ev; try exact I; unfold step, handle;
    (destruct (alive st) eqn:Ha; cbn [negb]; [|rewrite Ha; now split]);
    match goal with
    | |- context [commit ?s] =>
        change (alive s) with (alive st); rewrite Ha;
        destruct (commit_core s Hd) as [H1 H2]; rewrite H1, H2; now split
    end.
Qed.

Lemma step_cases (ev : Event) (st : State) :
  invariant st -> latest_run_listens st -> step_outcome ev st (step ev st).
Proof.
  intros [Hlive Hs] Hl.
  destruct ev as [v|v|v|v|a' d'| |run init resp|]; unfold step_outcome.
  - destruct (alive st) eqn:Ha.
    + exact (filter_event_core (ClickType v) st (Hs eq_refl)).
    + unfold step, handle. rewrite Ha. cbn [negb]. rewrite Ha. now split.
  - destruct (alive st) eqn:Ha.
    + exact (filter_event_core (ClickArea v) st (Hs eq_refl)).
    + unfold step, handle. rewrite Ha. cbn [negb]. rewrite Ha. now split.
  - destruct (alive st) eqn:Ha.
    + exact (filter_event_core (ChangeCabinet v) st (Hs eq_refl)).
    + unfold step, handle. rewrite Ha. cbn [negb]. rewrite Ha. now split.
  - destruct (alive st) eqn:Ha.
    + exact (filter_event_core (ChangeSearch v) st (Hs eq_refl)).
    + unfold step, handle. rewrite Ha. cbn [negb]. rewrite Ha. now split.
  - destruct (alive st) eqn:Ha; cbn [andb].
    + case_bool_decide as E; cbn [negb].
      * inversion E; subst. now apply step_props_same, Hs.
      * apply step_props_change; auto. now apply latest_flags_ok.
    + unfold step, handle. rewrite Ha. cbn [negb]. now rewrite Ha.
  - unfold step, handle. destruct (alive st) eqn:Ha; cbn [negb]; [|now rewrite Ha].
    destruct (intervalId st) as [run|]; [|rewrite Ha; now apply commit_settled, Hs].
    change (alive (fetchData run false st)) with (alive st). rewrite Ha.
    apply commit_settled. exact (Hs eq_refl).
  - unfold step, handle.
    destruct (settle_filters run init resp st) as [_ [Ha Hset]].
    destruct (alive (settle run init resp st)) eqn:Ha'; [|reflexivity].
    apply commit_settled, Hset, Hs. congruence.
  - unfold step, handle. destruct (alive st) eqn:Ha; cbn [negb]; [|now rewrite Ha].
    reflexivity.
Qed.

Lemma core_latest (st st' : State) :
  core st' = core st -> latest_run_listens st -> latest_run_listens st'.
Proof.
  unfold core, latest_run_listens. intros E.
  injection E as _ _ _ _ _ Hm Hi _ Ha. now rewrite Hm, Hi, Ha.
Qed.

Lemma settle_core (run : nat) (init : bool) (resp : Response) (st : State) :
  area (settle run init resp st) = area st
  /\ dataType (settle run init resp st) = dataType st
  /\ isMounted (settle run init resp st) = isMounted st
  /\ intervalId (settle run init resp st) = intervalId st
  /\ requests (settle run init resp st) = requests st.
Proof.
  destruct (settle_frame run init resp st) as [d [l [e ->]]]. now repeat split.
Qed.

Lemma step_latest (ev : Event) (st : State) :
  invariant st -> latest_run_listens st -> latest_run_listens (step ev st).
Proof.
  intros Hinv Hl. pose proof (step_cases ev st Hinv Hl) as Hc.
  destruct ev as [v|v|v|v|a' d'| |run init resp|]; unfold step_outcome in Hc.
  1-4: now apply (core_latest st); [apply Hc|].
  - rewrite Hc. destruct (alive st && _); [|exact Hl].
    unfold latest_run_listens, restarted. cbn. now eexists.
  - rewrite Hc. destruct (alive st) eqn:Ha; [|exact Hl].
    destruct (intervalId st) as [run|] eqn:Hi; [|exact Hl].
    exact Hl.
  - rewrite Hc. unfold latest_run_listens in *.
    destruct (settle_filters run init resp st) as [_ [Ha _]].
    destruct (settle_core run init resp st) as [_ [_ [Hm [Hi _]]]].
    now rewrite Ha, Hm, Hi.
  - rewrite Hc. destruct (alive st) eqn:Ha; [|exact Hl].
    unfold latest_run_listens. cbn. split; [reflexivity|].
    rewrite (cleanup_flags st (latest_flags_ok st Hl)).
    now apply Forall_replicate.
Qed.

Lemma mount_latest (a : Area) (d : DataType) : latest_run_listens (mount a d).
Proof. rewrite mount_state. exists 0%nat. now split. Qed.

Lemma run_events_latest (evs : list Event) (st : State) :
  invariant st -> latest_run_listens st ->
  invariant (run_events evs st) /\ latest_run_listens (run_events evs st).
Proof.
  revert st. induction evs as [|ev evs IH]; intros st Hi Hl; [now split|].
  cbn. apply IH; [now apply step_invariant | now apply step_latest].
Qed.

(** X9. While the component is in the tree, the latest run of the fetch
    effect, and no other, has its [isMounted] set and owns the interval
    timer; once it is unmounted no run has it set and no timer is left. *)
Theorem latest_run_alone_listens (a : Area) (d : DataType) (evs : list Event) :
  let st := run_events evs (mount a d) in
  (alive st = true ->
   exists n, isMounted st = replicate n false ++ [true] /\ intervalId st = Some n)
  /\ (alive st = false ->
      intervalId st = None /\ Forall (fun b => b = false) (isMounted st)).
Proof.
  intros st.
  destruct (run_events_latest evs (mount a d) (mount_invariant a d) (mount_latest a d))
    as [_ Hl].
  fold st in Hl. unfold latest_run_listens in Hl.
  split; intros Ha; rewrite Ha in Hl; exact Hl.
Qed.

Lemma dead_step (ev : Event) (st : State) :
  invariant st -> alive st = false -> step ev st = st.
Proof.
  intros [Hlive _] Ha. unfold step, handle.
  destruct ev; rewrite ?Ha; cbn [negb]; rewrite ?Ha; try reflexivity.
  rewrite settle_not_mounted; [now rewrite Ha|].
  destruct (isMounted st !! run) as [[]|] eqn:E; try reflexivity.
  destruct (Hlive run E) as [Ha' _]. congruence.
Qed.

(** X10. The unmount is final: whatever events follow it (clicks, ticks
    of a timer, changes of props, responses of requests in flight), the
    state stays as the unmount left it, and no request is sent. *)
Theorem unmount_is_final (a : Area) (d : DataType) (before after : list Event) :
  let st := step Unmount (run_events before (mount a d)) in
  alive st = false /\ intervalId st = None /\ run_events after st = st.
Proof.
  intros st.
  destruct (run_events_latest before (mount a d) (mount_invariant a d) (mount_latest a d))
    as [Hinv Hl].
  assert (Hinv' : invariant st) by now apply step_invariant.
  assert (Hl' : latest_run_listens st) by now apply step_latest.
  assert (Ha : alive st = false).
  { unfold st, step, handle.
    destruct (alive (run_events before (mount a d))) eqn:Ha; cbn [negb]; [reflexivity|].
    now rewrite Ha. }
  split; [exact Ha|]. split.
  - unfold latest_run_listens in Hl'. rewrite Ha in Hl'. apply Hl'.
  - clearbody st. induction after as [|ev after IH]; [reflexivity|].
    cbn. now rewrite dead_step.
Qed.

(** X11. A change of the props.  In a mounted component, new props that
    differ in the area or in the dataset keep the grid fetched for the old
    ones, turn the spinner on, clear the error, put the four filters back
    to their defaults, clear the flag of the run that listened, start a new
    run with its own timer and send one initial request for the new props;
    props that do not differ change nothing. *)
Theorem props_change_restarts (a : Area) (d : DataType) (evs : list Event)
    (a' : Area) (d' : DataType) :
  let st := run_events evs (mount a d) in
  alive st = true ->
  step (Props a' d') st
  = if bool_decide ((a', d') = (area st, dataType st)) then st
    else restarted a' d' st.
Proof.
  intros st Ha.
  destruct (run_events_latest evs (mount a d) (mount_invariant a d) (mount_latest a d))
    as [Hinv Hl].
  pose proof (step_cases (Props a' d') _ Hinv Hl) as Hc.
  unfold step_outcome in Hc. fold st in Hc. rewrite Ha in Hc. cbn [andb] in Hc.
  rewrite Hc. now destruct (bool_decide _).
Qed.

Lemma props_change_restarts_witness :
  let st := run_events [ClickType "Spare"; Tick] (mount PULP2 stock) in
  alive st = true
  /\ step (Props NPP11 stock) st
     = if bool_decide ((NPP11, stock) = (area st, dataType st)) then st
       else restarted NPP11 stock st.
Proof.
  intros st.
  assert (Ha : alive st = true) by reflexivity.
  split; [exact Ha|].
  exact (props_change_restarts PULP2 stock [ClickType "Spare"; Tick] NPP11 stock Ha).
Defined.

Lemma log_ok_transfer (st st' : State) :
  area st' = area st -> dataType st' = dataType st ->
  isMounted st' = isMounted st -> requests st' = requests st ->
  log_ok st -> log_ok st'.
Proof.
  unfold log_ok. intros -> -> -> ->. auto.
Qed.

Lemma lookup_flags_last (n i : nat) :
  (replicate n false ++ [true]) !! i = Some true -> i = n.
Proof.
  intros H. destruct (decide (i < n)%nat) as [Hlt|Hge].
  - rewrite lookup_app_l in H by (rewrite length_replicate; lia).
    apply lookup_replicate in H as [H _]. discriminate.
  - rewrite lookup_app_r in H by (rewrite length_replicate; lia).
    rewrite length_replicate in H.
    destruct (i - n)%nat as [|k] eqn:E; [lia|]. destruct k; discriminate.
Qed.

Lemma step_log (ev : Event) (st : State) :
  invariant st -> latest_run_listens st -> log_ok st -> log_ok (step ev st).
Proof.
  intros Hinv Hl Hlog. pose proof (step_cases ev st Hinv Hl) as Hc.
  destruct ev as [v|v|v|v|a' d'| |run init resp|]; unfold step_outcome in Hc.
  1-4: destruct Hc as [Hc Hr]; unfold core in Hc;
       injection Hc as Ha Hd _ _ _ Hm _ _ _; now apply (log_ok_transfer st).
  - rewrite Hc. destruct (alive st && _); [|exact Hlog].
    destruct Hlog as [H1 [H2 H3]]. unfold log_ok, restarted. cbn.
    split; [|split].
    + intros q Hq. rewrite length_app, length_replicate. cbn.
      apply elem_of_app in Hq as [Hq|Hq]; [specialize (H1 q Hq); lia|].
      apply list_elem_of_singleton in Hq. subst q. cbn. lia.
    + intros q Hq Hq'. apply lookup_flags_last in Hq'.
      apply elem_of_app in Hq as [Hq|Hq]; [specialize (H1 q Hq); lia|].
      apply list_elem_of_singleton in Hq. now subst q.
    + intros q q' Hq Hq' E.
      apply elem_of_app in Hq as [Hq|Hq]; apply elem_of_app in Hq' as [Hq'|Hq'].
      * now apply H3.
      * apply list_elem_of_singleton in Hq'. subst q'. cbn in E.
        specialize (H1 q Hq). lia.
      * apply list_elem_of_singleton in Hq. subst q. cbn in E.
        specialize (H1 q' Hq'). lia.
      * apply list_elem_of_singleton in Hq, Hq'. now subst.
  - rewrite Hc. destruct (alive st) eqn:Ha; [|exact Hlog].
    destruct (intervalId st) as [run|] eqn:Hi; [|exact Hlog].
    unfold latest_run_listens in Hl. rewrite Ha in Hl.
    destruct Hl as [n [Hm Hn]]. assert (n = run) by congruence. subst n.
    assert (Hrun : isMounted st !! run = Some true).
    { rewrite Hm, lookup_app_r by (rewrite length_replicate; lia).
      now rewrite length_replicate, Nat.sub_diag. }
    destruct Hlog as [H1 [H2 H3]]. unfold log_ok, fetchData. cbn.
    split; [|split].
    + intros q Hq. apply elem_of_app in Hq as [Hq|Hq]; [now apply H1|].
      apply list_elem_of_singleton in Hq. subst q. cbn.
      apply lookup_lt_Some in Hrun. exact Hrun.
    + intros q Hq Hq'. apply elem_of_app in Hq as [Hq|Hq]; [now apply H2|].
      apply list_elem_of_singleton in Hq. now subst q.
    + intros q q' Hq Hq' E.
      apply elem_of_app in Hq as [Hq|Hq]; apply elem_of_app in Hq' as [Hq'|Hq'].
      * now apply H3.
      * apply list_elem_of_singleton in Hq'. subst q'. cbn in E |- *.
        apply H2; [exact Hq | now rewrite E].
      * apply list_elem_of_singleton in Hq. subst q. cbn in E |- *.
        destruct (H2 q' Hq') as [E1 E2]; [now rewrite <- E | now split].
      * apply list_elem_of_singleton in Hq, Hq'. now subst.
  - rewrite Hc. destruct (settle_core run init resp st) as [Ha [Hd [Hm [_ Hr]]]].
    now apply (log_ok_transfer st).
  - rewrite Hc. destruct (alive st) eqn:Ha; [|exact Hlog].
    destruct Hlog as [H1 [H2 H3]]. unfold log_ok. cbn.
    rewrite (cleanup_flags st (latest_flags_ok st Hl)).
    split; [|split].
    + intros q Hq. rewrite length_replicate. now apply H1.
    + intros q _ Hq. apply lookup_replicate in Hq as [Hq _]. discriminate.
    + exact H3.
Qed.

Lemma mount_log (a : Area) (d : DataType) : log_ok (mount a d).
Proof.
  rewrite mount_state. unfold log_ok, mounted_state. cbn.
  split; [|split].
  - intros q Hq. apply list_elem_of_singleton in Hq. subst q. cbn. lia.
  - intros q Hq _. apply list_elem_of_singleton in Hq. now subst q.
  - intros q q' Hq Hq' _. apply list_elem_of_singleton in Hq, Hq'. now subst.
Qed.

Lemma run_events_log (evs : list Event) (st : State) :
  invariant st -> latest_run_listens st -> log_ok st -> log_ok (run_events evs st).
Proof.
  revert st. induction evs as [|ev evs IH]; intros st Hi Hl Hlog; [exact Hlog|].
  cbn. apply IH; [now apply step_invariant | now apply step_latest | now apply step_log].
Qed.

(** X12. The log of requests.  Every request belongs to a run of the fetch
    effect that was started; the requests of the run that still listens
    ask for the current area and dataset, so that a response that is
    applied answers a request for the current props; and the requests of
    one run, the initial one and those of its timer, all ask for the same
    area and dataset. *)
Theorem requests_of_a_run_agree (a : Area) (d : DataType) (evs : list Event) :
  let st := run_events evs (mount a d) in
  (forall q, q ∈ requests st -> (req_run q < length (isMounted st))%nat)
  /\ (forall q, q ∈ requests st -> isMounted st !! req_run q = Some true ->
        req_area q = area st /\ req_type q = dataType st)
  /\ (forall q q', q ∈ requests st -> q' ∈ requests st -> req_run q = req_run q' ->
        req_area q = req_area q' /\ req_type q = req_type q').
Proof.
  intros st.
  exact (run_events_log evs (mount a d) (mount_invariant a d) (mount_latest a d)
           (mount_log a d)).
Qed.

(** ** GridFetcher: responses, the spinner and the error panel *)

Lemma settle_success (run : nat) (init : bool) (p : Payload) (d : grid) (st : State) :
  success p = true -> payload_data p = Some d ->
  isMounted st !! run = Some true ->
  settle run init (Json p) st
  = if init then setLoading false (setError None (setData (Some d) st))
    else setData (Some d) st.
Proof.
  intros Hs Hd Hm. destruct st as [a dt d0 l e f fl iv ds df al rq]. cbn in Hm.
  unfold settle. cbn. rewrite Hs, Hd. destruct init; settle_simpl Hm; reflexivity.
Qed.

Lemma settle_background_panels (run : nat) (resp : Response) (st : State) :
  error (settle run false resp st) = error st
  /\ loading (settle run false resp st) = loading st.
Proof.
  destruct st as [a dt d l e f fl iv ds df al rq]. unfold settle.
  destruct resp as [m'|status|m'|result]; cbn;
    destruct (default false (fl !! run)) eqn:Hm; cbn;
    try destruct (success result); try destruct (payload_data result);
    settle_simpl Hm; now split.
Qed.

Lemma reachable_ok (a : Area) (d : DataType) (evs : list Event) :
  invariant (run_events evs (mount a d))
  /\ latest_run_listens (run_events evs (mount a d)).
Proof.
  exact (run_events_latest evs (mount a d) (mount_invariant a d) (mount_latest a d)).
Qed.

(** X13. A response that carries a grid, to a request of the run that
    listens, replaces the data; the response to the initial request also
    clears the error and ends the spinner, the response to a request of
    the timer changes nothing else.  So an error panel that is shown stays
    after such a refresh, with the new grid in the state behind it. *)
Theorem success_response_applies (a : Area) (d : DataType) (evs : list Event)
    (run : nat) (isInitialLoad : bool) (p : Payload) (g : grid) :
  let st := run_events evs (mount a d) in
  isMounted st !! run = Some true ->
  success p = true -> payload_data p = Some g ->
  let st' := step (Settled run isInitialLoad (Json p)) st in
  st' = (if isInitialLoad then setLoading false (setError None (setData (Some g) st))
         else setData (Some g) st)
  /\ (forall m,
        isInitialLoad = false -> loading st = false ->
        error st = Some m -> truthy m = true ->
        screen st'
        = (_ ← render (dataType st) (Some g) (filters st); Ok (ErrorPanel m))).
Proof.
  intros st Hm Hs Hd st'.
  destruct (reachable_ok a d evs) as [Hinv Hl].
  pose proof (step_cases (Settled run isInitialLoad (Json p)) _ Hinv Hl) as Hc.
  unfold step_outcome in Hc. fold st in Hc. fold st' in Hc.
  rewrite (settle_success run isInitialLoad p g st Hs Hd Hm) in Hc.
  split; [exact Hc|].
  intros m Hi Hload Herr Htr. rewrite Hc, Hi. unfold screen. cbn.
  rewrite Hload, Herr, Htr.
  now destruct (render (dataType st) (Some g) (filters st)).
Qed.

Lemma success_response_applies_witness :
  let st := run_events [Settled 0 true (NetworkFailure "Failed to fetch"); Tick]
              (mount PULP2 stock) in
  let p := {| success := true; payload_data := Some sample_grid;
              payload_error := None |} in
  isMounted st !! 0%nat = Some true
  /\ success p = true /\ payload_data p = Some sample_grid
  /\ let st' := step (Settled 0 false (Json p)) st in
     st' = setData (Some sample_grid) st
     /\ (forall m,
           false = false -> loading st = false ->
           error st = Some m -> truthy m = true ->
           screen st'
           = (_ ← render (dataType st) (Some sample_grid) (filters st);
              Ok (ErrorPanel m))).
Proof.
  intros st p.
  assert (H1 : isMounted st !! 0%nat = Some true) by reflexivity.
  assert (H2 : success p = true) by reflexivity.
  assert (H3 : payload_data p = Some sample_grid) by reflexivity.
  split; [exact H1|]. split; [exact H2|]. split; [exact H3|].
  exact (success_response_applies PULP2 stock
           [Settled 0 true (NetworkFailure "Failed to fetch"); Tick]
           0 false p sample_grid H1 H2 H3).
Defined.

Example error_panel_after_refresh :
  let st := run_events [Settled 0 true (NetworkFailure "Failed to fetch"); Tick]
              (mount PULP2 stock) in
  screen (step (Settled 0 false sample_response) st)
  = Ok (ErrorPanel "Failed to fetch")
  /\ data (step (Settled 0 false sample_response) st) = Some sample_grid.
Proof. split; reflexivity. Qed.

Lemma step_panels (ev : Event) (st : State) :
  invariant st -> latest_run_listens st ->
  ~ props_change ev st -> ~ initial_response ev st ->
  error (step ev st) = error st /\ loading (step ev st) = loading st.
Proof.
  intros Hinv Hl Hp Hr. pose proof (step_cases ev st Hinv Hl) as Hc.
  destruct ev as [v|v|v|v|a' d'| |run init resp|]; unfold step_outcome in Hc.
  1-4: destruct Hc as [Hc _]; unfold core in Hc;
       injection Hc as _ _ _ Hlo He _ _ _ _; now split.
  - rewrite Hc. destruct (alive st); cbn [andb]; [|now split].
    case_bool_decide as E; cbn [negb]; [now split|].
    exfalso. apply Hp. now exists a', d'.
  - rewrite Hc. destruct (alive st); [|now split].
    destruct (intervalId st); now split.
  - rewrite Hc. destruct init; [|apply settle_background_panels].
    rewrite settle_not_mounted; [now split|].
    destruct (isMounted st !! run) as [[]|] eqn:E; try reflexivity.
    exfalso. apply Hr. now exists run, resp.
  - rewrite Hc. destruct (alive st); now split.
Qed.

(** X14. The spinner and the error follow the initial load alone.  In a
    state the component goes through, an event changes [error] or
    [loading] only if it is a change of the props to another area or
    dataset, or the response to the initial request of the run that
    listens; the spinner comes on with the former only and goes off with
    the latter only.  Clicks, ticks of the timer and the responses to its
    requests leave both as they are. *)
Theorem panels_follow_initial_load (a : Area) (d : DataType) (evs : list Event)
    (ev : Event) :
  let st := run_events evs (mount a d) in
  ((error (step ev st) <> error st \/ loading (step ev st) <> loading st) ->
   props_change ev st \/ initial_response ev st)
  /\ (loading st = false -> loading (step ev st) = true -> props_change ev st)
  /\ (loading st = true -> loading (step ev st) = false -> initial_response ev st).
Proof.
  intros st. destruct (reachable_ok a d evs) as [Hinv Hl]. fold st in Hinv, Hl.
  assert (Hdec : forall P Q : Prop, Decision P -> Decision Q ->
                   (~ P -> ~ Q -> False) -> P \/ Q).
  { intros P Q [HP|HP] [HQ|HQ] H; auto. exfalso. auto. }
  assert (Dp : Decision (props_change ev st)).
  { destruct ev as [v|v|v|v|a' d'| |run init resp|];
      try (right; intros [? [? [H _]]]; discriminate).
    destruct (decide ((a', d') = (area st, dataType st))) as [E|E].
    - right. intros [? [? [H H']]]. inversion H; subst. contradiction.
    - left. now exists a', d'. }
  assert (Dr : Decision (initial_response ev st)).
  { destruct ev as [v|v|v|v|a' d'| |run init resp|];
      try (right; intros [? [? [H _]]]; discriminate).
    destruct init; [|right; intros [? [? [H _]]]; discriminate].
    destruct (decide (isMounted st !! run = Some true)) as [E|E].
    - left. now exists run, resp.
    - right. intros [? [? [H H']]]. inversion H; subst. contradiction. }
  split; [|split].
  - intros H. apply Hdec; auto. intros Hp Hr.
    destruct (step_panels ev st Hinv Hl Hp Hr) as [He Hlo].
    destruct H; contradiction.
  - intros H0 H1. destruct Dp as [Hp|Hp]; [exact Hp|exfalso].
    destruct Dr as [Hr|Hr].
    + destruct Hr as [run [resp [-> Hm]]].
      pose proof (step_cases (Settled run true resp) st Hinv Hl) as Hc.
      unfold step_outcome in Hc. rewrite Hc in H1.
      assert (Hmt : default false (isMounted st !! run) = true) by now rewrite Hm.
      clear -H1 Hmt. destruct st as [a0 dt d0 l e f fl iv ds df al rq].
      unfold settle in H1. cbn in *.
      destruct resp as [m'|status|m'|result]; cbn in H1;
        try destruct (success result); try destruct (payload_data result);
        repeat first [progress cbn in H1 | rewrite Hmt in H1]; discriminate.
    + destruct (step_panels ev st Hinv Hl Hp Hr) as [_ Hlo]. congruence.
  - intros H0 H1. destruct Dr as [Hr|Hr]; [exact Hr|exfalso].
    destruct Dp as [Hp|Hp].
    + destruct Hp as [a' [d' [-> Hne]]].
      pose proof (step_cases (Props a' d') st Hinv Hl) as Hc.
      unfold step_outcome in Hc. rewrite Hc in H1.
      destruct (alive st && _); [discriminate|congruence].
    + destruct (step_panels ev st Hinv Hl Hp Hr) as [_ Hlo]. congruence.
Qed.

(** ** ViewRenderer *)

Lemma draw_cells_from_all (keep : Z -> bool) (r : row) (i0 : Z) :
  (forall i, keep i = true) ->
  draw_cells_from keep r i0 = imap (fun i c => (i0 + Z.of_nat i, c)) r.
Proof.
  intros Hk. revert i0. induction r as [|c r IH]; intros i0; [reflexivity|].
  cbn [draw_cells_from]. rewrite Hk, imap_cons, IH. f_equal.
  - f_equal. lia.
  - apply imap_ext. intros i x _. cbn. f_equal. lia.
Qed.

Lemma draw_row_stock (vis : option (gset Z)) (areaColumnIndex : Z) (r : row) :
  draw_row false vis false areaColumnIndex r = numbered r.
Proof.
  unfold draw_row, numbered. rewrite draw_cells_from_all by reflexivity.
  apply imap_ext. intros i x _. reflexivity.
Qed.

Lemma reorderedData_stock (data : option grid) : reorderedData false data = Ok data.
Proof. destruct data as [[|h t]|]; reflexivity. Qed.

Lemma filteredBodyRows_default (rd : option grid) (flt : bool) (ti ai ci : Z) (h : Z) :
  filteredBodyRows rd "All" "All" "All" "" flt ti ai ci false h = body_rows rd h.
Proof.
  unfold filteredBodyRows, body_rows, type_pass, area_pass, cabinet_pass,
    search_pass, nonempty_pass. cbn. now rewrite andb_false_r.
Qed.

Lemma no_body_rows (g : grid) (h : Z) :
  0 <= h -> (h <? Z.of_nat (length g)) = negb (bool_decide (slice_from g h = [])).
Proof.
  intros Hh. unfold slice_from.
  destruct (Z.ltb_spec h (Z.of_nat (length g))) as [Hlt|Hge].
  - rewrite bool_decide_eq_false_2; [reflexivity|].
    intros E. apply (f_equal length) in E. rewrite length_drop in E. cbn in E. lia.
  - rewrite bool_decide_eq_true_2; [reflexivity|]. apply drop_ge. lia.
Qed.

(** X15. The page of a stock view.  For the three stock datasets, on a
    grid whose header row holds strings, the controls are the search bar
    and, with more than one type option, the type buttons, never the area
    buttons nor the cabinet select; the table draws header row 0 and
    every visible row with all their cells, each under the index of its
    column; without a visible row the message tells a grid without data
    rows from a filter that matches none, and with the filters at their
    defaults every data row is visible. *)
Theorem stock_page (dataType : DataType) (data : option grid) (fs : FilterState) :
  dataType <> equipment ->
  header_strings data ->
  exists v,
    render dataType data fs = Ok v
    /\ page dataType fs v
       = Page
           (Some {| searchBar := true;
                    typeButtons :=
                      if (1 <? length (v_types v))%nat then Some (v_types v) else None;
                    areaButtons := None;
                    cabinetSelect := None |})
           (match v_filteredBodyRows v with
            | [] =>
                Message
                  (match body_rows data 1 with
                   | [] => "No data found in this sheet."
                   | _ => "No items match the current filter."
                   end)
            | rows => Table (map numbered (head_rows data 1)) (map numbered rows)
            end)
    /\ (fs = fs_default -> v_filteredBodyRows v = body_rows data 1).
Proof.
  intros Hne Hh.
  destruct (render_memos dataType data fs Hh)
    as [v [Hv [Hrd [_ [_ [_ [_ [Hrows _]]]]]]]].
  assert (Heq : isEquipmentView dataType = false) by now destruct dataType.
  assert (Hhc : headerRowCount dataType = 1) by now destruct dataType.
  rewrite Heq, Hhc in *. rewrite reorderedData_stock in Hrd.
  injection Hrd as Hrd. exists v. split; [exact Hv|]. split.
  - unfold page. rewrite Heq, Hhc, <- Hrd, isFilterableView_true.
    unfold renderFilters, isAreaFiltered. cbn [negb andb].
    f_equal.
    destruct (v_filteredBodyRows v) as [|r rows] eqn:E.
    + cbn [length Nat.ltb Nat.leb]. f_equal. unfold body_rows.
      destruct data as [g|]; [|reflexivity].
      rewrite no_body_rows by lia. now destruct (slice_from g 1).
    + cbn [length Nat.ltb Nat.leb]. unfold head_rows. f_equal.
      * apply map_ext. intros r'. apply draw_row_stock.
      * apply map_ext. intros r'. apply draw_row_stock.
  - intros ->. rewrite Hrows, <- Hrd. apply filteredBodyRows_default.
Qed.

Lemma stock_page_witness :
  stock <> equipment
  /\ header_strings (Some example_stock)
  /\ exists v,
       render stock (Some example_stock) (search_for "pump") = Ok v
       /\ page stock (search_for "pump") v
          = Page
              (Some {| searchBar := true;
                       typeButtons :=
                         if (1 <? length (v_types v))%nat then Some (v_types v)
                         else None;
                       areaButtons := None;
                       cabinetSelect := None |})
              (match v_filteredBodyRows v with
               | [] =>
                   Message
                     (match body_rows (Some example_stock) 1 with
                      | [] => "No data found in this sheet."
                      | _ => "No items match the current filter."
                      end)
               | rows =>
                   Table (map numbered (head_rows (Some example_stock) 1))
                     (map numbered rows)
               end)
       /\ (search_for "pump" = fs_default ->
           v_filteredBodyRows v = body_rows (Some example_stock) 1).
Proof.
  assert (H1 : stock <> equipment) by discriminate.
  assert (H2 : header_strings (Some example_stock)) by (cbn; all_strings).
  split; [exact H1|]. split; [exact H2|].
  exact (stock_page stock (Some example_stock) (search_for "pump") H1 H2).
Defined.

Example stock_page_of_a_search :
  (v ← render stock (Some example_stock) (search_for "pump");
   Ok (page stock (search_for "pump") v))
  = Ok (Page
          (Some {| searchBar := true; typeButtons := None;
                   areaButtons := None; cabinetSelect := None |})
          (Table
             [[(0, Str "Area"); (1, Str "Cabinet"); (2, Str "Desc");
               (3, Str "Slot1"); (4, Str "Slot2")]]
             [[(0, Str "South"); (1, Str "C2"); (2, Str "Pump");
               (3, Str "2"); (4, Str "0")]])).
Proof. reflexivity. Qed.

Lemma draw_cells_from_filter (keep : Z -> bool) (r : row) (i0 : Z) :
  draw_cells_from keep r i0
  = List.filter (fun p => keep (fst p)) (imap (fun i c => (i0 + Z.of_nat i, c)) r).
Proof.
  revert i0. induction r as [|c r IH]; intros i0; [reflexivity|].
  cbn [draw_cells_from]. rewrite imap_cons. cbn [List.filter fst].
  rewrite Z.add_0_r, IH.
  assert (E : imap (fun i c0 => (i0 + 1 + Z.of_nat i, c0)) r
              = imap ((fun i c0 => (i0 + Z.of_nat i, c0)) ∘ S) r).
  { apply imap_ext. intros i x _. cbn. f_equal. lia. }
  now rewrite E.
Qed.

Lemma numbered_keys (r : row) (p : Z * cell) : In p (numbered r) -> 0 <= fst p.
Proof.
  intros H. apply list_elem_of_In, elem_of_lookup_imap_1 in H.
  destruct H as [i [x [-> _]]]. cbn. lia.
Qed.

Lemma draw_row_equipment (vis : gset Z) (selectedArea : string)
    (areaColumnIndex : Z) (r : row) :
  draw_row true (Some vis) (isAreaFiltered true selectedArea) areaColumnIndex r
  = columns vis
      (if String.eqb selectedArea "All" then None else Some areaColumnIndex) r.
Proof.
  unfold draw_row, columns. rewrite draw_cells_from_filter.
  assert (E : imap (fun i c => (0 + Z.of_nat i, c)) r = numbered r).
  { apply imap_ext. intros i x _. reflexivity. }
  rewrite E. apply filter_ext_in. intros p Hp. apply numbered_keys in Hp.
  unfold cell_drawn, isAreaFiltered. cbn [andb].
  destruct (bool_decide (fst p ∈ vis)); cbn [negb andb]; [|reflexivity].
  destruct (String.eqb selectedArea "All"); cbn [negb andb].
  - now rewrite bool_decide_eq_false_2.
  - destruct (Z.eqb_spec areaColumnIndex (-1)) as [->|Hne]; cbn [negb andb].
    + rewrite bool_decide_eq_false_2; [reflexivity|]. intros H. inversion H. lia.
    + destruct (Z.eqb_spec (fst p) areaColumnIndex) as [->|Hne'].
      * now rewrite bool_decide_eq_true_2.
      * rewrite bool_decide_eq_false_2; [reflexivity|]. intros H. inversion H.
        congruence.
Qed.

(** X16. The page of the equipment view.  On a grid whose header row 0
    holds strings: without a visible row the set of columns is [null] and
    a message is shown, 'No items match the current filter.' as soon as
    the grid has a data row; with a visible row the memo is a set, and the
    table draws the four header rows and every visible row with the same
    columns, those of the set without the area column once an area is
    selected, from left to right and each under the index of its column. *)
Theorem equipment_page (data : option grid) (fs : FilterState) :
  header_strings data ->
  exists v,
    render equipment data fs = Ok v
    /\ let ctl := renderFilters true true (v_types v) (v_areas v) (v_cabinets v) in
       let rd := v_reorderedData v in
       (v_filteredBodyRows v = [] ->
        v_visibleEquipmentColumns v = None
        /\ page equipment fs v
           = Page ctl
               (Message
                  (match body_rows rd 4 with
                   | [] => "No data found in this sheet."
                   | _ => "No items match the current filter."
                   end)))
       /\ (v_filteredBodyRows v <> [] ->
           exists vis,
             v_visibleEquipmentColumns v = Some vis
             /\ let hidden :=
                  if String.eqb (selectedArea fs) "All" then None
                  else Some (v_areaColumnIndex v) in
                page equipment fs v
                = Page ctl
                    (Table (map (columns vis hidden) (head_rows rd 4))
                       (map (columns vis hidden) (v_filteredBodyRows v)))).
Proof.
  intros Hh.
  destruct (render_memos equipment data fs Hh)
    as [v [Hv [_ [_ [_ [_ [_ [Hrows Hvis]]]]]]]].
  exists v. split; [exact Hv|]. cbv zeta.
  change (headerRowCount equipment) with 4 in *.
  change (isEquipmentView equipment) with true in *.
  change (isFilterableView equipment) with true in *.
  split.
  - intros E. split.
    + rewrite Hvis, E. unfold visibleEquipmentColumns.
      now destruct (v_reorderedData v).
    + unfold page. rewrite E.
      change (headerRowCount equipment) with 4.
      change (isEquipmentView equipment) with true.
      change (isFilterableView equipment) with true.
      cbn [length Nat.ltb Nat.leb]. f_equal. f_equal. unfold body_rows.
      destruct (v_reorderedData v) as [g|]; [|reflexivity].
      rewrite no_body_rows by lia. now destruct (slice_from g 4).
  - intros E.
    assert (Hg : exists g, v_reorderedData v = Some g).
    { destruct (v_reorderedData v) as [g|]; [now exists g|].
      exfalso. apply E. rewrite Hrows.
      unfold filteredBodyRows, type_pass, area_pass, cabinet_pass, search_pass,
        nonempty_pass. cbv zeta.
      repeat match goal with
             | |- context [if ?c then _ else _] => destruct c
             end; reflexivity. }
    destruct Hg as [g Hg].
    assert (Hs : exists vis, v_visibleEquipmentColumns v = Some vis).
    { rewrite Hvis, Hg. unfold visibleEquipmentColumns.
      destruct (v_filteredBodyRows v); [contradiction|]. cbn. now eexists. }
    destruct Hs as [vis Hs]. exists vis. split; [exact Hs|].
    unfold page.
    change (headerRowCount equipment) with 4.
    change (isEquipmentView equipment) with true.
    change (isFilterableView equipment) with true.
    rewrite Hs. destruct (v_filteredBodyRows v) as [|r rows] eqn:Er; [contradiction|].
    cbn [length Nat.ltb Nat.leb]. unfold head_rows. rewrite Hg. f_equal. f_equal.
    + apply map_ext. intros r'. apply draw_row_equipment.
    + apply map_ext. intros r'. apply draw_row_equipment.
Qed.

Lemma equipment_page_witness :
  header_strings (Some example_equipment)
  /\ exists v,
       render equipment (Some example_equipment) (select_area "North") = Ok v
       /\ let ctl := renderFilters true true (v_types v) (v_areas v) (v_cabinets v) in
          let rd := v_reorderedData v in
          (v_filteredBodyRows v = [] ->
           v_visibleEquipmentColumns v = None
           /\ page equipment (select_area "North") v
              = Page ctl
                  (Message
                     (match body_rows rd 4 with
                      | [] => "No data found in this sheet."
                      | _ => "No items match the current filter."
                      end)))
          /\ (v_filteredBodyRows v <> [] ->
              exists vis,
                v_visibleEquipmentColumns v = Some vis
                /\ let hidden :=
                     if String.eqb (selectedArea (select_area "North")) "All" then None
                     else Some (v_areaColumnIndex v) in
                   page equipment (select_area "North") v
                   = Page ctl
                       (Table (map (columns vis hidden) (head_rows rd 4))
                          (map (columns vis hidden) (v_filteredBodyRows v)))).
Proof.
  assert (H : header_strings (Some example_equipment)) by (cbn; all_strings).
  split; [exact H|].
  exact (equipment_page (Some example_equipment) (select_area "North") H).
Defined.

Example equipment_page_of_an_area :
  (v ← render equipment (Some example_equipment) (select_area "North");
   Ok (page equipment (select_area "North") v))
  = Ok (Page
          (Some {| searchBar := false; typeButtons := None;
                   areaButtons := Some [Str "All"; Str "North"; Str "South"];
                   cabinetSelect := Some [Str "All"; Str "C1"] |})
          (Table
             [[(1, Str "Cabinet"); (2, Str "Desc"); (4, Str "Slot2")];
              [(1, Str ""); (2, Str ""); (4, Str "B")];
              [(1, Str ""); (2, Str ""); (4, Str "2")];
              [(1, Str ""); (2, Str ""); (4, Str "y")]]
             [[(1, Str "C1"); (2, Str "Valve"); (4, Str "3")]])).
Proof. vm_compute. reflexivity. Qed.

(** ** App and AreaPage: the navigation *)

Lemma route_leads (a : Area) (v : ViewType.t) :
  clicks (route a v) HomePage = Some (AreaPage a v).
Proof. destruct a, v; vm_compute; reflexivity. Qed.

(** X17. Every view can be reached in every area.  [AreaPage] keeps its
    view when another area is chosen from its header, so that a view
    opened from the dashboard of one area is then shown for an area whose
    own dashboard has no button for it; in particular [SheetDataViewer]
    is rendered for every pair of an area and a dataset, although no
    dashboard offers 'stock' for E/WTP, nor 'stock_abb' or 'stock_supcon'
    for the other areas. *)
Theorem every_view_in_every_area :
  (forall a v, exists acts, clicks acts HomePage = Some (AreaPage a v))
  /\ (forall a d,
        exists acts v title,
          clicks acts HomePage = Some (AreaPage a v)
          /\ renderView a v = SheetDataViewer title a d)
  /\ (forall a d, offered a (view_of d)
                  <-> d = equipment \/ (a = EWTP <-> d = stock_abb \/ d = stock_supcon)).
Proof.
  split; [|split].
  - intros a v. exists (route a v). apply route_leads.
  - intros a d. exists (route a (view_of d)), (view_of d).
    destruct d; eexists; (split; [apply route_leads | reflexivity]).
  - intros a d. unfold offered.
    destruct a, d; apply (bool_decide_unpack _); vm_compute; exact I.
Qed.

Lemma otherAreas_spec (a b : Area) : b ∈ otherAreas a <-> b <> a.
Proof. destruct a, b; apply (bool_decide_unpack _); vm_compute; exact I. Qed.

(** X18. A mounted viewer never changes its dataset.  Whatever is clicked
    while [AreaPage] shows a [SheetDataViewer], the page goes home, goes
    back to the dashboard of the area, or shows the same view for another
    area: the viewer is unmounted, or it gets a new [area] with the title
    and the [dataType] it had. *)
Theorem viewer_keeps_its_dataset (a : Area) (v : ViewType.t) (title : string)
    (d : DataType) (act : Action) (t' : Tree) :
  renderView a v = SheetDataViewer title a d ->
  click act (AreaPage a v) = Some t' ->
  t' = HomePage
  \/ t' = AreaPage a ViewType.dashboard
  \/ exists b, b <> a /\ t' = AreaPage b v
               /\ renderView b v = SheetDataViewer title b d.
Proof.
  intros Hr Hc.
  assert (Hv : v <> ViewType.dashboard) by (intros ->; discriminate).
  destruct act as [|b| |b|w]; cbn in Hc.
  - left. now inversion Hc.
  - discriminate.
  - rewrite bool_decide_eq_false_2 in Hc by exact Hv. right. left. now inversion Hc.
  - case_bool_decide as Hb; [|discriminate]. apply otherAreas_spec in Hb.
    right. right. exists b. split; [exact Hb|]. split; [now inversion Hc|].
    destruct v; cbn in Hr |- *; try discriminate; now inversion Hr.
  - rewrite bool_decide_eq_false_2 in Hc by exact Hv. discriminate.
Qed.

Lemma viewer_keeps_its_dataset_witness :
  renderView PULP2 ViewType.stock = SheetDataViewer "Stock & Status" PULP2 stock
  /\ click (ClickOtherArea EWTP) (AreaPage PULP2 ViewType.stock)
     = Some (AreaPage EWTP ViewType.stock)
  /\ (AreaPage EWTP ViewType.stock = HomePage
      \/ AreaPage EWTP ViewType.stock = AreaPage PULP2 ViewType.dashboard
      \/ exists b, b <> PULP2 /\ AreaPage EWTP ViewType.stock = AreaPage b ViewType.stock
                   /\ renderView b ViewType.stock
                      = SheetDataViewer "Stock & Status" b stock).
Proof.
  assert (H1 : renderView PULP2 ViewType.stock
               = SheetDataViewer "Stock & Status" PULP2 stock) by reflexivity.
  assert (H2 : click (ClickOtherArea EWTP) (AreaPage PULP2 ViewType.stock)
               = Some (AreaPage EWTP ViewType.stock)) by reflexivity.
  split; [exact H1|]. split; [exact H2|].
  exact (viewer_keeps_its_dataset PULP2 ViewType.stock "Stock & Status" stock
           (ClickOtherArea EWTP) (AreaPage EWTP ViewType.stock) H1 H2).
Defined.

(** X19. Choosing another area inside a data view reloads the viewer.
    When [AreaPage] shows a mounted [SheetDataViewer] and a button of
    [otherAreas] is clicked, the viewer stays mounted and gets the new
    area with the same dataset: the old run is cancelled, one initial
    request for the new area is sent, the filters are reset, the grid of
    the old area stays in the state and the spinner is shown. *)
Theorem other_area_reloads_viewer (a0 : Area) (d0 : DataType) (evs : list Event)
    (v : ViewType.t) (title : string) (b : Area) :
  let st := run_events evs (mount a0 d0) in
  alive st = true ->
  renderView (area st) v = SheetDataViewer title (area st) (dataType st) ->
  b ∈ otherAreas (area st) ->
  click (ClickOtherArea b) (AreaPage (area st) v) = Some (AreaPage b v)
  /\ renderView b v = SheetDataViewer title b (dataType st)
  /\ cancels (Props b (dataType st)) st
  /\ step (Props b (dataType st)) st = restarted b (dataType st) st
  /\ screen (step (Props b (dataType st)) st)
     = (_ ← render (dataType st) (data st) fs_default; Ok Spinner).
Proof.
  intros st Ha Hr Hb.
  destruct (reachable_ok a0 d0 evs) as [Hinv Hl]. fold st in Hinv, Hl.
  clearbody st.
  assert (Hne : b <> area st) by now apply otherAreas_spec.
  assert (Hne' : (b, dataType st) <> (area st, dataType st)) by congruence.
  assert (Hstep : step (Props b (dataType st)) st = restarted b (dataType st) st).
  { apply step_props_change; auto.
    - now apply (proj2 Hinv).
    - now apply latest_flags_ok. }
  split; [|split; [|split; [|split]]].
  - cbn. now rewrite bool_decide_eq_true_2.
  - destruct v; cbn in Hr |- *; try discriminate; now inversion Hr.
  - right. now exists b, (dataType st).
  - exact Hstep.
  - rewrite Hstep. unfold screen, restarted. cbn.
    now destruct (render (dataType st) (data st) fs_default).
Qed.

Lemma other_area_reloads_viewer_witness :
  let st := run_events [Settled 0 true sample_response; ClickType "Spare"]
              (mount PULP2 stock) in
  alive st = true
  /\ renderView (area st) ViewType.stock
     = SheetDataViewer "Stock & Status" (area st) (dataType st)
  /\ EWTP ∈ otherAreas (area st)
  /\ (click (ClickOtherArea EWTP) (AreaPage (area st) ViewType.stock)
      = Some (AreaPage EWTP ViewType.stock)
      /\ renderView EWTP ViewType.stock
         = SheetDataViewer "Stock & Status" EWTP (dataType st)
      /\ cancels (Props EWTP (dataType st)) st
      /\ step (Props EWTP (dataType st)) st = restarted EWTP (dataType st) st
      /\ screen (step (Props EWTP (dataType st)) st)
         = (_ ← render (dataType st) (data st) fs_default; Ok Spinner)).
Proof.
  intros st.
  assert (H1 : alive st = true) by reflexivity.
  assert (H2 : renderView (area st) ViewType.stock
               = SheetDataViewer "Stock & Status" (area st) (dataType st))
    by reflexivity.
  assert (H3 : EWTP ∈ otherAreas (area st)).
  { apply otherAreas_spec. change (area st) with PULP2. discriminate. }
  split; [exact H1|]. split; [exact H2|]. split; [exact H3|].
  exact (other_area_reloads_viewer PULP2 stock
           [Settled 0 true sample_response; ClickType "Spare"]
           ViewType.stock "Stock & Status" EWTP H1 H2 H3).
Defined.

(** ** CreateCustomerForm: the request and the submission *)

(** X20. The request of a submission, by area and view.  Whatever view
    and area [AreaPage] renders the form for, the body has the ten entries
    in this order, 'sheetName' always among them; the sheet and the
    action follow the area, and the view tells the SUPCON form from the
    other one for E/WTP only: the SUPCON form shown for Pulp 2 or NPP11
    posts what their own form posts. *)
Theorem form_request_by_view (Date_fields : Z -> Z -> Z -> option (Z * Z * Z))
    (a : Area) (v : ViewType.t) (title : string) (fv : option FormVariant)
    (fd : Form.FormData) :
  renderView a v = CreateCustomerForm a title fv ->
  Form.formBody Date_fields a fv fd
  = [("action", action_of a v); ("area", Area_string a);
     ("sheetName", sheet_of a v);
     ("date", Form.formatDateToCustomString Date_fields (Form.date fd));
     ("equipment", Form.equipment fd); ("model", Form.model fd);
     ("number", Form.number fd); ("addOrUse", Form.addOrUse fd);
     ("status", Form.status fd); ("recordBy", Form.recordBy fd)]
  /\ Form.options_action a fv = options_of a v
  /\ (title = "Create New Stock Entry (SUPCON)"
      <-> v = ViewType.customer_form_supcon).
Proof.
  intros Hr.
  destruct v; cbn in Hr; try discriminate; inversion Hr; subst; clear Hr;
    destruct a; (split; [reflexivity|]); (split; [reflexivity|]);
    split; intros H; try reflexivity; try discriminate.
Qed.

Lemma form_request_by_view_witness :
  let fd := Form.initialFormData "2025-10-05" in
  renderView PULP2 ViewType.customer_form_supcon
  = CreateCustomerForm PULP2 "Create New Stock Entry (SUPCON)" (Some supcon)
  /\ Form.formBody calendar_Date PULP2 (Some supcon) fd
     = [("action", action_of PULP2 ViewType.customer_form_supcon);
        ("area", Area_string PULP2);
        ("sheetName", sheet_of PULP2 ViewType.customer_form_supcon);
        ("date", Form.formatDateToCustomString calendar_Date (Form.date fd));
        ("equipment", Form.equipment fd); ("model", Form.model fd);
        ("number", Form.number fd); ("addOrUse", Form.addOrUse fd);
        ("status", Form.status fd); ("recordBy", Form.recordBy fd)]
  /\ Form.options_action PULP2 (Some supcon)
     = options_of PULP2 ViewType.customer_form_supcon
  /\ ("Create New Stock Entry (SUPCON)" = "Create New Stock Entry (SUPCON)"
      <-> ViewType.customer_form_supcon = ViewType.customer_form_supcon).
Proof.
  intros fd.
  assert (H : renderView PULP2 ViewType.customer_form_supcon
              = CreateCustomerForm PULP2 "Create New Stock Entry (SUPCON)"
                  (Some supcon)) by reflexivity.
  split; [exact H|].
  exact (form_request_by_view calendar_Date PULP2 ViewType.customer_form_supcon
           "Create New Stock Entry (SUPCON)" (Some supcon) fd H).
Defined.

Example supcon_form_of_pulp2 :
  Form.formBody calendar_Date PULP2 (Some supcon) (Form.initialFormData "2025-10-05")
  = [("action", "createStockEntry"); ("area", "Pulp 2");
     ("sheetName", "Pulp 2 Customerinfor"); ("date", "5/Oct/2025");
     ("equipment", ""); ("model", ""); ("number", ""); ("addOrUse", "Add");
     ("status", "พร้อมใช้"); ("recordBy", "")].
Proof. reflexivity. Qed.

Section FormMachine.

Variable Date_fields : Z -> Z -> Z -> option (Z * Z * Z).
Variable area : Area.
Variable formVariant : option FormVariant.

Lemma thrown_truthy (resp : Form.SubmitResponse) (m : string) :
  Form.thrown resp = Some m ->
  truthy (if truthy m then m else "{}") = true.
Proof. intros _. now destruct m. Qed.

Lemma form_step_ok (ev : Form.Event) (st : Form.State) :
  form_ok st -> form_ok (Form.step Date_fields area formVariant ev st).
Proof.
  intros [Hi [Hs [He Hk]]]. destruct st as [fd sub stat msg po inf tm].
  cbn in Hi, Hs, He, Hk.
  destruct ev as [name value| |today resp|]; unfold form_ok; cbn.
  - auto.
  - unfold Form.handleSubmit; cbn. destruct sub; cbn; [auto|].
    subst inf. repeat split; auto; discriminate.
  - unfold Form.resume; cbn. destruct inf as [|n]; cbn; [auto|].
    destruct sub; [|discriminate]. injection Hi as ->.
    destruct (Hs eq_refl) as [-> ->].
    destruct (Form.thrown resp) as [m|] eqn:Hm; cbn;
      repeat split; auto; try discriminate.
    intros _. now apply (thrown_truthy resp).
  - unfold Form.timeout; cbn. destruct tm as [|n]; cbn; [auto|].
    repeat split; auto; try discriminate. now apply Hs.
Qed.

Lemma form_run_ok (evs : list Form.Event) (st : Form.State) :
  form_ok st -> form_ok (Form.run_events Date_fields area formVariant evs st).
Proof.
  revert st. induction evs as [|ev evs IH]; intros st H; [exact H|].
  cbn. apply IH. now apply form_step_ok.
Qed.

Lemma form_initial_ok (today : string) : form_ok (Form.initial today).
Proof. unfold form_ok; cbn. repeat split; auto; discriminate. Qed.

(** X21. One submission at a time.  In every state the form goes
    through, a request is in flight exactly while [isSubmitting] is set,
    and never more than one: a submit made meanwhile posts nothing.  The
    response ends the submission whatever it is: a result that reports
    success puts the form back to its initial values and sets the status
    'success'; anything else leaves what the user entered, sets the status
    'error' and a message that is not empty. *)
Theorem one_submission_at_a_time (today : string) (evs : list Form.Event) :
  let st := Form.run_events Date_fields area formVariant evs (Form.initial today) in
  Form.inflight st = (if Form.isSubmitting st then 1 else 0)%nat
  /\ (Form.isSubmitting st = true ->
      Form.step Date_fields area formVariant Form.Submit st = st
      /\ forall today' resp,
           let st' := Form.step Date_fields area formVariant
                        (Form.Response today' resp) st in
           Form.isSubmitting st' = false /\ Form.inflight st' = O
           /\ Form.posted st' = Form.posted st
           /\ match Form.thrown resp with
              | None =>
                  Form.formData st' = Form.initialFormData today'
                  /\ Form.submitStatus st' = Form.success
              | Some m =>
                  Form.formData st' = Form.formData st
                  /\ Form.submitStatus st' = Form.error
                  /\ Form.errorMessage st' = (if truthy m then m else "{}")
                  /\ Form.errorMessage st' <> ""
              end)
  /\ (Form.isSubmitting st = false ->
      Form.posted (Form.step Date_fields area formVariant Form.Submit st)
      = Form.posted st ++ [Form.formBody Date_fields area formVariant (Form.formData st)]).
Proof.
  intros st.
  pose proof (form_run_ok evs _ (form_initial_ok today)) as [Hi [Hs _]].
  fold st in Hi, Hs. clearbody st. split; [exact Hi|]. split.
  - intros Hsub. rewrite Hsub in Hi. split.
    + cbn. unfold Form.handleSubmit. now rewrite Hsub.
    + intros today' resp. cbn. unfold Form.resume. rewrite Hi.
      destruct (Form.thrown resp) as [m|] eqn:Hm; cbn; repeat split.
      now destruct m.
  - intros Hsub. cbn. unfold Form.handleSubmit. now rewrite Hsub.
Qed.

(** X22. The timer of a success is never cleared.  After a submission
    that succeeded and a second one that failed, the status is 'error';
    the timer set by the first then puts it back to 'idle', which takes
    the error panel, message and all, off the page. *)
Theorem success_timer_hides_error (today : string) (evs : list Form.Event)
    (t1 t2 : string) (ok failed : Form.SubmitResponse) (m : string) :
  let st := Form.run_events Date_fields area formVariant evs (Form.initial today) in
  Form.isSubmitting st = false ->
  Form.thrown ok = None ->
  Form.thrown failed = Some m ->
  let st' :=
    Form.run_events Date_fields area formVariant
      [Form.Submit; Form.Response t1 ok; Form.Submit; Form.Response t2 failed] st in
  Form.submitStatus st' = Form.error
  /\ Form.timers st' = S (Form.timers st)
  /\ Form.submitStatus (Form.step Date_fields area formVariant Form.Timeout st')
     = Form.idle.
Proof.
  intros st Hsub Hok Hfail.
  pose proof (form_run_ok evs _ (form_initial_ok today)) as [Hi _].
  fold st in Hi. clearbody st. rewrite Hsub in Hi.
  destruct st as [fd sub stat msg po inf tm]. cbn in Hsub, Hi. subst sub inf.
  cbn. unfold Form.handleSubmit, Form.resume; cbn. rewrite Hok; cbn.
  rewrite Hfail; cbn. now repeat split.
Qed.

End FormMachine.

Lemma success_timer_hides_error_witness :
  let st := Form.run_events calendar_Date EWTP (Some abb)
              [Form.Change Form.Model "EJA530E"] (Form.initial "2025-10-05") in
  let ok := Form.Result true None in
  let failed := Form.FetchRejected "Failed to fetch" in
  Form.isSubmitting st = false
  /\ Form.thrown ok = None
  /\ Form.thrown failed = Some "Failed to fetch"
  /\ let st' :=
       Form.run_events calendar_Date EWTP (Some abb)
         [Form.Submit; Form.Response "2025-10-05" ok; Form.Submit;
          Form.Response "2025-10-05" failed] st in
     Form.submitStatus st' = Form.error
     /\ Form.timers st' = S (Form.timers st)
     /\ Form.submitStatus (Form.step calendar_Date EWTP (Some abb) Form.Timeout st')
        = Form.idle.
Proof.
  intros st ok failed.
  assert (H1 : Form.isSubmitting st = false) by reflexivity.
  assert (H2 : Form.thrown ok = None) by reflexivity.
  assert (H3 : Form.thrown failed = Some "Failed to fetch") by reflexivity.
  split; [exact H1|]. split; [exact H2|]. split; [exact H3|].
  exact (success_timer_hides_error calendar_Date EWTP (Some abb) "2025-10-05"
           [Form.Change Form.Model "EJA530E"] "2025-10-05" "2025-10-05"
           ok failed "Failed to fetch" H1 H2 H3).
Defined.

(** ** CreateCustomerForm: the date of a submission *)

Lemma split_length (sep : ascii) (s : string) :
  length (Form.split sep s) = S (count_char sep s).
Proof.
  induction s as [|c s IH]; [reflexivity|]. cbn [Form.split count_char].
  destruct (Ascii.eqb c sep); cbn; [now rewrite IH|].
  destruct (Form.split sep s) as [|p ps]; [discriminate|]. cbn in *. lia.
Qed.

Lemma split_app (sep : ascii) (s1 s2 : string) :
  count_char sep s1 = O ->
  Form.split sep (s1 ++ String sep s2) = s1 :: Form.split sep s2.
Proof.
  induction s1 as [|c s1 IH]; intros H.
  - change (EmptyString ++ String sep s2)%string with (String sep s2).
    cbn [Form.split]. now rewrite Ascii.eqb_refl.
  - change (String c s1 ++ String sep s2)%string
      with (String c (s1 ++ String sep s2)).
    cbn [Form.split count_char] in *.
    destruct (Ascii.eqb c sep); [discriminate|]. now rewrite IH.
Qed.

Lemma split_whole (sep : ascii) (s : string) :
  count_char sep s = O -> Form.split sep s = [s].
Proof.
  induction s as [|c s IH]; intros H; [reflexivity|].
  cbn [Form.split count_char] in *.
  destruct (Ascii.eqb c sep); [discriminate|]. now rewrite IH.
Qed.

Lemma truthy_nonempty (s : string) : s <> "" -> truthy s = true.
Proof. destruct s; [contradiction|reflexivity]. Qed.

Lemma formatDate_parts (Date_fields : Z -> Z -> Z -> option (Z * Z * Z))
    (isoDate : string) :
  isoDate <> "" ->
  Form.formatDateToCustomString Date_fields isoDate
  = match (Form.split "-" isoDate !! 0%nat) ≫= parseInt10,
          (Form.split "-" isoDate !! 1%nat) ≫= parseInt10,
          (Form.split "-" isoDate !! 2%nat) ≫= parseInt10 with
    | Some y, Some m, Some d =>
        match Date_fields y (m - 1) d with
        | Some (dayOfMonth, month, fullYear) =>
            (Form.Number_string (Some dayOfMonth) ++ "/"
             ++ default "undefined"
                  (if (month <? 0)%Z then None else Form.monthNames !! Z.to_nat month)
             ++ "/" ++ Form.Number_string (Some fullYear))%string
        | None => "NaN/undefined/NaN"
        end
    | _, _, _ => "NaN/undefined/NaN"
    end.
Proof.
  intros Hne. unfold Form.formatDateToCustomString.
  rewrite (truthy_nonempty _ Hne). cbn [negb]. cbv zeta.
  destruct (Form.split "-" isoDate !! 0%nat) as [s0|];
    destruct (Form.split "-" isoDate !! 1%nat) as [s1|];
    destruct (Form.split "-" isoDate !! 2%nat) as [s2|];
    cbn [mbind option_bind];
    try destruct (parseInt10 s0); try destruct (parseInt10 s1);
    try destruct (parseInt10 s2); cbn [fmap option_fmap option_map];
    try reflexivity.
  destruct (Date_fields _ _ _) as [[[dd mm] yy]|]; reflexivity.
Qed.

(** X23. A date that is not a date.  For a string that is not empty
    and has fewer than two '-', or one of whose first three parts between
    '-' does not start with a number, the result is 'NaN/undefined/NaN',
    whatever [Date] does: nothing throws, so the string is not handed back
    as it is. *)
Theorem formatDate_malformed (Date_fields : Z -> Z -> Z -> option (Z * Z * Z))
    (isoDate : string) :
  isoDate <> "" ->
  (count_char "-" isoDate < 2)%nat
  \/ (exists i, (i < 3)%nat /\ (Form.split "-" isoDate !! i) ≫= parseInt10 = None) ->
  Form.formatDateToCustomString Date_fields isoDate = "NaN/undefined/NaN".
Proof.
  intros Hne H. rewrite (formatDate_parts _ _ Hne).
  assert (H' : exists i, (i < 3)%nat
                         /\ (Form.split "-" isoDate !! i) ≫= parseInt10 = None).
  { destruct H as [H|H]; [|exact H]. exists 2%nat. split; [lia|].
    rewrite lookup_ge_None_2; [reflexivity|]. rewrite split_length. lia. }
  clear H. destruct H' as [i [Hi H]].
  destruct i as [|[|[|i]]]; [| | |lia]; rewrite H;
    repeat match goal with
           | |- context [match ?x with _ => _ end] => destruct x
           end; reflexivity.
Qed.

Lemma formatDate_malformed_witness :
  "05/10/2025" <> ""
  /\ ((count_char "-" "05/10/2025" < 2)%nat
      \/ (exists i, (i < 3)%nat
                    /\ (Form.split "-" "05/10/2025" !! i) ≫= parseInt10 = None))
  /\ Form.formatDateToCustomString calendar_Date "05/10/2025" = "NaN/undefined/NaN".
Proof.
  assert (H1 : "05/10/2025" <> "") by discriminate.
  assert (H2 : (count_char "-" "05/10/2025" < 2)%nat
               \/ (exists i, (i < 3)%nat
                     /\ (Form.split "-" "05/10/2025" !! i) ≫= parseInt10 = None)).
  { left. cbn. lia. }
  split; [exact H1|]. split; [exact H2|].
  exact (formatDate_malformed calendar_Date "05/10/2025" H1 H2).
Defined.

(** X24. A date of three fields.  For a string of three parts between
    two '-' that start with the numbers y, m and d, the result is made of
    the fields of [new Date(y, m - 1, d)]: the day and the year as plain
    numbers, without leading zeros, and the name of the month between
    them. *)
Theorem formatDate_fields (Date_fields : Z -> Z -> Z -> option (Z * Z * Z))
    (ys ms ds : string) (y m d : Z) :
  count_char "-" ys = O -> count_char "-" ms = O -> count_char "-" ds = O ->
  parseInt10 ys = Some y -> parseInt10 ms = Some m -> parseInt10 ds = Some d ->
  Form.formatDateToCustomString Date_fields (ys ++ "-" ++ ms ++ "-" ++ ds)
  = match Date_fields y (m - 1) d with
    | Some (dayOfMonth, month, fullYear) =>
        (Form.Number_string (Some dayOfMonth) ++ "/"
         ++ default "undefined"
              (if (month <? 0)%Z then None else Form.monthNames !! Z.to_nat month)
         ++ "/" ++ Form.Number_string (Some fullYear))%string
    | None => "NaN/undefined/NaN"
    end.
Proof.
  intros Hy Hm Hd Py Pm Pd.
  assert (Hne : (ys ++ "-" ++ ms ++ "-" ++ ds)%string <> "") by now destruct ys.
  rewrite (formatDate_parts _ _ Hne).
  change ("-" ++ ms ++ "-" ++ ds)%string with (String "-" (ms ++ "-" ++ ds)).
  rewrite (split_app "-" ys _ Hy).
  change ("-" ++ ds)%string with (String "-" ds).
  rewrite (split_app "-" ms _ Hm), (split_whole "-" ds Hd).
  cbn [lookup list_lookup mbind option_bind]. now rewrite Py, Pm, Pd.
Qed.

Lemma formatDate_fields_witness :
  count_char "-" "2025" = O /\ count_char "-" "10" = O /\ count_char "-" "05" = O
  /\ parseInt10 "2025" = Some 2025 /\ parseInt10 "10" = Some 10
  /\ parseInt10 "05" = Some 5
  /\ Form.formatDateToCustomString calendar_Date ("2025" ++ "-" ++ "10" ++ "-" ++ "05")
     = match calendar_Date 2025 (10 - 1) 5 with
       | Some (dayOfMonth, month, fullYear) =>
           (Form.Number_string (Some dayOfMonth) ++ "/"
            ++ default "undefined"
                 (if (month <? 0)%Z then None else Form.monthNames !! Z.to_nat month)
            ++ "/" ++ Form.Number_string (Some fullYear))%string
       | None => "NaN/undefined/NaN"
       end.
Proof.
  assert (H1 : count_char "-" "2025" = O) by reflexivity.
  assert (H2 : count_char "-" "10" = O) by reflexivity.
  assert (H3 : count_char "-" "05" = O) by reflexivity.
  assert (H4 : parseInt10 "2025" = Some 2025) by reflexivity.
  assert (H5 : parseInt10 "10" = Some 10) by reflexivity.
  assert (H6 : parseInt10 "05" = Some 5) by reflexivity.
  repeat (split; [assumption|]).
  exact (formatDate_fields calendar_Date "2025" "10" "05" 2025 10 5
           H1 H2 H3 H4 H5 H6).
Defined.

Example formatDate_drops_the_zero :
  Form.formatDateToCustomString calendar_Date "2025-10-05" = "5/Oct/2025"
  /\ Form.formatDateToCustomString calendar_Date "" = ""
  /\ Form.formatDateToCustomString calendar_Date "2025-10" = "NaN/undefined/NaN".
Proof. repeat split; reflexivity. Qed.

(** ** GridFetcher: the timer and the filter controls *)

(** X25. A tick of the timer.  In a mounted component the timer of the
    run that listens sends one request for the current area and dataset,
    with [isInitialLoad] false, and changes nothing else: neither the
    spinner nor the error, the data or the filters. *)
Theorem tick_polls (a : Area) (d : DataType) (evs : list Event) :
  let st := run_events evs (mount a d) in
  alive st = true ->
  exists run,
    intervalId st = Some run
    /\ isMounted st !! run = Some true
    /\ step Tick st = fetchData run false st
    /\ requests (step Tick st)
       = requests st ++ [{| req_area := area st; req_type := dataType st;
                            req_run := run; req_isInitialLoad := false |}]
    /\ core (step Tick st) = core st
    /\ filters (step Tick st) = filters st.
Proof.
  intros st Ha. destruct (reachable_ok a d evs) as [Hinv Hl]. fold st in Hinv, Hl.
  clearbody st. pose proof (step_cases Tick st Hinv Hl) as Hc.
  unfold step_outcome in Hc. rewrite Ha in Hc.
  unfold latest_run_listens in Hl. rewrite Ha in Hl. destruct Hl as [n [Hm Hn]].
  rewrite Hn in Hc. exists n. split; [exact Hn|]. split.
  - rewrite Hm, lookup_app_r by (rewrite length_replicate; lia).
    now rewrite length_replicate, Nat.sub_diag.
  - rewrite Hc. now repeat split.
Qed.

Lemma tick_polls_witness :
  let st := run_events [Settled 0 true sample_response] (mount NPP11 equipment) in
  alive st = true
  /\ exists run,
       intervalId st = Some run
       /\ isMounted st !! run = Some true
       /\ step Tick st = fetchData run false st
       /\ requests (step Tick st)
          = requests st ++ [{| req_area := area st; req_type := dataType st;
                               req_run := run; req_isInitialLoad := false |}]
       /\ core (step Tick st) = core st
       /\ filters (step Tick st) = filters st.
Proof.
  intros st. assert (Ha : alive st = true) by reflexivity.
  split; [exact Ha|].
  exact (tick_polls NPP11 equipment [Settled 0 true sample_response] Ha).
Defined.

Lemma commit_once_area_changed (st : State) :
  deps_fetch st = Some (area st, dataType st) ->
  deps_selectedArea st <> Some (selectedArea (filters st)) ->
  commit st = effect_selectedArea st.
Proof.
  intros Hd Hs. unfold commit.
  assert (E : commit_once st = effect_selectedArea st).
  { unfold commit_once.
    rewrite (bool_decide_eq_false_2 (deps_selectedArea st = _)) by exact Hs.
    now rewrite bool_decide_eq_true_2. }
  rewrite E. apply commit_once_settled. split; [reflexivity|exact Hd].
Qed.

Lemma filter_events (st : State) (v : string) :
  settled st -> alive st = true ->
  step (ClickType v) st = setSelectedType v st
  /\ step (ChangeCabinet v) st = setSelectedCabinet v st
  /\ step (ChangeSearch v) st = setSearchTerm v st
  /\ filters (step (ClickArea v) st)
     = {| selectedType := selectedType (filters st);
          selectedArea := v;
          selectedCabinet :=
            if String.eqb v (selectedArea (filters st))
            then selectedCabinet (filters st) else "All";
          searchTerm := searchTerm (filters st) |}
  /\ core (step (ClickArea v) st) = core st
  /\ requests (step (ClickArea v) st) = requests st.
Proof.
  intros [Hs1 Hs2] Ha.
  assert (Hstep : forall ev st',
             handle ev st = st' -> alive st' = true -> step ev st = commit st').
  { intros ev st' <- H. unfold step. now rewrite H. }
  split; [|split; [|split; [|split; [|split]]]].
  - rewrite (Hstep _ (setSelectedType v st)); [|cbn; now rewrite Ha|exact Ha].
    apply commit_settled. now split.
  - rewrite (Hstep _ (setSelectedCabinet v st)); [|cbn; now rewrite Ha|exact Ha].
    apply commit_settled. now split.
  - rewrite (Hstep _ (setSearchTerm v st)); [|cbn; now rewrite Ha|exact Ha].
    apply commit_settled. now split.
  - rewrite (Hstep _ (setSelectedArea v st)); [|cbn; now rewrite Ha|exact Ha].
    destruct (String.eqb_spec v (selectedArea (filters st))) as [->|Hne].
    + rewrite commit_settled; [now destruct st as [? ? ? ? ? []]|]. now split.
    + rewrite commit_once_area_changed; [reflexivity|exact Hs2|].
      cbn. rewrite Hs1. congruence.
  - exact (proj1 (filter_event_core (ClickArea v) st (conj Hs1 Hs2))).
  - exact (proj2 (filter_event_core (ClickArea v) st (conj Hs1 Hs2))).
Qed.

(** X26. The filter controls.  In a mounted component a click on a type
    button, a change of the cabinet select and a change of the search box
    set their own filter and nothing else; a click on an area button sets
    the area, and puts the cabinet back to 'All' unless the area is the
    one already selected.  None of them sends a request or touches the
    data, the spinner or the error. *)
Theorem filter_controls (a : Area) (d : DataType) (evs : list Event) (v : string) :
  let st := run_events evs (mount a d) in
  alive st = true ->
  step (ClickType v) st = setSelectedType v st
  /\ step (ChangeCabinet v) st = setSelectedCabinet v st
  /\ step (ChangeSearch v) st = setSearchTerm v st
  /\ filters (step (ClickArea v) st)
     = {| selectedType := selectedType (filters st);
          selectedArea := v;
          selectedCabinet :=
            if String.eqb v (selectedArea (filters st))
            then selectedCabinet (filters st) else "All";
          searchTerm := searchTerm (filters st) |}
  /\ core (step (ClickArea v) st) = core st
  /\ requests (step (ClickArea v) st) = requests st.
Proof.
  intros st Ha. destruct (reachable_ok a d evs) as [[_ Hs] _]. fold st in Hs.
  clearbody st. apply filter_events; auto.
Qed.

Lemma filter_controls_witness :
  let st := run_events [Settled 0 true sample_response; ClickArea "North";
                        ChangeCabinet "C1"] (mount NPP11 equipment) in
  alive st = true
  /\ step (ClickType "South") st = setSelectedType "South" st
  /\ step (ChangeCabinet "South") st = setSelectedCabinet "South" st
  /\ step (ChangeSearch "South") st = setSearchTerm "South" st
  /\ filters (step (ClickArea "South") st)
     = {| selectedType := selectedType (filters st);
          selectedArea := "South";
          selectedCabinet :=
            if String.eqb "South" (selectedArea (filters st))
            then selectedCabinet (filters st) else "All";
          searchTerm := searchTerm (filters st) |}
  /\ core (step (ClickArea "South") st) = core st
  /\ requests (step (ClickArea "South") st) = requests st.
Proof.
  intros st. assert (Ha : alive st = true) by reflexivity.
  split; [exact Ha|].
  exact (filter_controls NPP11 equipment
           [Settled 0 true sample_response; ClickArea "North"; ChangeCabinet "C1"]
           "South" Ha).
Defined.

Lemma render_cabinets (dataType : DataType) (data : option grid) (fs : FilterState)
    (v : View) :
  render dataType data fs = Ok v ->
  cabinets_memo (isEquipmentView dataType) (v_reorderedData v) (selectedArea fs)
    (v_areaColumnIndex v) (headerRowCount dataType)
  = Ok (v_cabinets v, v_cabinetColumnIndex v).
Proof.
  unfold render.
  destruct (reorderedData (isEquipmentView dataType) data) as [rd|];
    cbn [mbind result_bind]; [|discriminate].
  destruct (types_memo _ rd _) as [[ts ti]|]; cbn [mbind result_bind]; [|discriminate].
  destruct (areas_memo rd _) as [[ars ai]|]; cbn [mbind result_bind]; [|discriminate].
  destruct (cabinets_memo _ rd _ ai _) as [[cs ci]|] eqn:E;
    cbn [mbind result_bind]; [|discriminate].
  intros H. inversion H; subst. exact E.
Qed.

Lemma controls_inv (st : State) (ctl : Controls) :
  controls_shown st = Some ctl ->
  exists v,
    render (dataType st) (data st) (filters st) = Ok v
    /\ renderFilters (isFilterableView (dataType st)) (isEquipmentView (dataType st))
         (v_types v) (v_areas v) (v_cabinets v) = Some ctl.
Proof.
  unfold controls_shown, screen.
  destruct (render (dataType st) (data st) (filters st)) as [v|];
    cbn [mbind result_bind]; [|discriminate].
  intros H. exists v. split; [reflexivity|].
  destruct (loading st); [discriminate|].
  destruct (error st) as [e|]; [destruct (truthy e); [discriminate|]|]; exact H.
Qed.

Lemma isEquipmentView_spec (dataType : DataType) :
  isEquipmentView dataType = true <-> dataType = equipment.
Proof. destruct dataType; split; intros H; try reflexivity; discriminate. Qed.

Lemma on_screen_view (ev : Event) (st : State) :
  on_screen ev st ->
  match ev with
  | ClickArea _ => dataType st = equipment
  | ChangeCabinet _ =>
      dataType st = equipment /\ selectedArea (filters st) <> "All"
  | ChangeSearch _ => dataType st <> equipment
  | _ => True
  end.
Proof.
  destruct ev as [v|v|v|v|a' d'| |run init resp|]; try (intros _; exact I).
  - intros [ctl [opts [Hc [Ho _]]]]. apply controls_inv in Hc as [w [_ Hc]].
    unfold renderFilters in Hc. rewrite isFilterableView_true in Hc. cbn [negb] in Hc.
    inversion Hc; subst; clear Hc. cbn in Ho.
    destruct (isEquipmentView (dataType st)) eqn:E; [|discriminate].
    now apply isEquipmentView_spec.
  - intros [ctl [opts [Hc [Ho _]]]]. apply controls_inv in Hc as [w [Hw Hc]].
    unfold renderFilters in Hc. rewrite isFilterableView_true in Hc. cbn [negb] in Hc.
    inversion Hc; subst; clear Hc. cbn in Ho.
    destruct (isEquipmentView (dataType st)) eqn:E; [|discriminate].
    split; [now apply isEquipmentView_spec|].
    apply render_cabinets in Hw. apply cabinets_memo_members in Hw.
    destruct Hw as [Hw|[_ [Hw _]]]; [|exact Hw].
    rewrite Hw in Ho. discriminate.
  - intros [ctl [Hc Ho]]. apply controls_inv in Hc as [w [_ Hc]].
    unfold renderFilters in Hc. rewrite isFilterableView_true in Hc. cbn [negb] in Hc.
    inversion Hc; subst; clear Hc. cbn in Ho.
    intros E. apply isEquipmentView_spec in E. rewrite E in Ho. discriminate.
Qed.

Lemma step_fit (ev : Event) (st : State) :
  invariant st -> latest_run_listens st -> filters_fit st -> on_screen ev st ->
  filters_fit (step ev st).
Proof.
  intros Hinv Hl Hfit Hon.
  destruct (alive st) eqn:Ha; [|now rewrite dead_step].
  pose proof (proj2 Hinv Ha) as Hs.
  pose proof (step_cases ev st Hinv Hl) as Hc.
  apply on_screen_view in Hon.
  pose proof Hfit as [F1 [F2 F3]].
  assert (Hd : forall st', core st' = core st -> dataType st' = dataType st).
  { intros st' E. unfold core in E. now injection E. }
  destruct ev as [v|v|v|v|a' d'| |run init resp|]; unfold step_outcome in Hc.
  - destruct (filter_events st v Hs Ha) as [E _]. rewrite E.
    unfold filters_fit. cbn. auto.
  - destruct (filter_events st v Hs Ha) as [_ [_ [_ [E [Ec _]]]]].
    apply Hd in Ec. unfold filters_fit. rewrite E, Ec. cbn.
    split; [auto|]. split; [intros H; contradiction|].
    destruct (String.eqb_spec v (selectedArea (filters st))) as [->|Hne];
      [exact F3 | intros H; contradiction].
  - destruct (filter_events st v Hs Ha) as [_ [E _]]. rewrite E.
    unfold filters_fit. cbn. split; [auto|]. split; [auto|]. intros _. exact Hon.
  - destruct (filter_events st v Hs Ha) as [_ [_ [E _]]]. rewrite E.
    unfold filters_fit. cbn. split; [intros H; contradiction|]. split; auto.
  - rewrite Hc. destruct (alive st && _); [|exact Hfit].
    unfold filters_fit, restarted. cbn. repeat split; auto; contradiction.
  - rewrite Hc, Ha. destruct (intervalId st); exact Hfit.
  - rewrite Hc. unfold filters_fit.
    destruct (settle_filters run init resp st) as [Ef _].
    destruct (settle_core run init resp st) as [_ [Ed _]].
    rewrite Ef, Ed. exact Hfit.
  - rewrite Hc, Ha. exact Hfit.
Qed.

Lemma run_events_fit (evs : list Event) (st : State) :
  invariant st -> latest_run_listens st -> filters_fit st -> user_trace evs st ->
  filters_fit (run_events evs st).
Proof.
  revert st. induction evs as [|ev evs IH]; intros st Hi Hl Hf Hu; [exact Hf|].
  destruct Hu as [Hon Hu]. cbn. apply IH; auto.
  - now apply step_invariant.
  - now apply step_latest.
  - now apply step_fit.
Qed.

Lemma render_visible (dataType : DataType) (data : option grid) (fs : FilterState)
    (v : View) :
  render dataType data fs = Ok v ->
  v_visibleEquipmentColumns v
  = visibleEquipmentColumns (isEquipmentView dataType) (v_filteredBodyRows v)
      (v_reorderedData v) (searchTerm fs).
Proof.
  unfold render.
  destruct (reorderedData (isEquipmentView dataType) data) as [rd|];
    cbn [mbind result_bind]; [|discriminate].
  destruct (types_memo _ rd _) as [[ts ti]|]; cbn [mbind result_bind]; [|discriminate].
  destruct (areas_memo rd _) as [[ars ai]|]; cbn [mbind result_bind]; [|discriminate].
  destruct (cabinets_memo _ rd _ ai _) as [[cs ci]|];
    cbn [mbind result_bind]; [|discriminate].
  intros H. inversion H; subst. reflexivity.
Qed.

(** X27. Each filter is set only where its control is.  When every use
    of a filter control finds the control on the screen, the search term
    is empty in the equipment view, which has no search box, so that the
    columns of the equipment table are always chosen by the quantities in
    the rows and never by the labels of the header; the selected area is
    'All' in the stock views, which have no area buttons; and a cabinet is
    selected only in the equipment view with an area selected. *)
Theorem filters_follow_controls (a : Area) (d : DataType) (evs : list Event) :
  user_trace evs (mount a d) ->
  let st := run_events evs (mount a d) in
  (dataType st = equipment -> searchTerm (filters st) = "")
  /\ (dataType st <> equipment -> selectedArea (filters st) = "All")
  /\ (selectedCabinet (filters st) <> "All" ->
      dataType st = equipment /\ selectedArea (filters st) <> "All")
  /\ (forall v,
        render (dataType st) (data st) (filters st) = Ok v ->
        v_visibleEquipmentColumns v
        = visibleEquipmentColumns (isEquipmentView (dataType st))
            (v_filteredBodyRows v) (v_reorderedData v) "").
Proof.
  intros Hu st.
  assert (Hfit : filters_fit st).
  { apply (run_events_fit evs (mount a d)); auto.
    - apply mount_invariant.
    - apply mount_latest.
    - rewrite mount_state. unfold filters_fit. cbn.
      repeat split; auto; contradiction. }
  clearbody st. destruct Hfit as [F1 [F2 F3]].
  split; [exact F1|]. split; [exact F2|]. split; [exact F3|].
  intros v Hv. rewrite (render_visible _ _ _ _ Hv).
  destruct (isEquipmentView (dataType st)) eqn:E.
  - apply isEquipmentView_spec in E. now rewrite (F1 E).
  - unfold visibleEquipmentColumns. now destruct (v_reorderedData v).
Qed.

Lemma filters_follow_controls_witness :
  let evs :=
    [Settled 0 true
       (Json {| success := true; payload_data := Some example_equipment;
                payload_error := None |});
     ClickArea "North"] in
  user_trace evs (mount NPP11 equipment)
  /\ let st := run_events evs (mount NPP11 equipment) in
     (dataType st = equipment -> searchTerm (filters st) = "")
     /\ (dataType st <> equipment -> selectedArea (filters st) = "All")
     /\ (selectedCabinet (filters st) <> "All" ->
         dataType st = equipment /\ selectedArea (filters st) <> "All")
     /\ (forall v,
           render (dataType st) (data st) (filters st) = Ok v ->
           v_visibleEquipmentColumns v
           = visibleEquipmentColumns (isEquipmentView (dataType st))
               (v_filteredBodyRows v) (v_reorderedData v) "").
Proof.
  intros evs.
  assert (Hu : user_trace evs (mount NPP11 equipment)).
  { split; [exact I|]. split; [|exact I].
    eexists. eexists. split; [vm_compute; reflexivity|].
    split; [reflexivity|]. right. left. }
  split; [exact Hu|].
  exact (filters_follow_controls NPP11 equipment evs Hu).
Defined.

(** ** GridFetcher: where the grid on the page comes from *)

Lemma carried_failure (resp : Response) :
  match carried resp with
  | Some g => failure resp = None
              /\ exists p, resp = Json p /\ success p = true /\ payload_data p = Some g
  | None => failure resp <> None
  end.
Proof.
  destruct resp as [m|s|m|p]; cbn; try discriminate.
  destruct (success p) eqn:Es; [|discriminate].
  destruct (payload_data p) as [g|] eqn:Ed; [|discriminate].
  split; [reflexivity|]. now exists p.
Qed.

Lemma step_fresh (ev : Event) (st : State) (last : option (nat * grid)) :
  invariant st -> latest_run_listens st -> fresh st last ->
  fresh (step ev st)
    (match applied ev st with Some rg => Some rg | None => last end).
Proof.
  intros Hinv Hl Hfr. pose proof Hfr as [Hd Hf]. pose proof (step_cases ev st Hinv Hl) as Hc.
  destruct ev as [v|v|v|v|a' d'| |run init resp|]; unfold step_outcome in Hc;
    cbn [applied].
  1-4: destruct Hc as [Hc _]; unfold core in Hc;
       injection Hc as _ _ Hda Hlo He _ Hi _ Ha; unfold fresh;
       rewrite Hda, Hlo, He, Hi, Ha; now split.
  - rewrite Hc. destruct (alive st && _); [|exact Hfr].
    split; [exact Hd|]. cbn. discriminate.
  - rewrite Hc. destruct (alive st); [|exact Hfr].
    destruct (intervalId st); exact Hfr.
  - rewrite Hc. destruct (default false (isMounted st !! run)) eqn:Hm.
    + assert (Hm' : isMounted st !! run = Some true).
      { destruct (isMounted st !! run) as [[]|]; try discriminate. reflexivity. }
      pose proof (carried_failure resp) as Hcar.
      destruct (carried resp) as [g|]; cbn [fmap option_fmap option_map].
      * destruct Hcar as [_ [p [-> [Hs Hp]]]].
        rewrite (settle_success run init p g st Hs Hp Hm').
        destruct (proj1 Hinv run Hm') as [_ Hi].
        split; [now destruct init|].
        intros _ _ _. exists run, g. split; [reflexivity|]. now destruct init.
      * destruct (failure resp) as [m|] eqn:Hfail; [|contradiction].
        destruct init.
        -- rewrite (settle_initial_failure run resp m st Hfail Hm').
           split; [exact Hd|]. cbn. discriminate.
        -- rewrite settle_background_failure by congruence. exact Hfr.
    + rewrite settle_not_mounted by exact Hm. exact Hfr.
  - rewrite Hc. destruct (alive st); [|exact Hfr].
    split; [exact Hd|]. cbn. discriminate.
Qed.

Lemma run_events_fresh (evs : list Event) (st : State) (last : option (nat * grid)) :
  invariant st -> latest_run_listens st -> fresh st last ->
  fresh (run_events evs st) (delivered evs st last).
Proof.
  revert st last. induction evs as [|ev evs IH]; intros st last Hi Hl Hf; [exact Hf|].
  cbn. apply IH.
  - now apply step_invariant.
  - now apply step_latest.
  - now apply step_fresh.
Qed.

(** The page is drawn when the component is not loading and the error is
    not truthy: there is none, or it is the empty message. *)
Lemma screen_page (st : State) (c : option Controls) (t : Content) :
  screen st = Ok (Page c t) ->
  loading st = false /\ (error st = None \/ error st = Some "").
Proof.
  unfold screen.
  destruct (render (dataType st) (data st) (filters st)) as [v|];
    cbn [mbind result_bind]; [|discriminate].
  destruct (loading st); [discriminate|]. intros H. split; [reflexivity|].
  destruct (error st) as [[|ch e]|]; [now right | discriminate | now left].
Qed.

(** X28. The grid on the page and the run that listens, in the states
    after the effects of a commit have run.  The data in the state is
    always the grid of the last response that was applied.  When the page
    of a mounted component is drawn (it is neither loading nor showing an
    error panel), then either the error is the empty message, which is
    falsy, or the last response applied answered a request of the run that
    listens now.  So, short of a failure with an empty message, the grid
    kept across a change of the props is not drawn for the new ones once
    the effects have run; the render that comes between the change of the
    props and the effects is not among these states. *)
Theorem page_shows_fresh_grid (a : Area) (d : DataType) (evs : list Event)
    (c : option Controls) (t : Content) :
  let st := run_events evs (mount a d) in
  data st = snd <$> delivered evs (mount a d) None
  /\ (alive st = true -> screen st = Ok (Page c t) ->
      error st = Some ""
      \/ exists run g,
           delivered evs (mount a d) None = Some (run, g)
           /\ data st = Some g
           /\ intervalId st = Some run
           /\ isMounted st !! run = Some true).
Proof.
  intros st.
  assert (H0 : fresh (mount a d) None).
  { rewrite mount_state. split; [reflexivity|]. cbn. discriminate. }
  destruct (run_events_fresh evs _ None (mount_invariant a d) (mount_latest a d) H0)
    as [Hd Hf].
  destruct (reachable_ok a d evs) as [_ Hl]. fold st in Hd, Hf, Hl.
  split; [exact Hd|]. intros Ha Hp.
  apply screen_page in Hp as [Hlo [He|He]]; [right | now left].
  destruct (Hf Ha Hlo He) as [run [g [E Hi]]]. exists run, g.
  split; [exact E|]. split; [now rewrite Hd, E|]. split; [exact Hi|].
  unfold latest_run_listens in Hl. rewrite Ha in Hl. destruct Hl as [n [Hm Hn]].
  assert (n = run) by congruence. subst n.
  rewrite Hm, lookup_app_r by (rewrite length_replicate; lia).
  now rewrite length_replicate, Nat.sub_diag.
Qed.

(** The two ways for a grid to be drawn for props it was not fetched for:
    the initial load for the new props fails with an empty message; and
    the render that comes between the change of the props and the
    effects. *)
Example stale_grid_after_empty_failure :
  let evs := [Settled 0 true sample_response; Props EWTP stock;
              Settled 1 true (NetworkFailure "")] in
  let st := run_events evs (mount PULP2 stock) in
  area st = EWTP
  /\ data st = Some sample_grid
  /\ delivered evs (mount PULP2 stock) None = Some (0%nat, sample_grid)
  /\ intervalId st = Some 1%nat
  /\ error st = Some ""
  /\ exists v, render stock (Some sample_grid) (filters st) = Ok v
              /\ screen st = Ok (page stock (filters st) v).
Proof.
  cbv zeta. repeat (split; [vm_compute; reflexivity|]).
  eexists. split; vm_compute; reflexivity.
Qed.

Example stale_grid_before_the_effects :
  let st := run_events [Settled 0 true sample_response] (mount PULP2 stock) in
  let st' := handle (Props EWTP stock) st in
  step (Props EWTP stock) st = commit st'
  /\ area st' = EWTP
  /\ data st' = Some sample_grid
  /\ intervalId st' = Some 0%nat
  /\ exists v, render stock (Some sample_grid) (filters st') = Ok v
              /\ screen st' = Ok (page stock (filters st') v).
Proof.
  cbv zeta. repeat (split; [vm_compute; reflexivity|]).
  eexists. split; vm_compute; reflexivity.
Qed.

Lemma page_shows_fresh_grid_witness :
  let evs := [Settled 0 true sample_response] in
  let st := run_events evs (mount PULP2 stock) in
  alive st = true
  /\ (exists c t, screen st = Ok (Page c t))
  /\ error st = None
  /\ delivered evs (mount PULP2 stock) None = Some (0%nat, sample_grid)
  /\ data st = Some sample_grid
  /\ intervalId st = Some 0%nat
  /\ isMounted st !! 0%nat = Some true.
Proof.
  intros evs st.
  assert (Ha : alive st = true) by (vm_compute; reflexivity).
  assert (Hp : exists c t, screen st = Ok (Page c t))
    by (do 2 eexists; vm_compute; reflexivity).
  assert (He : error st = None) by (vm_compute; reflexivity).
  assert (Ed : delivered evs (mount PULP2 stock) None = Some (0%nat, sample_grid))
    by (vm_compute; reflexivity).
  split; [exact Ha|]. split; [exact Hp|]. split; [exact He|]. split; [exact Ed|].
  destruct Hp as [c [t Hp]].
  destruct (page_shows_fresh_grid PULP2 stock evs c t) as [_ H].
  fold st in H. clearbody st.
  destruct (H Ha Hp) as [E|[run [g [E [Hd [Hi Hm]]]]]]; [congruence|].
  rewrite Ed in E. injection E as <- <-. now repeat split.
Defined.

Example stale_grid_behind_the_spinner :
  let evs := [Settled 0 true sample_response; Props EWTP stock] in
  let st := run_events evs (mount PULP2 stock) in
  data st = Some sample_grid
  /\ delivered evs (mount PULP2 stock) None = Some (0%nat, sample_grid)
  /\ intervalId st = Some 1%nat
  /\ screen st = Ok Spinner.
Proof. repeat split; reflexivity. Qed.
